(** * betman: the multiplayer room, the relay and the remote client

    A shallow embedding of [internal/network] (room.go, the WebSocket server,
    the message envelope and the network client) and of the part of
    [internal/game] the room uses.

    Conventions of the embedding:
    - [float64] is Rocq's primitive binary64 [float]; Go's [<], [>], [==],
      [+], [-], [*] on it are [PrimFloat.ltb], [PrimFloat.eqb],
      [PrimFloat.add], ...;
    - Go's [int] is a [Z] kept in the 64-bit two's complement range by
      [wrap64];
    - a Go [map[string]T] is a [gmap string T]; a [range] loop over a map is a
      [map_fold] (Go leaves the order unspecified, every loop below is shown
      or used independently of it);
    - a pointer that may be nil is an [option];
    - a buffered channel is the list of the values waiting in it, oldest
      first, together with its capacity;
    - [time.Time] is an instant, in nanoseconds since the Unix epoch; every
      exported operation takes the reading of [time.Now()] as an argument;
    - goroutines and timers started by the room are recorded in the room
      ([spawned], [timer]) and run by the events of [exec]. *)

From Stdlib Require Import ZArith Floats Ascii String.
From stdpp Require Import gmap strings list fin_maps pretty.

Set Warnings "-register-all".

Local Open Scope string_scope.
Local Open Scope list_scope.
Local Open Scope Z_scope.

(** ** Go's runtime: integers, time, channels *)

Definition wrap64 (z : Z) : Z := (z + 2 ^ 63) mod 2 ^ 64 - 2 ^ 63.

Definition sat64 (z : Z) : Z := Z.max (- 2 ^ 63) (Z.min (2 ^ 63 - 1) z).

Definition Time := Z.
Definition Duration := Z.

Definition Nanosecond : Duration := 1.
Definition Second : Duration := 1000000000.
Definition Minute : Duration := 60 * Second.

(** [time.Time{}], January 1 of year 1. *)
Definition zeroTime : Time := -62135596800 * Second.

(** [t.Add(d)] *)
Definition Time_Add (t : Time) (d : Duration) : Time := t + d.

(** [time.Until(t)], that is [t.Sub(time.Now())]: the difference, saturated to
    the range of a [Duration]. *)
Definition Until (now t : Time) : Duration := sat64 (t - now).

(** [float64(i)] for an [int64] [i] small enough for [of_uint63]. *)
Definition float_of_int (z : Z) : float :=
  if z <? 0 then PrimFloat.opp (PrimFloat.of_uint63 (Uint63.of_Z (- z)))
  else PrimFloat.of_uint63 (Uint63.of_Z z).

(** [int(f)]: truncation toward zero of a finite [float64] (Go leaves the
    result open when the value does not fit an [int]). *)
Definition int_of_float (f : float) : Z :=
  match Prim2SF f with
  | S754_finite s m e =>
      let mag := if e <? 0 then Z.pos m / 2 ^ (- e) else Z.pos m * 2 ^ e in
      if s then - mag else mag
  | _ => 0
  end.

(** [d.Seconds()] *)
Definition Duration_Seconds (d : Duration) : float :=
  PrimFloat.add (float_of_int (Z.quot d Second))
                (PrimFloat.div (float_of_int (Z.rem d Second)) 1e9%float).

(** [select { case ch <- v: ... default: ... }] on a channel of capacity
    [cap] holding [q]: the send case is ready when the buffer has room; [None]
    is the [default] branch. *)
Definition chan_offer {A} (cap : nat) (q : list A) (v : A) : option (list A) :=
  if (List.length q <? cap)%nat then Some (q ++ [v]) else None.

(** ** Package game: sides and the coin *)

Module game.

Definition Side := string.
Definition Heads : Side := "heads".
Definition Tails : Side := "tails".

Definition IsValid (s : Side) : bool := String.eqb s Heads || String.eqb s Tails.

End game.

(** ** Errors *)

Inductive Error :=
| ErrRoomFull
| ErrRoomNotFound
| ErrPlayerNotFound
| ErrInvalidGamePhase
| ErrBettingClosed
| ErrPlayerAlreadyBet
| ErrInsufficientBalance   (* game.ErrInsufficientBalance *)
| ErrInvalidBetAmount      (* game.ErrInvalidBetAmount *)
| ErrInvalidChoice         (* game.ErrInvalidChoice *)
| ErrorsNew (msg : string). (* errors.New(msg) *)

(** ** Message kinds and room phases *)

Definition MessageType := string.

Definition MsgJoinRoom : MessageType := "join_room".
Definition MsgLeaveRoom : MessageType := "leave_room".
Definition MsgRoomUpdate : MessageType := "room_update".
Definition MsgPlayerList : MessageType := "player_list".
Definition MsgGameStart : MessageType := "game_start".
Definition MsgBetPhase : MessageType := "bet_phase".
Definition MsgBetPlaced : MessageType := "bet_placed".
Definition MsgRevealPhase : MessageType := "reveal_phase".
Definition MsgGameResult : MessageType := "game_result".
Definition MsgRoundEnd : MessageType := "round_end".
Definition MsgTimerUpdate : MessageType := "timer_update".
Definition MsgSeedCommit : MessageType := "seed_commit".
Definition MsgSeedReveal : MessageType := "seed_reveal".
Definition MsgError : MessageType := "error".

Definition messageKinds : list MessageType :=
  [MsgJoinRoom; MsgLeaveRoom; MsgRoomUpdate; MsgPlayerList; MsgGameStart;
   MsgBetPhase; MsgBetPlaced; MsgRevealPhase; MsgGameResult; MsgRoundEnd;
   MsgTimerUpdate; MsgSeedCommit; MsgSeedReveal; MsgError].

Inductive GameState :=
| StateWaiting
| StateBetting
| StateRevealing
| StateResult
| StatePaused.

#[global] Instance GameState_eq_dec : EqDecision GameState.
Proof. solve_decision. Defined.

Definition GameState_string (s : GameState) : string :=
  match s with
  | StateWaiting => "waiting"
  | StateBetting => "betting"
  | StateRevealing => "revealing"
  | StateResult => "result"
  | StatePaused => "paused"
  end.

Definition GameState_eqb (a b : GameState) : bool :=
  match a, b with
  | StateWaiting, StateWaiting
  | StateBetting, StateBetting
  | StateRevealing, StateRevealing
  | StateResult, StateResult
  | StatePaused, StatePaused => true
  | _, _ => false
  end.

(** ** Payload structs of the wire protocol *)

Module RoomJoinData.
Record t := mk { PlayerName : string; Balance : float }.
End RoomJoinData.

Module PlayerInfo.
Record t := mk {
  ID : string;
  Name : string;
  Balance : float;
  IsReady : bool;
  HasBet : bool;
  IsOnline : bool
}.
End PlayerInfo.

Module RoomUpdateData.
Record t := mk {
  RoomID : string;
  Players : list PlayerInfo.t;
  State : GameState;
  Timer : Z;
  MinPlayers : Z;
  MaxPlayers : Z
}.
End RoomUpdateData.

Module BetData.
Record t := mk {
  PlayerID : string;
  Amount : float;
  Choice : game.Side;
  BetID : string
}.
End BetData.

Module TimerData.
Record t := mk { Phase : GameState; SecondsLeft : Z; TotalSeconds : Z }.
End TimerData.

Module PlayerResult.
Record t := mk {
  PlayerID : string;
  PlayerName : string;
  Bet : option BetData.t;
  Won : bool;
  Payout : float;
  NewBalance : float
}.
End PlayerResult.

Module GameResultData.
Record t := mk {
  RoundID : string;
  CoinResult : game.Side;
  FinalSeed : string;
  Winners : list PlayerResult.t;
  Losers : list PlayerResult.t;
  Timestamp : Time
}.
End GameResultData.

Module ErrorData.
Record t := mk { Code : string; Message : string; Details : string }.
End ErrorData.

(** What [json.Unmarshal] stores in an [interface{}]: [nil], [bool],
    [float64], [string], [[]interface{}] and [map[string]interface{}] (the
    map as its bindings, sorted by key). *)
Inductive Any :=
| ANil
| ABool (b : bool)
| AFloat (f : float)
| AString (s : string)
| ASlice (l : list Any)
| AMap (m : list (string * Any)).

(** The dynamic value of the envelope's [Data interface{}]: one of the payload
    structs the package puts there (by value or behind a pointer), or a
    generic value. *)
Inductive Payload :=
| DataAny (a : Any)
| DataJoin (d : RoomJoinData.t)
| DataRoomUpdate (d : RoomUpdateData.t)
| DataBet (d : BetData.t)
| DataTimer (d : TimerData.t)
| DataGameResult (d : GameResultData.t)
| DataError (d : ErrorData.t).

Definition DataNil : Payload := DataAny ANil.
Definition DataString (s : string) : Payload := DataAny (AString s).

Module Message.
Record t := mk {
  Type_ : MessageType;   (* the field Type *)
  RoomID : string;
  PlayerID : string;
  Timestamp : Time;
  Data : Payload
}.
End Message.

Definition NewMessage (now : Time) (msgType : MessageType) (roomID playerID : string)
    (data : Payload) : Message.t :=
  {| Message.Type_ := msgType;
     Message.RoomID := roomID;
     Message.PlayerID := playerID;
     Message.Timestamp := now;
     Message.Data := data |}.

(** ** The room's structs *)

Module RoomPlayer.
Record t := mk {
  ID : string;
  Name : string;
  Balance : float;
  IsReady : bool;
  IsOnline : bool;
  LastSeen : Time;
  CurrentBet : option BetData.t;
  TotalGames : Z;
  TotalWins : Z;
  NetProfit : float
}.
End RoomPlayer.

Module GameRound.
Record t := mk {
  ID : string;
  StartTime : Time;
  Bets : gmap string BetData.t;
  SeedCommits : gmap string string;
  SeedReveals : gmap string string;
  FinalSeed : string;
  CoinResult : game.Side;
  Results : gmap string PlayerResult.t;
  State : GameState
}.
End GameRound.

Module RoomConfig.
Record t := mk {
  MinPlayers : Z;
  MaxPlayers : Z;
  MinBet : float;
  MaxBet : float;
  PayoutRatio : float;
  BettingDuration : Duration;
  ResultDuration : Duration;
  RequireConsensus : bool
}.
End RoomConfig.

Definition DefaultMinPlayers : Z := 2.
Definition DefaultMaxPlayers : Z := 8.
Definition BettingPhaseDuration : Duration := 60 * Second.
Definition ResultPhaseDuration : Duration := 10 * Second.
Definition DefaultRoomTimeout : Duration := 30 * Minute.

Definition DefaultRoomConfig : RoomConfig.t :=
  {| RoomConfig.MinPlayers := DefaultMinPlayers;
     RoomConfig.MaxPlayers := DefaultMaxPlayers;
     RoomConfig.MinBet := 1%float;
     RoomConfig.MaxBet := 100%float;
     RoomConfig.PayoutRatio := 2%float;
     RoomConfig.BettingDuration := BettingPhaseDuration;
     RoomConfig.ResultDuration := ResultPhaseDuration;
     RoomConfig.RequireConsensus := true |}.

(** [r.timer], a [*time.Timer]: [None] is nil. *)
Inductive TimerState :=
| TimerPending    (* armed, its function has not run *)
| TimerStopped    (* Stop() was called before it fired *)
| TimerFired.     (* its function has been started *)

(** What the room leaves to the Go runtime to run later. *)
Inductive Task :=
| GoStartGame                            (* go func() { r.StartGame() }() *)
| GoBroadcastTimer                       (* go r.broadcastTimer() *)
| AfterResultDuration (d : Duration)     (* time.AfterFunc(r.config.ResultDuration, ...) *)
| GoSleepStartGame (d : Duration).       (* go func() { time.Sleep(2s); r.StartGame() }() *)

Inductive LogLevel := LogDebug | LogInfo | LogWarn | LogError.

(** [GameRoom]; [logger] is what has been written to the room's logger,
    [spawned] the goroutines and one-shot callbacks started and not yet run. *)
Record GameRoom := mkGameRoom {
  room_id : string;
  room_name : string;
  players : gmap string RoomPlayer.t;
  gameState : GameState;
  currentRound : option GameRound.t;
  config : RoomConfig.t;
  logger : list (LogLevel * string);
  timer : option TimerState;
  timerEnd : Time;
  eventChan : list Message.t;
  totalRounds : Z;
  createdAt : Time;
  lastActivity : Time;
  spawned : list Task
}.

(** capacity of [eventChan]: [make(chan *Message, 100)] *)
Definition eventChanCap : nat := 100.

Definition set_players (v : gmap string RoomPlayer.t) (r : GameRoom) : GameRoom :=
  mkGameRoom (room_id r) (room_name r) v (gameState r) (currentRound r) (config r)
    (logger r) (timer r) (timerEnd r) (eventChan r) (totalRounds r) (createdAt r)
    (lastActivity r) (spawned r).

Definition set_gameState (v : GameState) (r : GameRoom) : GameRoom :=
  mkGameRoom (room_id r) (room_name r) (players r) v (currentRound r) (config r)
    (logger r) (timer r) (timerEnd r) (eventChan r) (totalRounds r) (createdAt r)
    (lastActivity r) (spawned r).

Definition set_currentRound (v : option GameRound.t) (r : GameRoom) : GameRoom :=
  mkGameRoom (room_id r) (room_name r) (players r) (gameState r) v (config r)
    (logger r) (timer r) (timerEnd r) (eventChan r) (totalRounds r) (createdAt r)
    (lastActivity r) (spawned r).

Definition set_logger (v : list (LogLevel * string)) (r : GameRoom) : GameRoom :=
  mkGameRoom (room_id r) (room_name r) (players r) (gameState r) (currentRound r)
    (config r) v (timer r) (timerEnd r) (eventChan r) (totalRounds r) (createdAt r)
    (lastActivity r) (spawned r).

Definition set_timer (v : option TimerState) (r : GameRoom) : GameRoom :=
  mkGameRoom (room_id r) (room_name r) (players r) (gameState r) (currentRound r)
    (config r) (logger r) v (timerEnd r) (eventChan r) (totalRounds r) (createdAt r)
    (lastActivity r) (spawned r).

Definition set_timerEnd (v : Time) (r : GameRoom) : GameRoom :=
  mkGameRoom (room_id r) (room_name r) (players r) (gameState r) (currentRound r)
    (config r) (logger r) (timer r) v (eventChan r) (totalRounds r) (createdAt r)
    (lastActivity r) (spawned r).

Definition set_eventChan (v : list Message.t) (r : GameRoom) : GameRoom :=
  mkGameRoom (room_id r) (room_name r) (players r) (gameState r) (currentRound r)
    (config r) (logger r) (timer r) (timerEnd r) v (totalRounds r) (createdAt r)
    (lastActivity r) (spawned r).

Definition set_totalRounds (v : Z) (r : GameRoom) : GameRoom :=
  mkGameRoom (room_id r) (room_name r) (players r) (gameState r) (currentRound r)
    (config r) (logger r) (timer r) (timerEnd r) (eventChan r) v (createdAt r)
    (lastActivity r) (spawned r).

Definition set_lastActivity (v : Time) (r : GameRoom) : GameRoom :=
  mkGameRoom (room_id r) (room_name r) (players r) (gameState r) (currentRound r)
    (config r) (logger r) (timer r) (timerEnd r) (eventChan r) (totalRounds r)
    (createdAt r) v (spawned r).

Definition set_spawned (v : list Task) (r : GameRoom) : GameRoom :=
  mkGameRoom (room_id r) (room_name r) (players r) (gameState r) (currentRound r)
    (config r) (logger r) (timer r) (timerEnd r) (eventChan r) (totalRounds r)
    (createdAt r) (lastActivity r) v.

(** [r.logger.Info(msg, ...)] and the like: the structured fields are left
    out. *)
Definition log (lvl : LogLevel) (msg : string) (r : GameRoom) : GameRoom :=
  set_logger (logger r ++ [(lvl, msg)]) r.

(** [go f()] and [time.AfterFunc]: the task joins the ones waiting to run. *)
Definition spawn (t : Task) (r : GameRoom) : GameRoom :=
  set_spawned (spawned r ++ [t]) r.

(** [len(r.players)] *)
Definition len_players (r : GameRoom) : Z := Z.of_nat (size (players r)).

Definition NewGameRoom (now : Time) (id name : string) (cfg : option RoomConfig.t) : GameRoom :=
  {| room_id := id;
     room_name := name;
     players := ∅;
     gameState := StateWaiting;
     currentRound := None;
     config := match cfg with Some c => c | None => DefaultRoomConfig end;
     logger := [];
     timer := None;
     timerEnd := zeroTime;
     eventChan := [];
     totalRounds := 0;
     createdAt := now;
     lastActivity := now;
     spawned := [] |}.

(** ** Broadcasting *)

Definition broadcastMessage (msg : Message.t) (r : GameRoom) : GameRoom :=
  match chan_offer eventChanCap (eventChan r) msg with
  | Some q => set_eventChan q r
  | None => log LogWarn "Event channel full, dropping message" r
  end.

Definition playerInfo (p : RoomPlayer.t) : PlayerInfo.t :=
  {| PlayerInfo.ID := RoomPlayer.ID p;
     PlayerInfo.Name := RoomPlayer.Name p;
     PlayerInfo.Balance := RoomPlayer.Balance p;
     PlayerInfo.IsReady := RoomPlayer.IsReady p;
     PlayerInfo.HasBet := bool_decide (is_Some (RoomPlayer.CurrentBet p));
     PlayerInfo.IsOnline := RoomPlayer.IsOnline p |}.

Definition roomUpdateData (now : Time) (r : GameRoom) : RoomUpdateData.t :=
  {| RoomUpdateData.RoomID := room_id r;
     RoomUpdateData.Players :=
       map_fold (fun _ p acc => acc ++ [playerInfo p]) [] (players r);
     RoomUpdateData.State := gameState r;
     RoomUpdateData.Timer := int_of_float (Duration_Seconds (Until now (timerEnd r)));
     RoomUpdateData.MinPlayers := RoomConfig.MinPlayers (config r);
     RoomUpdateData.MaxPlayers := RoomConfig.MaxPlayers (config r) |}.

Definition broadcastRoomUpdate (now : Time) (r : GameRoom) : GameRoom :=
  broadcastMessage
    (NewMessage now MsgRoomUpdate (room_id r) "" (DataRoomUpdate (roomUpdateData now r))) r.

(** ** The coin: [DefaultRandomGenerator.FlipCoin] *)

Definition hexDigit (n : N) : ascii :=
  match String.get (N.to_nat n) "0123456789abcdef" with
  | Some c => c
  | None => "0"%char
  end.

(** [hex.EncodeToString] *)
Definition hex_EncodeToString (bs : list Byte.byte) : string :=
  fold_right
    (fun b acc =>
       String (hexDigit (Byte.to_N b / 16)) (String (hexDigit (Byte.to_N b mod 16)) acc))
    "" bs.

(** [binary.BigEndian.Uint64] *)
Definition BigEndian_Uint64 (bs : list Byte.byte) : Z :=
  fold_left (fun acc b => acc * 256 + Z.of_N (Byte.to_N b)) bs 0.

Section Room.

(** [sha256.Sum256], from Go's library: the 32 bytes of the digest. *)
Variable Sum256 : list Byte.byte → list Byte.byte.

(** [FlipCoin]: the side, and whether the call failed (then the side is the
    empty string). *)
Definition FlipCoin (seed : string) : game.Side * option Error :=
  if String.eqb seed "" then ("", Some (ErrorsNew "seed cannot be empty"))
  else
    let hash := Sum256 (list_byte_of_string seed) in
    let randomValue := BigEndian_Uint64 (take 8 hash) in
    if randomValue mod 2 =? 0 then (game.Heads, None) else (game.Tails, None).

(** ** The room's operations *)

Definition generateBetID (now : Time) : string := "bet_" +:+ pretty now.

Definition generateRoundID (now : Time) (r : GameRoom) : string :=
  "round_" +:+ room_id r +:+ "_" +:+ pretty now.

Definition newRoomPlayer (now : Time) (playerID playerName : string) (balance : float)
    : RoomPlayer.t :=
  {| RoomPlayer.ID := playerID;
     RoomPlayer.Name := playerName;
     RoomPlayer.Balance := balance;
     RoomPlayer.IsReady := false;
     RoomPlayer.IsOnline := true;
     RoomPlayer.LastSeen := now;
     RoomPlayer.CurrentBet := None;
     RoomPlayer.TotalGames := 0;
     RoomPlayer.TotalWins := 0;
     RoomPlayer.NetProfit := 0%float |}.

(** [checkAndStartGame]: the round is not started here, a goroutine that will
    call [StartGame] is. *)
Definition checkAndStartGame (r : GameRoom) : GameRoom :=
  if (len_players r >=? RoomConfig.MinPlayers (config r))
     && GameState_eqb (gameState r) StateWaiting
  then spawn GoStartGame (log LogInfo "Auto-starting betting round" r)
  else r.

(** [AddPlayer] once the room is found to have a free place. *)
Definition admitPlayer (now : Time) (playerID playerName : string) (balance : float)
    (r : GameRoom) : GameRoom :=
  let player := newRoomPlayer now playerID playerName balance in
  let r := set_players (<[playerID := player]> (players r)) r in
  let r := set_lastActivity now r in
  let r := log LogInfo "Player joined room" r in
  let r := broadcastRoomUpdate now r in
  checkAndStartGame r.

Definition AddPlayer (now : Time) (playerID playerName : string) (balance : float)
    (r : GameRoom) : GameRoom * option Error :=
  if len_players r >=? RoomConfig.MaxPlayers (config r) then (r, Some ErrRoomFull)
  else (admitPlayer now playerID playerName balance r, None).

(** [pauseGame] *)
Definition stopTimer (t : option TimerState) : option TimerState :=
  match t with
  | Some TimerPending => Some TimerStopped
  | other => other
  end.

Definition pauseGame (now : Time) (r : GameRoom) : GameRoom :=
  let r := set_timer (stopTimer (timer r)) r in
  let r := set_gameState StatePaused r in
  let r := log LogInfo "Game paused" r in
  broadcastRoomUpdate now r.

Definition with_Balance (b : float) (p : RoomPlayer.t) : RoomPlayer.t :=
  RoomPlayer.mk (RoomPlayer.ID p) (RoomPlayer.Name p) b (RoomPlayer.IsReady p)
    (RoomPlayer.IsOnline p) (RoomPlayer.LastSeen p) (RoomPlayer.CurrentBet p)
    (RoomPlayer.TotalGames p) (RoomPlayer.TotalWins p) (RoomPlayer.NetProfit p).

Definition with_CurrentBet (b : option BetData.t) (p : RoomPlayer.t) : RoomPlayer.t :=
  RoomPlayer.mk (RoomPlayer.ID p) (RoomPlayer.Name p) (RoomPlayer.Balance p)
    (RoomPlayer.IsReady p) (RoomPlayer.IsOnline p) (RoomPlayer.LastSeen p) b
    (RoomPlayer.TotalGames p) (RoomPlayer.TotalWins p) (RoomPlayer.NetProfit p).

Definition with_TotalGames (n : Z) (p : RoomPlayer.t) : RoomPlayer.t :=
  RoomPlayer.mk (RoomPlayer.ID p) (RoomPlayer.Name p) (RoomPlayer.Balance p)
    (RoomPlayer.IsReady p) (RoomPlayer.IsOnline p) (RoomPlayer.LastSeen p)
    (RoomPlayer.CurrentBet p) n (RoomPlayer.TotalWins p) (RoomPlayer.NetProfit p).

Definition with_TotalWins (n : Z) (p : RoomPlayer.t) : RoomPlayer.t :=
  RoomPlayer.mk (RoomPlayer.ID p) (RoomPlayer.Name p) (RoomPlayer.Balance p)
    (RoomPlayer.IsReady p) (RoomPlayer.IsOnline p) (RoomPlayer.LastSeen p)
    (RoomPlayer.CurrentBet p) (RoomPlayer.TotalGames p) n (RoomPlayer.NetProfit p).

Definition with_NetProfit (x : float) (p : RoomPlayer.t) : RoomPlayer.t :=
  RoomPlayer.mk (RoomPlayer.ID p) (RoomPlayer.Name p) (RoomPlayer.Balance p)
    (RoomPlayer.IsReady p) (RoomPlayer.IsOnline p) (RoomPlayer.LastSeen p)
    (RoomPlayer.CurrentBet p) (RoomPlayer.TotalGames p) (RoomPlayer.TotalWins p) x.

Definition with_Bets (b : gmap string BetData.t) (rd : GameRound.t) : GameRound.t :=
  GameRound.mk (GameRound.ID rd) (GameRound.StartTime rd) b (GameRound.SeedCommits rd)
    (GameRound.SeedReveals rd) (GameRound.FinalSeed rd) (GameRound.CoinResult rd)
    (GameRound.Results rd) (GameRound.State rd).

Definition with_FinalSeed (s : string) (rd : GameRound.t) : GameRound.t :=
  GameRound.mk (GameRound.ID rd) (GameRound.StartTime rd) (GameRound.Bets rd)
    (GameRound.SeedCommits rd) (GameRound.SeedReveals rd) s (GameRound.CoinResult rd)
    (GameRound.Results rd) (GameRound.State rd).

Definition with_CoinResult (c : game.Side) (rd : GameRound.t) : GameRound.t :=
  GameRound.mk (GameRound.ID rd) (GameRound.StartTime rd) (GameRound.Bets rd)
    (GameRound.SeedCommits rd) (GameRound.SeedReveals rd) (GameRound.FinalSeed rd) c
    (GameRound.Results rd) (GameRound.State rd).

Definition with_Results (res : gmap string PlayerResult.t) (rd : GameRound.t) : GameRound.t :=
  GameRound.mk (GameRound.ID rd) (GameRound.StartTime rd) (GameRound.Bets rd)
    (GameRound.SeedCommits rd) (GameRound.SeedReveals rd) (GameRound.FinalSeed rd)
    (GameRound.CoinResult rd) res (GameRound.State rd).

(** The bet of [playerID] in the current round:
    [r.currentRound != nil && r.currentRound.Bets[playerID] != nil]. *)
Definition openBet (playerID : string) (r : GameRoom) : option BetData.t :=
  match currentRound r with
  | Some rd => GameRound.Bets rd !! playerID
  | None => None
  end.

(** [RemovePlayer], first half, for a player found in the roster: "Cancel any
    active bet". The amount goes back to the player's balance and the bet
    leaves the round. *)
Definition refundBet (playerID : string) (player : RoomPlayer.t) (r : GameRoom) : GameRoom :=
  match currentRound r with
  | Some rd =>
      match GameRound.Bets rd !! playerID with
      | Some bet =>
          let player :=
            with_Balance (PrimFloat.add (RoomPlayer.Balance player) (BetData.Amount bet))
                         player in
          let r := set_players (<[playerID := player]> (players r)) r in
          set_currentRound (Some (with_Bets (delete playerID (GameRound.Bets rd)) rd)) r
      | None => r
      end
  | None => r
  end.

(** [RemovePlayer], second half: the player leaves the roster and the game is
    paused when too few are left during betting. *)
Definition dropPlayer (now : Time) (playerID : string) (r : GameRoom) : GameRoom :=
  let r := set_players (delete playerID (players r)) r in
  let r := set_lastActivity now r in
  let r := log LogInfo "Player left room" r in
  let r :=
    if (len_players r <? RoomConfig.MinPlayers (config r))
       && GameState_eqb (gameState r) StateBetting
    then pauseGame now r else r in
  broadcastRoomUpdate now r.

Definition RemovePlayer (now : Time) (playerID : string) (r : GameRoom)
    : GameRoom * option Error :=
  match players r !! playerID with
  | None => (r, Some ErrPlayerNotFound)
  | Some player => (dropPlayer now playerID (refundBet playerID player r), None)
  end.

(** The bet [PlaceBet] creates. *)
Definition placedBet (now : Time) (playerID : string) (amount : float) (choice : game.Side)
    : BetData.t :=
  {| BetData.PlayerID := playerID;
     BetData.Amount := amount;
     BetData.Choice := choice;
     BetData.BetID := generateBetID now |}.

(** [PlaceBet] once every check has passed, for the player [player] found in
    the roster and the current round [rd]: "Deduct from balance and add
    bet". *)
Definition recordBet (now : Time) (playerID : string) (amount : float) (choice : game.Side)
    (player : RoomPlayer.t) (rd : GameRound.t) (r : GameRoom) : GameRoom :=
  let bet := placedBet now playerID amount choice in
  let player :=
    with_CurrentBet (Some bet)
      (with_Balance (PrimFloat.sub (RoomPlayer.Balance player) amount) player) in
  let r := set_players (<[playerID := player]> (players r)) r in
  let r :=
    set_currentRound (Some (with_Bets (<[playerID := bet]> (GameRound.Bets rd)) rd)) r in
  let r := set_lastActivity now r in
  let r := log LogInfo "Bet placed" r in
  let r :=
    broadcastMessage (NewMessage now MsgBetPlaced (room_id r) playerID (DataBet bet)) r in
  broadcastRoomUpdate now r.

Definition PlaceBet (now : Time) (playerID : string) (amount : float) (choice : game.Side)
    (r : GameRoom) : GameRoom * option Error :=
  if negb (GameState_eqb (gameState r) StateBetting) then (r, Some ErrInvalidGamePhase)
  else
    match players r !! playerID with
    | None => (r, Some ErrPlayerNotFound)
    | Some player =>
        match currentRound r with
        | None => (r, Some (ErrorsNew "no active round"))
        | Some rd =>
            if bool_decide (is_Some (GameRound.Bets rd !! playerID))
            then (r, Some ErrPlayerAlreadyBet)
            else if PrimFloat.ltb amount (RoomConfig.MinBet (config r))
                    || PrimFloat.ltb (RoomConfig.MaxBet (config r)) amount
            then (r, Some ErrInvalidBetAmount)
            else if PrimFloat.ltb (RoomPlayer.Balance player) amount
            then (r, Some ErrInsufficientBalance)
            else (recordBet now playerID amount choice player rd r, None)
        end
    end.

(** [int(r.config.BettingDuration.Seconds())] *)
Definition bettingSeconds (r : GameRoom) : Z :=
  int_of_float (Duration_Seconds (RoomConfig.BettingDuration (config r))).

(** [startBettingPhase]: a timer left in [r.timer] is stopped and replaced. *)
Definition startBettingPhase (now : Time) (r : GameRoom) : GameRoom :=
  let r := set_timerEnd (Time_Add now (RoomConfig.BettingDuration (config r))) r in
  let r := set_timer (stopTimer (timer r)) r in
  let r := set_timer (Some TimerPending) r in
  let r := spawn GoBroadcastTimer r in
  broadcastMessage
    (NewMessage now MsgBetPhase (room_id r) ""
       (DataTimer {| TimerData.Phase := StateBetting;
                     TimerData.SecondsLeft := bettingSeconds r;
                     TimerData.TotalSeconds := bettingSeconds r |})) r.

Definition newGameRound (now : Time) (r : GameRoom) : GameRound.t :=
  {| GameRound.ID := generateRoundID now r;
     GameRound.StartTime := now;
     GameRound.Bets := ∅;
     GameRound.SeedCommits := ∅;
     GameRound.SeedReveals := ∅;
     GameRound.FinalSeed := "";
     GameRound.CoinResult := "";
     GameRound.Results := ∅;
     GameRound.State := StateBetting |}.

(** [StartGame] once its two checks have passed. *)
Definition beginRound (now : Time) (r : GameRoom) : GameRoom :=
  let rd := newGameRound now r in
  let r := set_currentRound (Some rd) r in
  let r := set_gameState StateBetting r in
  let r := set_totalRounds (wrap64 (totalRounds r + 1)) r in
  let r := startBettingPhase now r in
  let r := log LogInfo "Game round started" r in
  broadcastMessage
    (NewMessage now MsgGameStart (room_id r) "" (DataString (GameRound.ID rd))) r.

Definition StartGame (now : Time) (r : GameRoom) : GameRoom * option Error :=
  if len_players r <? RoomConfig.MinPlayers (config r)
  then (r, Some (ErrorsNew "not enough players to start game"))
  else if negb (GameState_eqb (gameState r) StateWaiting)
  then (r, Some ErrInvalidGamePhase)
  else (beginRound now r, None).

(** The body of the loop of [generateFinalResult], piece by piece:
    [won := bet.Choice == coinResult], the payout, the player after the
    updates, and the record kept in [Results]. *)
Definition betWon (coinResult : game.Side) (bet : BetData.t) : bool :=
  String.eqb (BetData.Choice bet) coinResult.

Definition betPayout (coinResult : game.Side) (cfg : RoomConfig.t) (bet : BetData.t) : float :=
  if betWon coinResult bet
  then PrimFloat.mul (BetData.Amount bet) (RoomConfig.PayoutRatio cfg)
  else 0%float.

Definition settlePlayer (coinResult : game.Side) (cfg : RoomConfig.t) (bet : BetData.t)
    (player : RoomPlayer.t) : RoomPlayer.t :=
  let payout := betPayout coinResult cfg bet in
  let player :=
    if betWon coinResult bet then
      with_NetProfit
        (PrimFloat.add (RoomPlayer.NetProfit player)
                       (PrimFloat.sub payout (BetData.Amount bet)))
        (with_TotalWins (wrap64 (RoomPlayer.TotalWins player + 1))
           (with_Balance (PrimFloat.add (RoomPlayer.Balance player) payout) player))
    else
      with_NetProfit (PrimFloat.sub (RoomPlayer.NetProfit player) (BetData.Amount bet))
        player in
  with_CurrentBet None (with_TotalGames (wrap64 (RoomPlayer.TotalGames player + 1)) player).

Definition playerResult (coinResult : game.Side) (cfg : RoomConfig.t) (playerID : string)
    (bet : BetData.t) (player : RoomPlayer.t) : PlayerResult.t :=
  {| PlayerResult.PlayerID := playerID;
     PlayerResult.PlayerName := RoomPlayer.Name player;
     PlayerResult.Bet := Some bet;
     PlayerResult.Won := betWon coinResult bet;
     PlayerResult.Payout := betPayout coinResult cfg bet;
     PlayerResult.NewBalance := RoomPlayer.Balance player |}.

(** One turn of the loop, for the bet [bet] of [playerID]: the roster and the
    results so far are in [acc]; [None] is the nil dereference of a bet whose
    player is not in the roster. *)
Definition settleBet (coinResult : game.Side) (cfg : RoomConfig.t)
    (playerID : string) (bet : BetData.t)
    (acc : option (gmap string RoomPlayer.t * gmap string PlayerResult.t))
    : option (gmap string RoomPlayer.t * gmap string PlayerResult.t) :=
  match acc with
  | None => None
  | Some (ps, results) =>
      match ps !! playerID with
      | None => None
      | Some player =>
          let player := settlePlayer coinResult cfg bet player in
          Some (<[playerID := player]> ps,
                <[playerID := playerResult coinResult cfg playerID bet player]> results)
      end
  end.

(** The loop of [generateFinalResult] over [r.currentRound.Bets]. *)
Definition settleBets (coinResult : game.Side) (cfg : RoomConfig.t)
    (bets : gmap string BetData.t)
    (ps : gmap string RoomPlayer.t) (results : gmap string PlayerResult.t)
    : option (gmap string RoomPlayer.t * gmap string PlayerResult.t) :=
  map_fold (settleBet coinResult cfg) (Some (ps, results)) bets.

(** [generateFinalResult], on the current round [rd]; [seedBytes] is what
    [rand.Read] delivered. *)
Definition generateFinalResult (seedBytes : list Byte.byte) (rd : GameRound.t)
    (r : GameRoom) : option GameRoom :=
  let hash := Sum256 seedBytes in
  let rd := with_FinalSeed (hex_EncodeToString hash) rd in
  let coinResult := fst (FlipCoin (GameRound.FinalSeed rd)) in
  let rd := with_CoinResult coinResult rd in
  match settleBets coinResult (config r) (GameRound.Bets rd) (players r)
                   (GameRound.Results rd) with
  | None => None
  | Some (ps, results) =>
      Some (set_currentRound (Some (with_Results results rd)) (set_players ps r))
  end.

(** The two lists of [startResultPhase]. *)
Definition winnersOf (results : gmap string PlayerResult.t) : list PlayerResult.t :=
  map_fold (fun _ res acc => if PlayerResult.Won res then acc ++ [res] else acc) [] results.

Definition losersOf (results : gmap string PlayerResult.t) : list PlayerResult.t :=
  map_fold (fun _ res acc => if PlayerResult.Won res then acc else acc ++ [res]) [] results.

Definition gameResultData (now : Time) (rd : GameRound.t) : GameResultData.t :=
  {| GameResultData.RoundID := GameRound.ID rd;
     GameResultData.CoinResult := GameRound.CoinResult rd;
     GameResultData.FinalSeed := GameRound.FinalSeed rd;
     GameResultData.Winners := winnersOf (GameRound.Results rd);
     GameResultData.Losers := losersOf (GameRound.Results rd);
     GameResultData.Timestamp := now |}.

(** [startResultPhase], on the current round [rd]. *)
Definition announceResult (now : Time) (rd : GameRound.t) (r : GameRoom) : GameRoom :=
  let r := log LogInfo "Game result generated" r in
  let r :=
    broadcastMessage
      (NewMessage now MsgGameResult (room_id r) "" (DataGameResult (gameResultData now rd)))
      r in
  spawn (AfterResultDuration (RoomConfig.ResultDuration (config r))) r.

(** [startResultPhase]; [None] when there is no current round to read. *)
Definition startResultPhase (now : Time) (r : GameRoom) : option GameRoom :=
  let r := set_gameState StateResult r in
  match currentRound r with
  | None => None
  | Some rd => Some (announceResult now rd r)
  end.

(** The function given to [time.AfterFunc] in [startResultPhase]. *)
Definition resultTimerFunc (now : Time) (r : GameRoom) : GameRoom :=
  let r := set_gameState StateWaiting r in
  let r := set_currentRound None r in
  let r := broadcastRoomUpdate now r in
  if len_players r >=? RoomConfig.MinPlayers (config r)
  then spawn (GoSleepStartGame (2 * Second)) r
  else r.

(** [endBettingPhase], up to the test on the number of bets: the phase is
    already [StateRevealing] there. *)
Definition enterRevealing (r : GameRoom) : GameRoom :=
  log LogInfo "Betting phase ended" (set_gameState StateRevealing r).

(** [endBettingPhase] when no bet was placed: "return to waiting". *)
Definition abandonRound (now : Time) (r : GameRoom) : GameRoom :=
  let r := set_gameState StateWaiting r in
  let r := set_currentRound None r in
  broadcastRoomUpdate now r.

(** [endBettingPhase]; [None] is a nil dereference. *)
Definition endBettingPhase (now : Time) (seedBytes : list Byte.byte) (r : GameRoom)
    : option GameRoom :=
  if negb (GameState_eqb (gameState r) StateBetting) then Some r
  else
    match currentRound r with
    | None => None
    | Some rd =>
        let r := enterRevealing r in
        if (size (GameRound.Bets rd) =? 0)%nat then Some (abandonRound now r)
        else
          match generateFinalResult seedBytes rd r with
          | None => None
          | Some r => startResultPhase now r
          end
    end.

(** One tick of [broadcastTimer]: the room, and whether the loop goes on. *)
Definition broadcastTimerTick (now : Time) (r : GameRoom) : GameRoom * bool :=
  if negb (GameState_eqb (gameState r) StateBetting) then (r, false)
  else
    let secondsLeft := int_of_float (Duration_Seconds (Until now (timerEnd r))) in
    if secondsLeft <=? 0 then (r, false)
    else
      (broadcastMessage
         (NewMessage now MsgTimerUpdate (room_id r) ""
            (DataTimer {| TimerData.Phase := StateBetting;
                          TimerData.SecondsLeft := secondsLeft;
                          TimerData.TotalSeconds := bettingSeconds r |})) r,
       true).

(** ** Runs of a room *)

(** What can happen to a room: a call of an exported method, the betting
    timer started by [startBettingPhase] firing, a spawned task getting to
    run (for [GoBroadcastTimer], one tick), or the relay taking the oldest
    event off [eventChan]. *)
Inductive Event :=
| CallAddPlayer (playerID playerName : string) (balance : float)
| CallRemovePlayer (playerID : string)
| CallPlaceBet (playerID : string) (amount : float) (choice : game.Side)
| CallStartGame
| BettingTimerFires (seedBytes : list Byte.byte)
| RunTask (i : nat)
| RelayReceives.

Definition runTask (now : Time) (t : Task) (r : GameRoom) : GameRoom :=
  match t with
  | GoStartGame => fst (StartGame now r)
  | GoSleepStartGame _ => fst (StartGame now r)
  | AfterResultDuration _ => resultTimerFunc now r
  | GoBroadcastTimer =>
      let '(r, continue) := broadcastTimerTick now r in
      if continue then spawn GoBroadcastTimer r else r
  end.

(** The room after the event, when the event can happen in [r] and does not
    end in a nil dereference. *)
Definition exec (now : Time) (ev : Event) (r : GameRoom) : option GameRoom :=
  match ev with
  | CallAddPlayer playerID playerName balance =>
      Some (fst (AddPlayer now playerID playerName balance r))
  | CallRemovePlayer playerID => Some (fst (RemovePlayer now playerID r))
  | CallPlaceBet playerID amount choice => Some (fst (PlaceBet now playerID amount choice r))
  | CallStartGame => Some (fst (StartGame now r))
  | BettingTimerFires seedBytes =>
      match timer r with
      | Some TimerPending => endBettingPhase now seedBytes (set_timer (Some TimerFired) r)
      | _ => None
      end
  | RunTask i =>
      match spawned r !! i with
      | Some t => Some (runTask now t (set_spawned (delete i (spawned r)) r))
      | None => None
      end
  | RelayReceives =>
      match eventChan r with
      | _ :: q => Some (set_eventChan q r)
      | [] => None
      end
  end.

(** Whether the event can happen at all in [r]. *)
Definition enabled (ev : Event) (r : GameRoom) : bool :=
  match ev with
  | BettingTimerFires _ =>
      match timer r with Some TimerPending => true | _ => false end
  | RunTask i => bool_decide (is_Some (spawned r !! i))
  | RelayReceives => match eventChan r with [] => false | _ => true end
  | _ => true
  end.

Fixpoint run (evs : list (Time * Event)) (r : GameRoom) : option GameRoom :=
  match evs with
  | [] => Some r
  | (now, ev) :: evs =>
      match exec now ev r with
      | Some r => run evs r
      | None => None
      end
  end.

(** The rooms a run can reach from a room that [NewGameRoom] made. *)
Inductive reachable : GameRoom → Prop :=
| reachable_new now id name cfg : reachable (NewGameRoom now id name cfg)
| reachable_exec now ev r r' : reachable r → exec now ev r = Some r' → reachable r'.

End Room.

(** ** The envelope on the wire: [encoding/json] as the package uses it

    A JSON text is represented by the value it spells: a [[]byte] produced by
    [json.Marshal] is a [JSON]. A number keeps the Go value it was written
    from. [JTime t] is the string [time.Time.MarshalJSON] writes for the
    instant [t] (RFC 3339, nanoseconds), which [UnmarshalJSON] reads back as
    [t]. *)

Inductive Number :=
| NumInt (z : Z)
| NumFloat (f : float).

Inductive JSON :=
| JNull
| JBool (b : bool)
| JNumber (n : Number)
| JString (s : string)
| JTime (t : Time)
| JArray (l : list JSON)
| JObject (fields : list (string * JSON)).

(** *** Strings: invalid UTF-8 is replaced by U+FFFD when a string is written *)

Definition isCont (b : N) : bool := ((128 <=? b) && (b <=? 191))%N.

(** [utf8.DecodeRuneInString] on the bytes [bs], as far as the encoder needs
    it: the width of the rune at the head, [None] for an invalid encoding
    (the [RuneError] of width 1). *)
Definition runeWidth (bs : list N) : option nat :=
  match bs with
  | [] => None
  | b0 :: rest =>
      if (b0 <? 128)%N then Some 1%nat
      else if ((194 <=? b0) && (b0 <=? 223))%N then
        match rest with
        | b1 :: _ => if isCont b1 then Some 2%nat else None
        | _ => None
        end
      else if ((224 <=? b0) && (b0 <=? 239))%N then
        match rest with
        | b1 :: b2 :: _ =>
            let lo := (if b0 =? 224 then 160 else 128)%N in
            let hi := (if b0 =? 237 then 159 else 191)%N in
            if ((lo <=? b1) && (b1 <=? hi))%N && isCont b2 then Some 3%nat else None
        | _ => None
        end
      else if ((240 <=? b0) && (b0 <=? 244))%N then
        match rest with
        | b1 :: b2 :: b3 :: _ =>
            let lo := (if b0 =? 240 then 144 else 128)%N in
            let hi := (if b0 =? 244 then 143 else 191)%N in
            if ((lo <=? b1) && (b1 <=? hi))%N && isCont b2 && isCont b3
            then Some 4%nat else None
        | _ => None
        end
      else None
  end.

(** The bytes of a string as the encoder leaves them: each byte that starts
    no valid rune becomes the three bytes of U+FFFD. *)
Fixpoint coerceBytes (fuel : nat) (bs : list N) : list N :=
  match fuel with
  | O => []
  | S fuel =>
      match bs with
      | [] => []
      | b0 :: rest =>
          match runeWidth bs with
          | Some w => take w bs ++ coerceBytes fuel (drop w bs)
          | None => [239; 191; 189]%N ++ coerceBytes fuel rest
          end
      end
  end.

Definition bytesOf (s : string) : list N :=
  List.map (fun c => N_of_ascii c) (list_ascii_of_string s).

Definition stringOf (bs : list N) : string :=
  string_of_list_ascii (List.map ascii_of_N bs).

Definition coerceUTF8 (s : string) : string :=
  stringOf (coerceBytes (String.length s) (bytesOf s)).

(** *** Writing *)

Definition marshalString (s : string) : JSON := JString (coerceUTF8 s).

Definition marshalInt (z : Z) : JSON := JNumber (NumInt z).

(** [NaN] and the infinities are an [UnsupportedValueError]. *)
Definition marshalFloat (f : float) : option JSON :=
  if PrimFloat.is_nan f || PrimFloat.is_infinity f then None
  else Some (JNumber (NumFloat f)).

(** [Time.MarshalJSON] fails outside the years 0 to 9999. *)
Definition marshalTime (t : Time) : option JSON :=
  if (-62167219200 * Second <=? t) && (t <? 253402300800 * Second)
  then Some (JTime t) else None.

(** All the values, or the first failure. *)
Fixpoint sequence {A} (l : list (option A)) : option (list A) :=
  match l with
  | [] => Some []
  | None :: _ => None
  | Some x :: l =>
      match sequence l with
      | Some xs => Some (x :: xs)
      | None => None
      end
  end.

(** A struct: its fields in order, under their [json] names. *)
Definition marshalStruct (fields : list (string * option JSON)) : option JSON :=
  match sequence (List.map snd fields) with
  | Some vs => Some (JObject (zip (List.map fst fields) vs))
  | None => None
  end.

(** A slice: [null] when it is nil. The slices the package builds with
    [append] from nothing are nil when empty, the one made by [make] in
    [broadcastRoomUpdate] is not. *)
Definition marshalSlice (nilWhenEmpty : bool) (l : list (option JSON)) : option JSON :=
  match l with
  | [] => Some (if nilWhenEmpty then JNull else JArray [])
  | _ =>
      match sequence l with
      | Some vs => Some (JArray vs)
      | None => None
      end
  end.

Definition marshalSide (s : game.Side) : JSON := marshalString s.

Definition marshalGameState (s : GameState) : JSON := marshalString (GameState_string s).

Definition marshalRoomJoinData (d : RoomJoinData.t) : option JSON :=
  marshalStruct
    [("player_name", Some (marshalString (RoomJoinData.PlayerName d)));
     ("balance", marshalFloat (RoomJoinData.Balance d))].

Definition marshalPlayerInfo (p : PlayerInfo.t) : option JSON :=
  marshalStruct
    [("id", Some (marshalString (PlayerInfo.ID p)));
     ("name", Some (marshalString (PlayerInfo.Name p)));
     ("balance", marshalFloat (PlayerInfo.Balance p));
     ("is_ready", Some (JBool (PlayerInfo.IsReady p)));
     ("has_bet", Some (JBool (PlayerInfo.HasBet p)));
     ("is_online", Some (JBool (PlayerInfo.IsOnline p)))].

Definition marshalRoomUpdateData (d : RoomUpdateData.t) : option JSON :=
  marshalStruct
    [("room_id", Some (marshalString (RoomUpdateData.RoomID d)));
     ("players", marshalSlice false (List.map marshalPlayerInfo (RoomUpdateData.Players d)));
     ("game_state", Some (marshalGameState (RoomUpdateData.State d)));
     ("timer_seconds", Some (marshalInt (RoomUpdateData.Timer d)));
     ("min_players", Some (marshalInt (RoomUpdateData.MinPlayers d)));
     ("max_players", Some (marshalInt (RoomUpdateData.MaxPlayers d)))].

Definition marshalBetData (d : BetData.t) : option JSON :=
  marshalStruct
    [("player_id", Some (marshalString (BetData.PlayerID d)));
     ("amount", marshalFloat (BetData.Amount d));
     ("choice", Some (marshalSide (BetData.Choice d)));
     ("bet_id", Some (marshalString (BetData.BetID d)))].

Definition marshalTimerData (d : TimerData.t) : option JSON :=
  marshalStruct
    [("phase", Some (marshalGameState (TimerData.Phase d)));
     ("seconds_left", Some (marshalInt (TimerData.SecondsLeft d)));
     ("total_seconds", Some (marshalInt (TimerData.TotalSeconds d)))].

(** [Bet] is [omitempty]: a nil pointer leaves the field out. *)
Definition marshalPlayerResult (d : PlayerResult.t) : option JSON :=
  marshalStruct
    ([("player_id", Some (marshalString (PlayerResult.PlayerID d)));
      ("player_name", Some (marshalString (PlayerResult.PlayerName d)))]
     ++ match PlayerResult.Bet d with
        | Some b => [("bet", marshalBetData b)]
        | None => []
        end
     ++ [("won", Some (JBool (PlayerResult.Won d)));
         ("payout", marshalFloat (PlayerResult.Payout d));
         ("new_balance", marshalFloat (PlayerResult.NewBalance d))]).

Definition marshalGameResultData (d : GameResultData.t) : option JSON :=
  marshalStruct
    [("round_id", Some (marshalString (GameResultData.RoundID d)));
     ("coin_result", Some (marshalSide (GameResultData.CoinResult d)));
     ("final_seed", Some (marshalString (GameResultData.FinalSeed d)));
     ("winners", marshalSlice true (List.map marshalPlayerResult (GameResultData.Winners d)));
     ("losers", marshalSlice true (List.map marshalPlayerResult (GameResultData.Losers d)));
     ("timestamp", marshalTime (GameResultData.Timestamp d))].

(** [Details] is [omitempty]: the empty string leaves the field out. *)
Definition marshalErrorData (d : ErrorData.t) : option JSON :=
  marshalStruct
    ([("code", Some (marshalString (ErrorData.Code d)));
      ("message", Some (marshalString (ErrorData.Message d)))]
     ++ if String.eqb (ErrorData.Details d) "" then []
        else [("details", Some (marshalString (ErrorData.Details d)))]).

(** The generic values: a map is written with its keys in order, as the list
    holds them. *)
Fixpoint marshalAny (a : Any) : option JSON :=
  match a with
  | ANil => Some JNull
  | ABool b => Some (JBool b)
  | AFloat f => marshalFloat f
  | AString s => Some (marshalString s)
  | ASlice l => 
      match sequence (List.map marshalAny l) with
      | Some vs => Some (JArray vs)
      | None => None
      end
  | AMap m =>
      match sequence (List.map (fun kv => marshalAny (snd kv)) m) with
      | Some vs => Some (JObject (zip (List.map (fun kv => coerceUTF8 (fst kv)) m) vs))
      | None => None
      end
  end.

Definition marshalPayload (p : Payload) : option JSON :=
  match p with
  | DataAny a => marshalAny a
  | DataJoin d => marshalRoomJoinData d
  | DataRoomUpdate d => marshalRoomUpdateData d
  | DataBet d => marshalBetData d
  | DataTimer d => marshalTimerData d
  | DataGameResult d => marshalGameResultData d
  | DataError d => marshalErrorData d
  end.

(** [ToJSON]: [json.Marshal(m)]; [None] is its error. *)
Definition ToJSON (m : Message.t) : option JSON :=
  marshalStruct
    [("type", Some (marshalString (Message.Type_ m)));
     ("room_id", Some (marshalString (Message.RoomID m)));
     ("player_id", Some (marshalString (Message.PlayerID m)));
     ("timestamp", marshalTime (Message.Timestamp m));
     ("data", marshalPayload (Message.Data m))].

(** *** Reading *)

(** [float64] of an integer literal: the nearest [float64]. *)
Definition float_of_int64 (z : Z) : float :=
  if z =? - 2 ^ 63 then PrimFloat.opp 0x1p63%float else float_of_int z.

(** The bindings of a [map[string]interface{}], kept sorted by key; a key
    read again replaces the value read before. *)
Fixpoint bind {A} (k : string) (v : A) (m : list (string * A)) : list (string * A) :=
  match m with
  | [] => [(k, v)]
  | (k', v') :: m' =>
      match String.compare k k' with
      | Lt => (k, v) :: m
      | Eq => (k, v) :: m'
      | Gt => (k', v') :: bind k v m'
      end
  end.

Definition bindAll {A} (kvs : list (string * A)) : list (string * A) :=
  fold_left (fun m kv => bind (fst kv) (snd kv) m) kvs [].

(** ASCII letters in lower case, for the case-insensitive match of a key
    against a field name (the two non-ASCII letters Go also folds, U+212A and
    U+017F, are not). *)
Definition lowerASCII (c : ascii) : ascii :=
  let n := N_of_ascii c in
  if ((65 <=? n) && (n <=? 90))%N then ascii_of_N (n + 32) else c.

Fixpoint lowerKey (s : string) : string :=
  match s with
  | EmptyString => EmptyString
  | String c s => String (lowerASCII c) (lowerKey s)
  end.

Definition keyMatches (field key : string) : bool :=
  String.eqb (lowerKey field) (lowerKey key).

Section Decoding.

(** From Go's [time] package: the RFC 3339 text of an instant, and the
    instant a text spells, if any. *)
Variable Time_Format : Time → string.
Variable Time_Parse : string → option Time.

(** [json.Unmarshal] into an [interface{}]. *)
Fixpoint unmarshalAny (j : JSON) : Any :=
  match j with
  | JNull => ANil
  | JBool b => ABool b
  | JNumber (NumInt z) => AFloat (float_of_int64 z)
  | JNumber (NumFloat f) => AFloat f
  | JString s => AString s
  | JTime t => AString (Time_Format t)
  | JArray l => ASlice (List.map unmarshalAny l)
  | JObject fields =>
      AMap (bindAll (List.map (fun kv => (fst kv, unmarshalAny (snd kv))) fields))
  end.

(** A JSON value read into a [string] field: [null] leaves the field alone,
    anything but a string is an [UnmarshalTypeError], which is kept while the
    decoding goes on. *)
Definition intoString (j : JSON) (old : string) : string * option Error :=
  match j with
  | JNull => (old, None)
  | JString s => (s, None)
  | JTime t => (Time_Format t, None)
  | _ => (old, Some (ErrorsNew "json: cannot unmarshal into Go value of type string"))
  end.

(** A JSON value read into a [time.Time] field, by [Time.UnmarshalJSON]: its
    error ends the decoding. *)
Definition intoTime (j : JSON) (old : Time) : option Time :=
  match j with
  | JNull => Some old
  | JTime t => Some t
  | JString s => Time_Parse s
  | _ => None
  end.

Definition firstError (e1 e2 : option Error) : option Error :=
  match e1 with Some _ => e1 | None => e2 end.

(** One member of the object, stored in the matching field of [msg]; the
    [bool] tells whether the decoding goes on. *)
Definition storeField (kv : string * JSON) (st : Message.t * option Error * bool)
    : Message.t * option Error * bool :=
  let '(msg, err, going) := st in
  if negb going then st
  else
    let '(k, j) := kv in
    if keyMatches "type" k then
      let '(s, e) := intoString j (Message.Type_ msg) in
      (Message.mk s (Message.RoomID msg) (Message.PlayerID msg) (Message.Timestamp msg)
         (Message.Data msg), firstError err e, true)
    else if keyMatches "room_id" k then
      let '(s, e) := intoString j (Message.RoomID msg) in
      (Message.mk (Message.Type_ msg) s (Message.PlayerID msg) (Message.Timestamp msg)
         (Message.Data msg), firstError err e, true)
    else if keyMatches "player_id" k then
      let '(s, e) := intoString j (Message.PlayerID msg) in
      (Message.mk (Message.Type_ msg) (Message.RoomID msg) s (Message.Timestamp msg)
         (Message.Data msg), firstError err e, true)
    else if keyMatches "timestamp" k then
      match intoTime j (Message.Timestamp msg) with
      | Some t =>
          (Message.mk (Message.Type_ msg) (Message.RoomID msg) (Message.PlayerID msg) t
             (Message.Data msg), err, true)
      | None => (msg, Some (ErrorsNew "parsing time"), false)
      end
    else if keyMatches "data" k then
      (Message.mk (Message.Type_ msg) (Message.RoomID msg) (Message.PlayerID msg)
         (Message.Timestamp msg) (DataAny (unmarshalAny j)), err, true)
    else st.

(** [var msg Message] *)
Definition zeroMessage : Message.t :=
  {| Message.Type_ := "";
     Message.RoomID := "";
     Message.PlayerID := "";
     Message.Timestamp := zeroTime;
     Message.Data := DataNil |}.

(** [FromJSON]: the message is returned next to the error. *)
Definition FromJSON (data : JSON) : Message.t * option Error :=
  match data with
  | JNull => (zeroMessage, None)
  | JObject fields =>
      let '(msg, err, _) :=
        fold_left (fun st kv => storeField kv st) fields (zeroMessage, None, true) in
      (msg, err)
  | _ =>
      (zeroMessage,
       Some (ErrorsNew "json: cannot unmarshal into Go value of type network.Message"))
  end.

(** *** [GetData]: the payload written again and read into a struct *)

(** A JSON value read into a [float64] field. *)
Definition intoFloat (j : JSON) (old : float) : float * option Error :=
  match j with
  | JNull => (old, None)
  | JNumber (NumInt z) => (float_of_int64 z, None)
  | JNumber (NumFloat f) => (f, None)
  | _ => (old, Some (ErrorsNew "json: cannot unmarshal into Go value of type float64"))
  end.

(** One member of the object, stored in the matching field of a [BetData]. *)
Definition storeBetField (kv : string * JSON) (st : BetData.t * option Error)
    : BetData.t * option Error :=
  let '(d, err) := st in
  let '(k, j) := kv in
  if keyMatches "player_id" k then
    let '(s, e) := intoString j (BetData.PlayerID d) in
    (BetData.mk s (BetData.Amount d) (BetData.Choice d) (BetData.BetID d), firstError err e)
  else if keyMatches "amount" k then
    let '(f, e) := intoFloat j (BetData.Amount d) in
    (BetData.mk (BetData.PlayerID d) f (BetData.Choice d) (BetData.BetID d), firstError err e)
  else if keyMatches "choice" k then
    let '(s, e) := intoString j (BetData.Choice d) in
    (BetData.mk (BetData.PlayerID d) (BetData.Amount d) s (BetData.BetID d), firstError err e)
  else if keyMatches "bet_id" k then
    let '(s, e) := intoString j (BetData.BetID d) in
    (BetData.mk (BetData.PlayerID d) (BetData.Amount d) (BetData.Choice d) s, firstError err e)
  else st.

(** [var betData BetData] *)
Definition zeroBetData : BetData.t :=
  {| BetData.PlayerID := ""; BetData.Amount := 0%float; BetData.Choice := "";
     BetData.BetID := "" |}.

(** [json.Unmarshal(data, &betData)] *)
Definition unmarshalBetData (data : JSON) : BetData.t * option Error :=
  match data with
  | JNull => (zeroBetData, None)
  | JObject fields => fold_left (fun st kv => storeBetField kv st) fields (zeroBetData, None)
  | _ =>
      (zeroBetData,
       Some (ErrorsNew "json: cannot unmarshal into Go value of type network.BetData"))
  end.

(** One member of the object, stored in the matching field of a
    [RoomJoinData]. *)
Definition storeJoinField (kv : string * JSON) (st : RoomJoinData.t * option Error)
    : RoomJoinData.t * option Error :=
  let '(d, err) := st in
  let '(k, j) := kv in
  if keyMatches "player_name" k then
    let '(s, e) := intoString j (RoomJoinData.PlayerName d) in
    (RoomJoinData.mk s (RoomJoinData.Balance d), firstError err e)
  else if keyMatches "balance" k then
    let '(f, e) := intoFloat j (RoomJoinData.Balance d) in
    (RoomJoinData.mk (RoomJoinData.PlayerName d) f, firstError err e)
  else st.

(** [var joinData RoomJoinData] *)
Definition zeroJoinData : RoomJoinData.t :=
  {| RoomJoinData.PlayerName := ""; RoomJoinData.Balance := 0%float |}.

(** [json.Unmarshal(data, &joinData)] *)
Definition unmarshalRoomJoinData (data : JSON) : RoomJoinData.t * option Error :=
  match data with
  | JNull => (zeroJoinData, None)
  | JObject fields => fold_left (fun st kv => storeJoinField kv st) fields (zeroJoinData, None)
  | _ =>
      (zeroJoinData,
       Some (ErrorsNew "json: cannot unmarshal into Go value of type network.RoomJoinData"))
  end.

(** [msg.GetData(&betData)] and [msg.GetData(&joinData)], the targets fresh
    variables as in the server's handlers. *)
Definition GetData_BetData (m : Message.t) : BetData.t * option Error :=
  match marshalPayload (Message.Data m) with
  | None => (zeroBetData, Some (ErrorsNew "json: unsupported value"))
  | Some dataBytes => unmarshalBetData dataBytes
  end.

Definition GetData_RoomJoinData (m : Message.t) : RoomJoinData.t * option Error :=
  match marshalPayload (Message.Data m) with
  | None => (zeroJoinData, Some (ErrorsNew "json: unsupported value"))
  | Some dataBytes => unmarshalRoomJoinData dataBytes
  end.

End Decoding.

(** ** The server's relay *)

(** Pointers to [Client] and to [GameRoom] objects. *)
Definition ClientRef := nat.
Definition RoomRef := nat.

(** The server's [Client]; [send] is a [chan []byte] of capacity 256 and
    [sendClosed] tells whether it has been closed. *)
Module Client.
Record t := mk {
  room : option RoomRef;
  playerID : string;
  name : string;
  send : list JSON;
  sendClosed : bool
}.
End Client.

Definition sendCap : nat := 256.

(** [Server], as far as the relay goes: [clients] is [s.clients], [heap] holds
    the [Client] objects its keys point to. *)
Record Server := mkServer {
  clients : gmap ClientRef (option RoomRef);
  heap : gmap ClientRef Client.t;
  serverLogger : list (LogLevel * string)
}.

Definition with_send (q : list JSON) (c : Client.t) : Client.t :=
  Client.mk (Client.room c) (Client.playerID c) (Client.name c) q (Client.sendClosed c).

(** [close(client.send)] *)
Definition closeSend (c : Client.t) : Client.t :=
  Client.mk (Client.room c) (Client.playerID c) (Client.name c) (Client.send c) true.

(** The body of the loop of [broadcastToRoom] for one entry of [s.clients];
    [None] is a panic: a send on a closed channel (or a pointer to nothing,
    which Go does not have). *)
Definition relayToClient (room : RoomRef) (data : JSON)
    (client : ClientRef) (clientRoom : option RoomRef) (acc : option Server)
    : option Server :=
  match acc with
  | None => None
  | Some s =>
      if bool_decide (clientRoom = Some room) then
        match heap s !! client with
        | None => None
        | Some c =>
            if Client.sendClosed c then None
            else
              match chan_offer sendCap (Client.send c) data with
              | Some q =>
                  Some (mkServer (clients s) (<[client := with_send q c]> (heap s))
                          (serverLogger s))
              | None =>
                  Some (mkServer (delete client (clients s))
                          (<[client := closeSend c]> (heap s)) (serverLogger s))
              end
        end
      else Some s
  end.

Definition broadcastToRoom (room : RoomRef) (message : Message.t) (s : Server)
    : option Server :=
  match ToJSON message with
  | None =>
      Some (mkServer (clients s) (heap s)
              (serverLogger s ++ [(LogError, "Failed to serialize message")]))
  | Some data => map_fold (relayToClient room data) (Some s) (clients s)
  end.

(** ** The server's rooms and handlers *)

Module ServerConfig.
Record t := mk {
  Host : string;
  Port : Z;
  ReadTimeout : Duration;
  WriteTimeout : Duration;
  MaxMessageSize : Z;
  PingPeriod : Duration;
  PongWait : Duration;
  MaxRooms : Z;
  MaxClientsRoom : Z;
  CleanupInterval : Duration
}.
End ServerConfig.

Definition DefaultServerConfig : ServerConfig.t :=
  {| ServerConfig.Host := "localhost";
     ServerConfig.Port := 8080;
     ServerConfig.ReadTimeout := 60 * Second;
     ServerConfig.WriteTimeout := 10 * Second;
     ServerConfig.MaxMessageSize := 4096;
     ServerConfig.PingPeriod := 54 * Second;
     ServerConfig.PongWait := 60 * Second;
     ServerConfig.MaxRooms := 100;
     ServerConfig.MaxClientsRoom := 8;
     ServerConfig.CleanupInterval := 5 * Minute |}.

(** [err.Error()] *)
Definition Error_string (e : Error) : string :=
  match e with
  | ErrRoomFull => "room is full"
  | ErrRoomNotFound => "room not found"
  | ErrPlayerNotFound => "player not found in room"
  | ErrInvalidGamePhase => "invalid action for current game phase"
  | ErrBettingClosed => "betting phase has ended"
  | ErrPlayerAlreadyBet => "player has already placed a bet this round"
  | ErrInsufficientBalance => "insufficient balance for bet"
  | ErrInvalidBetAmount => "invalid bet amount"
  | ErrInvalidChoice => "invalid choice, must be heads or tails"
  | ErrorsNew msg => msg
  end.

(** The server with its rooms: [srv] holds [s.clients], the [Client] objects
    and the log; [rooms] is [s.rooms] and [roomHeap] holds the [GameRoom]
    objects its values point to; [relays] lists the rooms for which a
    [handleRoomEvents] goroutine was started. *)
Record ServerState := mkServerState {
  srv : Server;
  rooms : gmap string RoomRef;
  roomHeap : gmap RoomRef GameRoom;
  serverConfig : ServerConfig.t;
  relays : list RoomRef
}.

Definition set_srv (s : Server) (st : ServerState) : ServerState :=
  mkServerState s (rooms st) (roomHeap st) (serverConfig st) (relays st).

Definition set_roomHeap (h : gmap RoomRef GameRoom) (st : ServerState) : ServerState :=
  mkServerState (srv st) (rooms st) h (serverConfig st) (relays st).

Definition set_clients (m : gmap ClientRef (option RoomRef)) (s : Server) : Server :=
  mkServer m (heap s) (serverLogger s).

Definition set_heap (h : gmap ClientRef Client.t) (s : Server) : Server :=
  mkServer (clients s) h (serverLogger s).

Definition serverLog (lvl : LogLevel) (msg : string) (s : Server) : Server :=
  mkServer (clients s) (heap s) (serverLogger s ++ [(lvl, msg)]).

(** [NewServer]; [config = None] is the nil pointer. *)
Definition NewServer (config : option ServerConfig.t) : ServerState :=
  {| srv := mkServer ∅ ∅ [];
     rooms := ∅;
     roomHeap := ∅;
     serverConfig := match config with Some cfg => cfg | None => DefaultServerConfig end;
     relays := [] |}.

(** The [Client] that [handleWebSocket] makes. *)
Definition newClient : Client.t :=
  {| Client.room := None; Client.playerID := ""; Client.name := ""; Client.send := [];
     Client.sendClosed := false |}.

Definition registerClient (client : ClientRef) (st : ServerState) : ServerState :=
  set_srv (serverLog LogInfo "Client connected"
             (set_clients (<[client := None]> (clients (srv st))) (srv st))) st.

(** [handleWebSocket] once the connection is upgraded, with the registration
    that [run] makes of the client it is sent; [client] is the address of the
    new object. *)
Definition handleWebSocket (client : ClientRef) (st : ServerState) : ServerState :=
  registerClient client
    (set_srv (set_heap (<[client := newClient]> (heap (srv st))) (srv st)) st).

(** A method of the room at [room] called, its error handed back; [None]
    when the pointer is to nothing, which Go does not have. *)
Definition callRoom (room : RoomRef) (f : GameRoom → GameRoom * option Error)
    (st : ServerState) : option (ServerState * option Error) :=
  match roomHeap st !! room with
  | None => None
  | Some r => let '(r', err) := f r in Some (set_roomHeap (<[room := r']> (roomHeap st)) st, err)
  end.

(** [unregisterClient]; [None] is a panic: the close of a closed channel. *)
Definition unregisterClient (now : Time) (client : ClientRef) (st : ServerState)
    : option ServerState :=
  match clients (srv st) !! client with
  | None => Some st
  | Some room =>
      match heap (srv st) !! client with
      | None => None
      | Some c =>
          let st := set_srv (set_clients (delete client (clients (srv st))) (srv st)) st in
          let removed :=
            match room with
            | Some r =>
                if negb (String.eqb (Client.playerID c) "")
                then fst <$> callRoom r (RemovePlayer now (Client.playerID c)) st
                else Some st
            | None => Some st
            end in
          match removed with
          | None => None
          | Some st =>
              if Client.sendClosed c then None
              else
                Some (set_srv
                        (serverLog LogInfo "Client disconnected"
                           (set_heap (<[client := closeSend c]> (heap (srv st))) (srv st)))
                        st)
          end
      end
  end.

Definition GetRoom (roomID : string) (st : ServerState) : option RoomRef :=
  rooms st !! roomID.

(** [CreateRoom]; [room] is the address of the new [GameRoom]. *)
Definition CreateRoom (now : Time) (room : RoomRef) (roomID roomName : string)
    (config : option RoomConfig.t) (st : ServerState)
    : ServerState * option RoomRef * option Error :=
  if Z.of_nat (size (rooms st)) >=? ServerConfig.MaxRooms (serverConfig st)
  then (st, None, Some (ErrorsNew "maximum number of rooms reached"))
  else if bool_decide (is_Some (rooms st !! roomID))
  then (st, None, Some (ErrorsNew "room already exists"))
  else
    (mkServerState (serverLog LogInfo "Room created" (srv st))
       (<[roomID := room]> (rooms st))
       (<[room := NewGameRoom now roomID roomName config]> (roomHeap st))
       (serverConfig st)
       (relays st ++ [room]),
     Some room, None).

(** [sendError]; [None] is a panic: a send on a closed channel. *)
Definition sendError (now : Time) (code message : string) (client : ClientRef)
    (st : ServerState) : option ServerState :=
  match heap (srv st) !! client with
  | None => None
  | Some c =>
      let errorMsg :=
        NewMessage now MsgError "" (Client.playerID c)
          (DataError {| ErrorData.Code := code; ErrorData.Message := message;
                        ErrorData.Details := "" |}) in
      match ToJSON errorMsg with
      | None => Some st
      | Some data =>
          if Client.sendClosed c then None
          else
            match chan_offer sendCap (Client.send c) data with
            | Some q =>
                Some (set_srv (set_heap (<[client := with_send q c]> (heap (srv st))) (srv st))
                        st)
            | None => Some st
            end
      end
  end.

(** The instants at which a handler reads the clock: when it makes a room,
    when it calls a method of the room, and when it builds an error
    envelope. *)
Record Clock := mkClock { atCreate : Time; atRoom : Time; atError : Time }.

Section Handlers.

Variable Time_Format : Time → string.
Variable Time_Parse : string → option Time.

(** [handleJoinRoom]; [fresh] is the address of the room, should one be
    made. *)
Definition handleJoinRoom (clk : Clock) (fresh : RoomRef) (msg : Message.t)
    (client : ClientRef) (st : ServerState) : option ServerState :=
  match GetData_RoomJoinData Time_Format msg with
  | (_, Some _) => sendError (atError clk) "invalid_data" "Invalid join room data" client st
  | (joinData, None) =>
      let found :=
        match GetRoom (Message.RoomID msg) st with
        | Some room => (st, Some room, None)
        | None =>
            CreateRoom (atCreate clk) fresh (Message.RoomID msg)
              ("Room " +:+ Message.RoomID msg) (Some DefaultRoomConfig) st
        end in
      match found with
      | (st, None, err) =>
          sendError (atError clk) "room_creation_failed"
            (match err with Some e => Error_string e | None => "" end) client st
      | (st, Some room, _) =>
          match heap (srv st) !! client with
          | None => None
          | Some c =>
              let c :=
                Client.mk (Client.room c) (Message.PlayerID msg)
                  (RoomJoinData.PlayerName joinData) (Client.send c) (Client.sendClosed c) in
              let st := set_srv (set_heap (<[client := c]> (heap (srv st))) (srv st)) st in
              match callRoom room
                      (AddPlayer (atRoom clk) (Message.PlayerID msg)
                         (RoomJoinData.PlayerName joinData) (RoomJoinData.Balance joinData))
                      st with
              | None => None
              | Some (st, Some e) =>
                  sendError (atError clk) "join_failed" (Error_string e) client st
              | Some (st, None) =>
                  let c :=
                    Client.mk (Some room) (Client.playerID c) (Client.name c) (Client.send c)
                      (Client.sendClosed c) in
                  Some (set_srv
                          (serverLog LogInfo "Player joined room"
                             (mkServer (<[client := Some room]> (clients (srv st)))
                                (<[client := c]> (heap (srv st))) (serverLogger (srv st))))
                          st)
              end
          end
      end
  end.

Definition handleLeaveRoom (clk : Clock) (msg : Message.t) (client : ClientRef)
    (st : ServerState) : option ServerState :=
  match heap (srv st) !! client with
  | None => None
  | Some c =>
      match Client.room c with
      | None => sendError (atError clk) "not_in_room" "Not currently in a room" client st
      | Some room =>
          match callRoom room (RemovePlayer (atRoom clk) (Client.playerID c)) st with
          | None => None
          | Some (st, _) =>
              let c :=
                Client.mk None (Client.playerID c) (Client.name c) (Client.send c)
                  (Client.sendClosed c) in
              Some (set_srv
                      (mkServer (<[client := None]> (clients (srv st)))
                         (<[client := c]> (heap (srv st))) (serverLogger (srv st)))
                      st)
          end
      end
  end.

Definition handlePlaceBet (clk : Clock) (msg : Message.t) (client : ClientRef)
    (st : ServerState) : option ServerState :=
  match heap (srv st) !! client with
  | None => None
  | Some c =>
      match Client.room c with
      | None => sendError (atError clk) "not_in_room" "Not currently in a room" client st
      | Some room =>
          match GetData_BetData Time_Format msg with
          | (_, Some _) =>
              sendError (atError clk) "invalid_bet_data" "Invalid bet data" client st
          | (betData, None) =>
              match callRoom room
                      (PlaceBet (atRoom clk) (Client.playerID c) (BetData.Amount betData)
                         (BetData.Choice betData))
                      st with
              | None => None
              | Some (st, Some e) =>
                  sendError (atError clk) "bet_failed" (Error_string e) client st
              | Some (st, None) => Some st
              end
          end
      end
  end.

(** [handleMessage]; [messageBytes = None] stands for bytes that are no JSON
    text. *)
Definition handleMessage (clk : Clock) (fresh : RoomRef) (messageBytes : option JSON)
    (client : ClientRef) (st : ServerState) : option ServerState :=
  let parsed :=
    match messageBytes with
    | None => (zeroMessage, Some (ErrorsNew "invalid character"))
    | Some data => FromJSON Time_Format Time_Parse data
    end in
  match parsed with
  | (_, Some _) =>
      sendError (atError clk) "invalid_message" "Failed to parse message" client
        (set_srv (serverLog LogError "Failed to parse message" (srv st)) st)
  | (msg, None) =>
      if String.eqb (Message.Type_ msg) MsgJoinRoom then handleJoinRoom clk fresh msg client st
      else if String.eqb (Message.Type_ msg) MsgLeaveRoom then handleLeaveRoom clk msg client st
      else if String.eqb (Message.Type_ msg) MsgBetPlaced then handlePlaceBet clk msg client st
      else Some (set_srv (serverLog LogWarn "Unknown message type" (srv st)) st)
  end.

End Handlers.

(** [handleRoomEvents], one turn of its loop: the oldest event of the room is
    taken off its queue and relayed. *)
Definition relayEvent (room : RoomRef) (st : ServerState) : option ServerState :=
  match roomHeap st !! room with
  | None => None
  | Some r =>
      match eventChan r with
      | [] => Some st
      | message :: q =>
          match broadcastToRoom room message (srv st) with
          | None => None
          | Some s =>
              Some (set_srv s (set_roomHeap (<[room := set_eventChan q r]> (roomHeap st)) st))
          end
      end
  end.

(** ** The server at work

    What the server's goroutines do, a step at a time: a connection is
    accepted, [readPump] hands a frame to [handleMessage], or the relay of a
    room takes an event. *)
Inductive ServerEvent :=
| Accepts (client : ClientRef)
| Reads (clk : Clock) (fresh : RoomRef) (messageBytes : option JSON) (client : ClientRef)
| Relays (room : RoomRef).

Section ServerRun.

Variable Time_Format : Time → string.
Variable Time_Parse : string → option Time.

(** The server after the step; [None] is a panic. *)
Definition serve (ev : ServerEvent) (st : ServerState) : option ServerState :=
  match ev with
  | Accepts client => Some (handleWebSocket client st)
  | Reads clk fresh messageBytes client =>
      handleMessage Time_Format Time_Parse clk fresh messageBytes client st
  | Relays room => relayEvent room st
  end.

Fixpoint serveAll (evs : list ServerEvent) (st : ServerState) : option ServerState :=
  match evs with
  | [] => Some st
  | ev :: evs =>
      match serve ev st with
      | Some st => serveAll evs st
      | None => None
      end
  end.

End ServerRun.

(** ** The remote client *)

Inductive ClientTask :=
| GoReadPump
| GoWritePump
| GoPingPump
| GoAttemptReconnect.

(** What the client did to the world outside. *)
Inductive Action :=
| Slept (d : Duration)             (* time.Sleep(d) *)
| Dialed (ok : bool)               (* dialer.Dial *)
| Wrote (data : JSON) (ok : bool)  (* c.conn.WriteMessage *)
| ClosedConn.                      (* c.conn.Close() *)

(** What the world answers to [Connect]. *)
Inductive DialResult :=
| URLInvalid             (* url.Parse fails *)
| DialFailed
| DialOK (conn : nat).

Module ClientConfig.
Record t := mk {
  ServerURL : string;
  ReconnectDelay : Duration;
  MaxReconnects : Z;
  PingPeriod : Duration;
  PongWait : Duration;
  WriteWait : Duration;
  ReadBufferSize : Z;
  WriteBufferSize : Z
}.
End ClientConfig.

Definition DefaultClientConfig : ClientConfig.t :=
  {| ClientConfig.ServerURL := "ws://localhost:8080/ws";
     ClientConfig.ReconnectDelay := 5 * Second;
     ClientConfig.MaxReconnects := 5;
     ClientConfig.PingPeriod := 54 * Second;
     ClientConfig.PongWait := 60 * Second;
     ClientConfig.WriteWait := 10 * Second;
     ClientConfig.ReadBufferSize := 1024;
     ClientConfig.WriteBufferSize := 1024 |}.

Module NetworkClient.
Record t := mk {
  conn : option nat;
  serverURL : string;
  playerID : string;
  playerName : string;
  currentRoom : string;
  eventChan : list Message.t;
  errorChan : list Error;
  connected : bool;
  reconnectDelay : Duration;
  maxReconnects : Z;
  reconnectCount : Z;
  logger : list (LogLevel * string);
  spawned : list ClientTask;
  actions : list Action
}.

(** capacity of [errorChan]: [make(chan error, 10)] *)
Definition errorChanCap : nat := 10.

Definition set_conn (v : option nat) (c : t) : t :=
  mk v (serverURL c) (playerID c) (playerName c) (currentRoom c) (eventChan c)
    (errorChan c) (connected c) (reconnectDelay c) (maxReconnects c) (reconnectCount c)
    (logger c) (spawned c) (actions c).

Definition set_currentRoom (v : string) (c : t) : t :=
  mk (conn c) (serverURL c) (playerID c) (playerName c) v (eventChan c)
    (errorChan c) (connected c) (reconnectDelay c) (maxReconnects c) (reconnectCount c)
    (logger c) (spawned c) (actions c).

Definition set_errorChan (v : list Error) (c : t) : t :=
  mk (conn c) (serverURL c) (playerID c) (playerName c) (currentRoom c) (eventChan c)
    v (connected c) (reconnectDelay c) (maxReconnects c) (reconnectCount c)
    (logger c) (spawned c) (actions c).

Definition set_connected (v : bool) (c : t) : t :=
  mk (conn c) (serverURL c) (playerID c) (playerName c) (currentRoom c) (eventChan c)
    (errorChan c) v (reconnectDelay c) (maxReconnects c) (reconnectCount c)
    (logger c) (spawned c) (actions c).

Definition set_reconnectCount (v : Z) (c : t) : t :=
  mk (conn c) (serverURL c) (playerID c) (playerName c) (currentRoom c) (eventChan c)
    (errorChan c) (connected c) (reconnectDelay c) (maxReconnects c) v
    (logger c) (spawned c) (actions c).

Definition set_spawned (v : list ClientTask) (c : t) : t :=
  mk (conn c) (serverURL c) (playerID c) (playerName c) (currentRoom c) (eventChan c)
    (errorChan c) (connected c) (reconnectDelay c) (maxReconnects c) (reconnectCount c)
    (logger c) v (actions c).

Definition log (lvl : LogLevel) (msg : string) (c : t) : t :=
  mk (conn c) (serverURL c) (playerID c) (playerName c) (currentRoom c) (eventChan c)
    (errorChan c) (connected c) (reconnectDelay c) (maxReconnects c) (reconnectCount c)
    (logger c ++ [(lvl, msg)]) (spawned c) (actions c).

Definition spawn (t0 : ClientTask) (c : t) : t :=
  mk (conn c) (serverURL c) (playerID c) (playerName c) (currentRoom c) (eventChan c)
    (errorChan c) (connected c) (reconnectDelay c) (maxReconnects c) (reconnectCount c)
    (logger c) (spawned c ++ [t0]) (actions c).

Definition act (a : Action) (c : t) : t :=
  mk (conn c) (serverURL c) (playerID c) (playerName c) (currentRoom c) (eventChan c)
    (errorChan c) (connected c) (reconnectDelay c) (maxReconnects c) (reconnectCount c)
    (logger c) (spawned c) (actions c ++ [a]).

(** [NewNetworkClient]; [config = None] is the nil pointer.  The handler
    table and the ping settings play no part in what follows and are left
    out of the record. *)
Definition NewNetworkClient (config : option ClientConfig.t) (playerID playerName : string)
    : t :=
  let config := match config with Some cfg => cfg | None => DefaultClientConfig end in
  {| conn := None;
     serverURL := ClientConfig.ServerURL config;
     playerID := playerID;
     playerName := playerName;
     currentRoom := "";
     eventChan := [];
     errorChan := [];
     connected := false;
     reconnectDelay := ClientConfig.ReconnectDelay config;
     maxReconnects := ClientConfig.MaxReconnects config;
     reconnectCount := 0;
     logger := [];
     spawned := [];
     actions := [] |}.

(** [select { case c.errorChan <- err: default: }] *)
Definition offerError (err : Error) (c : t) : t :=
  match chan_offer errorChanCap (errorChan c) err with
  | Some q => set_errorChan q c
  | None => c
  end.

(** [Connect] once the dial has given the connection [h]. *)
Definition established (h : nat) (c : t) : t :=
  let c := act (Dialed true) (log LogInfo "Connecting to server" c) in
  let c := set_conn (Some h) c in
  let c := set_connected true c in
  let c := set_reconnectCount 0 c in
  let c := spawn GoPingPump (spawn GoWritePump (spawn GoReadPump c)) in
  log LogInfo "Connected to server successfully" c.

Definition Connect (dial : DialResult) (c : t) : t * option Error :=
  if connected c then (c, None)
  else
    match dial with
    | URLInvalid => (c, Some (ErrorsNew "invalid server URL"))
    | DialFailed =>
        (act (Dialed false) (log LogInfo "Connecting to server" c),
         Some (ErrorsNew "failed to connect to server"))
    | DialOK h => (established h c, None)
    end.

Definition sendMessage (msg : Message.t) (writeOK : bool) (c : t) : t * option Error :=
  if negb (connected c) || negb (bool_decide (is_Some (conn c)))
  then (c, Some (ErrorsNew "not connected"))
  else
    match ToJSON msg with
    | None => (c, Some (ErrorsNew "failed to serialize message"))
    | Some data =>
        (act (Wrote data writeOK) c,
         if writeOK then None else Some (ErrorsNew "write failed"))
    end.

Definition JoinRoom (now : Time) (writeOK : bool) (roomID : string) (balance : float)
    (c : t) : t * option Error :=
  if negb (connected c) then (c, Some (ErrorsNew "not connected to server"))
  else
    let joinData :=
      {| RoomJoinData.PlayerName := playerName c; RoomJoinData.Balance := balance |} in
    let msg := NewMessage now MsgJoinRoom roomID (playerID c) (DataJoin joinData) in
    match sendMessage msg writeOK c with
    | (c, Some _) => (c, Some (ErrorsNew "failed to send join room message"))
    | (c, None) => (log LogInfo "Joining room" (set_currentRoom roomID c), None)
    end.

(** [Disconnect]; the context it cancels, which ends the pumps, is not part of
    the record. *)
Definition Disconnect (c : t) : t :=
  if negb (connected c) then c
  else
    let c := set_connected false c in
    let c :=
      match conn c with
      | Some _ => set_conn None (act ClosedConn c)
      | None => c
      end in
    log LogInfo "Disconnected from server" c.

Definition LeaveRoom (now : Time) (writeOK : bool) (c : t) : t * option Error :=
  let roomID := currentRoom c in
  if String.eqb roomID "" then (c, None)
  else if negb (connected c) then (c, Some (ErrorsNew "not connected to server"))
  else
    let msg := NewMessage now MsgLeaveRoom roomID (playerID c) DataNil in
    match sendMessage msg writeOK c with
    | (c, Some _) => (c, Some (ErrorsNew "failed to send leave room message"))
    | (c, None) => (log LogInfo "Left room" (set_currentRoom "" c), None)
    end.

(** The client's [PlaceBet]; [nowID] is the clock read for the bet id, [now]
    the one read by [NewMessage]. *)
Definition PlaceBet (nowID now : Time) (writeOK : bool) (amount : float)
    (choice : game.Side) (c : t) : t * option Error :=
  let roomID := currentRoom c in
  if String.eqb roomID "" then (c, Some (ErrorsNew "not in a room"))
  else if negb (connected c) then (c, Some (ErrorsNew "not connected to server"))
  else
    let betData :=
      {| BetData.PlayerID := playerID c;
         BetData.Amount := amount;
         BetData.Choice := choice;
         BetData.BetID := "bet_" +:+ pretty nowID |} in
    let msg := NewMessage now MsgBetPlaced roomID (playerID c) (DataBet betData) in
    match sendMessage msg writeOK c with
    | (c, Some _) => (c, Some (ErrorsNew "failed to send bet message"))
    | (c, None) => (log LogInfo "Placed bet" c, None)
    end.

Definition handleDisconnect (c : t) : t :=
  let c := set_connected false c in
  let c :=
    match conn c with
    | Some _ => set_conn None (act ClosedConn c)
    | None => c
    end in
  let c := log LogWarn "Connection lost" c in
  let c := offerError (ErrorsNew "connection lost") c in
  if (maxReconnects c >? 0) && (reconnectCount c <? maxReconnects c)
  then spawn GoAttemptReconnect c
  else c.

(** [attemptReconnect]; [dial] and [writeOK] are the outcomes of the dial and
    of the write of the join message, should they take place. *)
Definition attemptReconnect (now : Time) (dial : DialResult) (writeOK : bool) (c : t) : t :=
  let c := set_reconnectCount (wrap64 (reconnectCount c + 1)) c in
  let c := log LogInfo "Attempting to reconnect" c in
  let c := act (Slept (reconnectDelay c)) c in
  match Connect dial c with
  | (c, Some _) =>
      let c := log LogError "Reconnection failed" c in
      if reconnectCount c <? maxReconnects c
      then spawn GoAttemptReconnect c
      else offerError (ErrorsNew "max reconnection attempts reached") c
  | (c, None) =>
      if negb (String.eqb (currentRoom c) "") then
        match JoinRoom now writeOK (currentRoom c) 1000%float c with
        | (c, Some _) => log LogError "Failed to rejoin room after reconnect" c
        | (c, None) => c
        end
      else c
  end.

(** The first [GoAttemptReconnect] waiting in [tasks] taken out, if there is
    one. *)
Fixpoint takeReconnect (tasks : list ClientTask) : option (list ClientTask) :=
  match tasks with
  | [] => None
  | GoAttemptReconnect :: rest => Some rest
  | t0 :: rest =>
      match takeReconnect rest with
      | Some rest' => Some (t0 :: rest')
      | None => None
      end
  end.

(** The scheduled reconnections run one after the other, each with the next
    answer of the world, for as long as one is scheduled and answers are
    left. *)
Fixpoint runReconnects (answers : list (Time * DialResult * bool)) (c : t) : t :=
  match answers with
  | [] => c
  | (now, dial, writeOK) :: answers =>
      match takeReconnect (spawned c) with
      | None => c
      | Some rest =>
          runReconnects answers (attemptReconnect now dial writeOK (set_spawned rest c))
      end
  end.

(** The reconnection attempts made so far: each one sleeps once, and nothing
    else sleeps. *)
Definition attempts (c : t) : nat :=
  List.length (List.filter (fun a => match a with Slept _ => true | _ => false end) (actions c)).

End NetworkClient.

(** ** Worked examples: a digest, a clock and a few events *)

(** A stand-in for [sha256.Sum256] in the examples: 32 bytes, the eighth and
    the last of them the last byte of the input (or zero), so that the coin
    follows the seed. Everything proved about the room holds for every digest
    function. *)
Definition lastByteDigest (bs : list Byte.byte) : list Byte.byte :=
  repeat Byte.x00 7 ++ [List.last bs Byte.x00] ++ repeat Byte.x00 23
  ++ [List.last bs Byte.x00].

Definition noon : Time := 1700000000 * Second.

(** Two players of balance 100 join a room of the default configuration and
    the goroutine started by the second [AddPlayer] starts the round. *)
Definition twoJoinAndStart : list (Time * Event) :=
  [(noon, CallAddPlayer "P1" "Ann" 100%float);
   (noon + 1 * Second, CallAddPlayer "P2" "Bob" 100%float);
   (noon + 2 * Second, RunTask 0)].

(** Scenario A of the specification: P1 bets 10 on heads, P2 bets 20 on
    tails, and the betting timer fires. *)
Definition betsPlaced : list (Time * Event) :=
  twoJoinAndStart ++
  [(noon + 10 * Second, CallPlaceBet "P1" 10%float game.Heads);
   (noon + 20 * Second, CallPlaceBet "P2" 20%float game.Tails)].

Definition scenarioA (seedBytes : list Byte.byte) : list (Time * Event) :=
  betsPlaced ++ [(noon + 62 * Second, BettingTimerFires seedBytes)].

Definition freshRoom : GameRoom := NewGameRoom noon "lobby" "Room lobby" None.

(** The room of the examples once the round has started, and once the two
    bets are placed (no event so far asks for a digest). *)
Definition bettingRoom : GameRoom :=
  Eval vm_compute in
    match run lastByteDigest twoJoinAndStart freshRoom with
    | Some r => r
    | None => freshRoom
    end.

Definition roomWithBets : GameRoom :=
  Eval vm_compute in
    match run lastByteDigest betsPlaced freshRoom with
    | Some r => r
    | None => freshRoom
    end.

(** P1 joins with a balance of 3.4 (the nearest [float64]). *)
Definition smallJoinAndStart : list (Time * Event) :=
  [(noon, CallAddPlayer "P1" "Ann" 0x1.b333333333333p+1%float);
   (noon + 1 * Second, CallAddPlayer "P2" "Bob" 100%float);
   (noon + 2 * Second, RunTask 0)].

(** P1 leaves during the betting phase of the example. *)
Definition leaveWhileBetting : list (Time * Event) :=
  twoJoinAndStart ++ [(noon + 3 * Second, CallRemovePlayer "P1")].

(** The room of the examples after P1 left during the betting phase. *)
Definition pausedRoom : GameRoom :=
  Eval vm_compute in
    match run lastByteDigest leaveWhileBetting freshRoom with
    | Some r => r
    | None => freshRoom
    end.

(** P1 bets 10 on a side that does not exist. *)
Definition oddBetPlaced : list (Time * Event) :=
  twoJoinAndStart ++ [(noon + 10 * Second, CallPlaceBet "P1" 10%float "edge")].

Definition roomWithOddBet : GameRoom :=
  Eval vm_compute in
    match run lastByteDigest oddBetPlaced freshRoom with
    | Some r => r
    | None => freshRoom
    end.

(** The room of the examples with its two players, before the round starts. *)
Definition roomOfTwo : GameRoom :=
  Eval vm_compute in
    match run lastByteDigest (take 2 twoJoinAndStart) freshRoom with
    | Some r => r
    | None => freshRoom
    end.

(** P1 joins again and again before P2 does, and nobody reads the queue:
    ninety-eight room updates wait in it, the start of the round adds two,
    and P1 bets. *)
Definition crowdedQueue : list (Time * Event) :=
  repeat (noon, CallAddPlayer "P1" "Ann" 100%float) 97
  ++ [(noon + 1 * Second, CallAddPlayer "P2" "Bob" 100%float);
      (noon + 2 * Second, RunTask 0);
      (noon + 10 * Second, CallPlaceBet "P1" 10%float game.Heads)].

(** P2 leaves before the goroutine that its [AddPlayer] started gets to
    run. *)
Definition leftBeforeStart : list (Time * Event) :=
  [(noon + 1 * Second, CallRemovePlayer "P2"); (noon + 2 * Second, RunTask 0)].

(** No time appears in the examples' payloads: any reading of times does. *)
Definition noTimeFormat : Time → string := fun _ => "".
Definition noTimeParse : string → option Time := fun _ => None.

Definition exampleClock : Clock := mkClock noon (noon + 1 * Second) (noon + 2 * Second).

(** A request to join the lobby, as [handleMessage] reads it off the wire,
    and the same request from a second player. *)
Definition joinEnvelope : Message.t :=
  NewMessage noon MsgJoinRoom "lobby" "P1"
    (DataAny (AMap [("balance", AFloat 100%float); ("player_name", AString "Ann")])).

Definition secondJoinEnvelope : Message.t :=
  NewMessage noon MsgJoinRoom "lobby" "P2"
    (DataAny (AMap [("balance", AFloat 100%float); ("player_name", AString "Bob")])).

(** Connection 1 asks to join the lobby, made at address 7, again and again
    and its buffer is never emptied: each request puts a room update in the
    queue of the room and the relay hands it to the connection, until the
    buffer is full and the relay cuts the connection off. Connection 2 then
    joins as P2 and is handed the update that its arrival makes. *)
Definition stalledReader : list ServerEvent :=
  Accepts 1%nat
  :: concat (repeat [Reads exampleClock 7%nat (ToJSON joinEnvelope) 1%nat; Relays 7%nat] 257)
  ++ [Accepts 2%nat; Reads exampleClock 7%nat (ToJSON secondJoinEnvelope) 2%nat;
      Relays 7%nat].


(** A client with a budget of three reconnections, connected. *)
Definition exampleConfig : ClientConfig.t :=
  {| ClientConfig.ServerURL := "ws://localhost:8080/ws";
     ClientConfig.ReconnectDelay := 5 * Second;
     ClientConfig.MaxReconnects := 3;
     ClientConfig.PingPeriod := 54 * Second;
     ClientConfig.PongWait := 60 * Second;
     ClientConfig.WriteWait := 10 * Second;
     ClientConfig.ReadBufferSize := 1024;
     ClientConfig.WriteBufferSize := 1024 |}.

Definition exampleClient : NetworkClient.t :=
  (NetworkClient.Connect (DialOK 1)
     (NetworkClient.NewNetworkClient (Some exampleConfig) "P1" "Alice")).1.

(** The connection is lost and the first reconnection succeeds. *)
Definition lostAndBack (c : NetworkClient.t) : NetworkClient.t :=
  NetworkClient.runReconnects [(noon, DialOK 2, true)] (NetworkClient.handleDisconnect c).

(** Ten such losses, and nobody reading the error channel. *)
Definition neverDrained : NetworkClient.t :=
  Eval vm_compute in Nat.iter 10 lostAndBack exampleClient.

Definition threeFailures : list (Time * DialResult * bool) :=
  repeat (noon, DialFailed, true) 3.

(** * Proofs *)

(** ** Reading a field after an update

    The projections of an updated room are rewritten with these equations,
    never left to conversion: a room is a nest of updates and comparing two
    such nests by unfolding them is costly. *)

Section Lenses.

Context (r : GameRoom).

Lemma room_id_set_players v : room_id (set_players v r) = room_id r.
Proof. reflexivity. Qed.

Lemma players_set_players v : players (set_players v r) = v.
Proof. reflexivity. Qed.

Lemma gameState_set_players v : gameState (set_players v r) = gameState r.
Proof. reflexivity. Qed.

Lemma currentRound_set_players v : currentRound (set_players v r) = currentRound r.
Proof. reflexivity. Qed.

Lemma config_set_players v : config (set_players v r) = config r.
Proof. reflexivity. Qed.

Lemma logger_set_players v : logger (set_players v r) = logger r.
Proof. reflexivity. Qed.

Lemma timer_set_players v : timer (set_players v r) = timer r.
Proof. reflexivity. Qed.

Lemma eventChan_set_players v : eventChan (set_players v r) = eventChan r.
Proof. reflexivity. Qed.

Lemma spawned_set_players v : spawned (set_players v r) = spawned r.
Proof. reflexivity. Qed.

Lemma room_id_set_gameState v : room_id (set_gameState v r) = room_id r.
Proof. reflexivity. Qed.

Lemma players_set_gameState v : players (set_gameState v r) = players r.
Proof. reflexivity. Qed.

Lemma gameState_set_gameState v : gameState (set_gameState v r) = v.
Proof. reflexivity. Qed.

Lemma currentRound_set_gameState v : currentRound (set_gameState v r) = currentRound r.
Proof. reflexivity. Qed.

Lemma config_set_gameState v : config (set_gameState v r) = config r.
Proof. reflexivity. Qed.

Lemma logger_set_gameState v : logger (set_gameState v r) = logger r.
Proof. reflexivity. Qed.

Lemma timer_set_gameState v : timer (set_gameState v r) = timer r.
Proof. reflexivity. Qed.

Lemma eventChan_set_gameState v : eventChan (set_gameState v r) = eventChan r.
Proof. reflexivity. Qed.

Lemma spawned_set_gameState v : spawned (set_gameState v r) = spawned r.
Proof. reflexivity. Qed.

Lemma room_id_set_currentRound v : room_id (set_currentRound v r) = room_id r.
Proof. reflexivity. Qed.

Lemma players_set_currentRound v : players (set_currentRound v r) = players r.
Proof. reflexivity. Qed.

Lemma gameState_set_currentRound v : gameState (set_currentRound v r) = gameState r.
Proof. reflexivity. Qed.

Lemma currentRound_set_currentRound v : currentRound (set_currentRound v r) = v.
Proof. reflexivity. Qed.

Lemma config_set_currentRound v : config (set_currentRound v r) = config r.
Proof. reflexivity. Qed.

Lemma logger_set_currentRound v : logger (set_currentRound v r) = logger r.
Proof. reflexivity. Qed.

Lemma timer_set_currentRound v : timer (set_currentRound v r) = timer r.
Proof. reflexivity. Qed.

Lemma eventChan_set_currentRound v : eventChan (set_currentRound v r) = eventChan r.
Proof. reflexivity. Qed.

Lemma spawned_set_currentRound v : spawned (set_currentRound v r) = spawned r.
Proof. reflexivity. Qed.

Lemma room_id_set_logger v : room_id (set_logger v r) = room_id r.
Proof. reflexivity. Qed.

Lemma players_set_logger v : players (set_logger v r) = players r.
Proof. reflexivity. Qed.

Lemma gameState_set_logger v : gameState (set_logger v r) = gameState r.
Proof. reflexivity. Qed.

Lemma currentRound_set_logger v : currentRound (set_logger v r) = currentRound r.
Proof. reflexivity. Qed.

Lemma config_set_logger v : config (set_logger v r) = config r.
Proof. reflexivity. Qed.

Lemma logger_set_logger v : logger (set_logger v r) = v.
Proof. reflexivity. Qed.

Lemma timer_set_logger v : timer (set_logger v r) = timer r.
Proof. reflexivity. Qed.

Lemma eventChan_set_logger v : eventChan (set_logger v r) = eventChan r.
Proof. reflexivity. Qed.

Lemma spawned_set_logger v : spawned (set_logger v r) = spawned r.
Proof. reflexivity. Qed.

Lemma room_id_set_timer v : room_id (set_timer v r) = room_id r.
Proof. reflexivity. Qed.

Lemma players_set_timer v : players (set_timer v r) = players r.
Proof. reflexivity. Qed.

Lemma gameState_set_timer v : gameState (set_timer v r) = gameState r.
Proof. reflexivity. Qed.

Lemma currentRound_set_timer v : currentRound (set_timer v r) = currentRound r.
Proof. reflexivity. Qed.

Lemma config_set_timer v : config (set_timer v r) = config r.
Proof. reflexivity. Qed.

Lemma logger_set_timer v : logger (set_timer v r) = logger r.
Proof. reflexivity. Qed.

Lemma timer_set_timer v : timer (set_timer v r) = v.
Proof. reflexivity. Qed.

Lemma eventChan_set_timer v : eventChan (set_timer v r) = eventChan r.
Proof. reflexivity. Qed.

Lemma spawned_set_timer v : spawned (set_timer v r) = spawned r.
Proof. reflexivity. Qed.

Lemma room_id_set_timerEnd v : room_id (set_timerEnd v r) = room_id r.
Proof. reflexivity. Qed.

Lemma players_set_timerEnd v : players (set_timerEnd v r) = players r.
Proof. reflexivity. Qed.

Lemma gameState_set_timerEnd v : gameState (set_timerEnd v r) = gameState r.
Proof. reflexivity. Qed.

Lemma currentRound_set_timerEnd v : currentRound (set_timerEnd v r) = currentRound r.
Proof. reflexivity. Qed.

Lemma config_set_timerEnd v : config (set_timerEnd v r) = config r.
Proof. reflexivity. Qed.

Lemma logger_set_timerEnd v : logger (set_timerEnd v r) = logger r.
Proof. reflexivity. Qed.

Lemma timer_set_timerEnd v : timer (set_timerEnd v r) = timer r.
Proof. reflexivity. Qed.

Lemma eventChan_set_timerEnd v : eventChan (set_timerEnd v r) = eventChan r.
Proof. reflexivity. Qed.

Lemma spawned_set_timerEnd v : spawned (set_timerEnd v r) = spawned r.
Proof. reflexivity. Qed.

Lemma room_id_set_eventChan v : room_id (set_eventChan v r) = room_id r.
Proof. reflexivity. Qed.

Lemma players_set_eventChan v : players (set_eventChan v r) = players r.
Proof. reflexivity. Qed.

Lemma gameState_set_eventChan v : gameState (set_eventChan v r) = gameState r.
Proof. reflexivity. Qed.

Lemma currentRound_set_eventChan v : currentRound (set_eventChan v r) = currentRound r.
Proof. reflexivity. Qed.

Lemma config_set_eventChan v : config (set_eventChan v r) = config r.
Proof. reflexivity. Qed.

Lemma logger_set_eventChan v : logger (set_eventChan v r) = logger r.
Proof. reflexivity. Qed.

Lemma timer_set_eventChan v : timer (set_eventChan v r) = timer r.
Proof. reflexivity. Qed.

Lemma eventChan_set_eventChan v : eventChan (set_eventChan v r) = v.
Proof. reflexivity. Qed.

Lemma spawned_set_eventChan v : spawned (set_eventChan v r) = spawned r.
Proof. reflexivity. Qed.

Lemma room_id_set_totalRounds v : room_id (set_totalRounds v r) = room_id r.
Proof. reflexivity. Qed.

Lemma players_set_totalRounds v : players (set_totalRounds v r) = players r.
Proof. reflexivity. Qed.

Lemma gameState_set_totalRounds v : gameState (set_totalRounds v r) = gameState r.
Proof. reflexivity. Qed.

Lemma currentRound_set_totalRounds v : currentRound (set_totalRounds v r) = currentRound r.
Proof. reflexivity. Qed.

Lemma config_set_totalRounds v : config (set_totalRounds v r) = config r.
Proof. reflexivity. Qed.

Lemma logger_set_totalRounds v : logger (set_totalRounds v r) = logger r.
Proof. reflexivity. Qed.

Lemma timer_set_totalRounds v : timer (set_totalRounds v r) = timer r.
Proof. reflexivity. Qed.

Lemma eventChan_set_totalRounds v : eventChan (set_totalRounds v r) = eventChan r.
Proof. reflexivity. Qed.

Lemma spawned_set_totalRounds v : spawned (set_totalRounds v r) = spawned r.
Proof. reflexivity. Qed.

Lemma room_id_set_lastActivity v : room_id (set_lastActivity v r) = room_id r.
Proof. reflexivity. Qed.

Lemma players_set_lastActivity v : players (set_lastActivity v r) = players r.
Proof. reflexivity. Qed.

Lemma gameState_set_lastActivity v : gameState (set_lastActivity v r) = gameState r.
Proof. reflexivity. Qed.

Lemma currentRound_set_lastActivity v : currentRound (set_lastActivity v r) = currentRound r.
Proof. reflexivity. Qed.

Lemma config_set_lastActivity v : config (set_lastActivity v r) = config r.
Proof. reflexivity. Qed.

Lemma logger_set_lastActivity v : logger (set_lastActivity v r) = logger r.
Proof. reflexivity. Qed.

Lemma timer_set_lastActivity v : timer (set_lastActivity v r) = timer r.
Proof. reflexivity. Qed.

Lemma eventChan_set_lastActivity v : eventChan (set_lastActivity v r) = eventChan r.
Proof. reflexivity. Qed.

Lemma spawned_set_lastActivity v : spawned (set_lastActivity v r) = spawned r.
Proof. reflexivity. Qed.

Lemma room_id_set_spawned v : room_id (set_spawned v r) = room_id r.
Proof. reflexivity. Qed.

Lemma players_set_spawned v : players (set_spawned v r) = players r.
Proof. reflexivity. Qed.

Lemma gameState_set_spawned v : gameState (set_spawned v r) = gameState r.
Proof. reflexivity. Qed.

Lemma currentRound_set_spawned v : currentRound (set_spawned v r) = currentRound r.
Proof. reflexivity. Qed.

Lemma config_set_spawned v : config (set_spawned v r) = config r.
Proof. reflexivity. Qed.

Lemma logger_set_spawned v : logger (set_spawned v r) = logger r.
Proof. reflexivity. Qed.

Lemma timer_set_spawned v : timer (set_spawned v r) = timer r.
Proof. reflexivity. Qed.

Lemma eventChan_set_spawned v : eventChan (set_spawned v r) = eventChan r.
Proof. reflexivity. Qed.

Lemma spawned_set_spawned v : spawned (set_spawned v r) = v.
Proof. reflexivity. Qed.

Lemma room_id_log lvl msg : room_id (log lvl msg r) = room_id r.
Proof. reflexivity. Qed.

Lemma room_id_spawn t : room_id (spawn t r) = room_id r.
Proof. reflexivity. Qed.

Lemma players_log lvl msg : players (log lvl msg r) = players r.
Proof. reflexivity. Qed.

Lemma players_spawn t : players (spawn t r) = players r.
Proof. reflexivity. Qed.

Lemma gameState_log lvl msg : gameState (log lvl msg r) = gameState r.
Proof. reflexivity. Qed.

Lemma gameState_spawn t : gameState (spawn t r) = gameState r.
Proof. reflexivity. Qed.

Lemma currentRound_log lvl msg : currentRound (log lvl msg r) = currentRound r.
Proof. reflexivity. Qed.

Lemma currentRound_spawn t : currentRound (spawn t r) = currentRound r.
Proof. reflexivity. Qed.

Lemma config_log lvl msg : config (log lvl msg r) = config r.
Proof. reflexivity. Qed.

Lemma config_spawn t : config (spawn t r) = config r.
Proof. reflexivity. Qed.

Lemma logger_log lvl msg : logger (log lvl msg r) = logger r ++ [(lvl, msg)].
Proof. reflexivity. Qed.

Lemma logger_spawn t : logger (spawn t r) = logger r.
Proof. reflexivity. Qed.

Lemma timer_log lvl msg : timer (log lvl msg r) = timer r.
Proof. reflexivity. Qed.

Lemma timer_spawn t : timer (spawn t r) = timer r.
Proof. reflexivity. Qed.

Lemma eventChan_log lvl msg : eventChan (log lvl msg r) = eventChan r.
Proof. reflexivity. Qed.

Lemma eventChan_spawn t : eventChan (spawn t r) = eventChan r.
Proof. reflexivity. Qed.

Lemma spawned_log lvl msg : spawned (log lvl msg r) = spawned r.
Proof. reflexivity. Qed.

Lemma spawned_spawn t : spawned (spawn t r) = spawned r ++ [t].
Proof. reflexivity. Qed.

End Lenses.

(** ** What the helpers leave alone *)

Lemma room_id_broadcastMessage msg r : room_id (broadcastMessage msg r) = room_id r.
Proof. unfold broadcastMessage. by destruct (chan_offer _ _ _). Qed.

Lemma players_broadcastMessage msg r : players (broadcastMessage msg r) = players r.
Proof. unfold broadcastMessage. by destruct (chan_offer _ _ _). Qed.

Lemma gameState_broadcastMessage msg r : gameState (broadcastMessage msg r) = gameState r.
Proof. unfold broadcastMessage. by destruct (chan_offer _ _ _). Qed.

Lemma currentRound_broadcastMessage msg r : currentRound (broadcastMessage msg r) = currentRound r.
Proof. unfold broadcastMessage. by destruct (chan_offer _ _ _). Qed.

Lemma config_broadcastMessage msg r : config (broadcastMessage msg r) = config r.
Proof. unfold broadcastMessage. by destruct (chan_offer _ _ _). Qed.

Lemma timer_broadcastMessage msg r : timer (broadcastMessage msg r) = timer r.
Proof. unfold broadcastMessage. by destruct (chan_offer _ _ _). Qed.

Lemma spawned_broadcastMessage msg r : spawned (broadcastMessage msg r) = spawned r.
Proof. unfold broadcastMessage. by destruct (chan_offer _ _ _). Qed.

Lemma room_id_broadcastRoomUpdate now r : room_id (broadcastRoomUpdate now r) = room_id r.
Proof. apply room_id_broadcastMessage. Qed.

Lemma players_broadcastRoomUpdate now r : players (broadcastRoomUpdate now r) = players r.
Proof. apply players_broadcastMessage. Qed.

Lemma gameState_broadcastRoomUpdate now r : gameState (broadcastRoomUpdate now r) = gameState r.
Proof. apply gameState_broadcastMessage. Qed.

Lemma currentRound_broadcastRoomUpdate now r : currentRound (broadcastRoomUpdate now r) = currentRound r.
Proof. apply currentRound_broadcastMessage. Qed.

Lemma config_broadcastRoomUpdate now r : config (broadcastRoomUpdate now r) = config r.
Proof. apply config_broadcastMessage. Qed.

Lemma timer_broadcastRoomUpdate now r : timer (broadcastRoomUpdate now r) = timer r.
Proof. apply timer_broadcastMessage. Qed.

Lemma spawned_broadcastRoomUpdate now r : spawned (broadcastRoomUpdate now r) = spawned r.
Proof. apply spawned_broadcastMessage. Qed.

Lemma room_id_checkAndStartGame r : room_id (checkAndStartGame r) = room_id r.
Proof. unfold checkAndStartGame. by destruct (_ && _). Qed.

Lemma players_checkAndStartGame r : players (checkAndStartGame r) = players r.
Proof. unfold checkAndStartGame. by destruct (_ && _). Qed.

Lemma gameState_checkAndStartGame r : gameState (checkAndStartGame r) = gameState r.
Proof. unfold checkAndStartGame. by destruct (_ && _). Qed.

Lemma currentRound_checkAndStartGame r : currentRound (checkAndStartGame r) = currentRound r.
Proof. unfold checkAndStartGame. by destruct (_ && _). Qed.

Lemma config_checkAndStartGame r : config (checkAndStartGame r) = config r.
Proof. unfold checkAndStartGame. by destruct (_ && _). Qed.

Lemma timer_checkAndStartGame r : timer (checkAndStartGame r) = timer r.
Proof. unfold checkAndStartGame. by destruct (_ && _). Qed.

Lemma eventChan_checkAndStartGame r : eventChan (checkAndStartGame r) = eventChan r.
Proof. unfold checkAndStartGame. by destruct (_ && _). Qed.

Create Rewrite HintDb room.

#[local] Hint Rewrite
  room_id_set_players players_set_players gameState_set_players currentRound_set_players
  config_set_players logger_set_players timer_set_players eventChan_set_players
  spawned_set_players room_id_set_gameState players_set_gameState gameState_set_gameState
  currentRound_set_gameState config_set_gameState logger_set_gameState timer_set_gameState
  eventChan_set_gameState spawned_set_gameState room_id_set_currentRound players_set_currentRound
  gameState_set_currentRound currentRound_set_currentRound config_set_currentRound logger_set_currentRound
  timer_set_currentRound eventChan_set_currentRound spawned_set_currentRound room_id_set_logger
  players_set_logger gameState_set_logger currentRound_set_logger config_set_logger
  logger_set_logger timer_set_logger eventChan_set_logger spawned_set_logger
  room_id_set_timer players_set_timer gameState_set_timer currentRound_set_timer
  config_set_timer logger_set_timer timer_set_timer eventChan_set_timer
  spawned_set_timer room_id_set_timerEnd players_set_timerEnd gameState_set_timerEnd
  currentRound_set_timerEnd config_set_timerEnd logger_set_timerEnd timer_set_timerEnd
  eventChan_set_timerEnd spawned_set_timerEnd room_id_set_eventChan players_set_eventChan
  gameState_set_eventChan currentRound_set_eventChan config_set_eventChan logger_set_eventChan
  timer_set_eventChan eventChan_set_eventChan spawned_set_eventChan room_id_set_totalRounds
  players_set_totalRounds gameState_set_totalRounds currentRound_set_totalRounds config_set_totalRounds
  logger_set_totalRounds timer_set_totalRounds eventChan_set_totalRounds spawned_set_totalRounds
  room_id_set_lastActivity players_set_lastActivity gameState_set_lastActivity currentRound_set_lastActivity
  config_set_lastActivity logger_set_lastActivity timer_set_lastActivity eventChan_set_lastActivity
  spawned_set_lastActivity room_id_set_spawned players_set_spawned gameState_set_spawned
  currentRound_set_spawned config_set_spawned logger_set_spawned timer_set_spawned
  eventChan_set_spawned spawned_set_spawned room_id_log room_id_spawn
  players_log players_spawn gameState_log gameState_spawn
  currentRound_log currentRound_spawn config_log config_spawn
  logger_log logger_spawn timer_log timer_spawn
  eventChan_log eventChan_spawn spawned_log spawned_spawn
  room_id_broadcastMessage players_broadcastMessage gameState_broadcastMessage currentRound_broadcastMessage
  config_broadcastMessage timer_broadcastMessage spawned_broadcastMessage room_id_broadcastRoomUpdate
  players_broadcastRoomUpdate gameState_broadcastRoomUpdate currentRound_broadcastRoomUpdate config_broadcastRoomUpdate
  timer_broadcastRoomUpdate spawned_broadcastRoomUpdate room_id_checkAndStartGame players_checkAndStartGame
  gameState_checkAndStartGame currentRound_checkAndStartGame config_checkAndStartGame timer_checkAndStartGame
  eventChan_checkAndStartGame
  : room.

(** Push the projections of a room through its updates. *)
Ltac fields := autorewrite with room.

Lemma len_players_eq r r' : players r' = players r → len_players r' = len_players r.
Proof. unfold len_players. by intros ->. Qed.

Lemma GameState_eqb_eq a b : GameState_eqb a b = true ↔ a = b.
Proof. destruct a, b; simpl; split; intros; congruence. Qed.

Lemma GameState_eqb_neq a b : GameState_eqb a b = false ↔ a ≠ b.
Proof. destruct a, b; simpl; split; intros; congruence. Qed.

(** ** The operations, field by field *)

Lemma pauseGame_fields now r :
  players (pauseGame now r) = players r
  ∧ currentRound (pauseGame now r) = currentRound r
  ∧ gameState (pauseGame now r) = StatePaused
  ∧ timer (pauseGame now r) = stopTimer (timer r)
  ∧ config (pauseGame now r) = config r
  ∧ spawned (pauseGame now r) = spawned r.
Proof. unfold pauseGame. cbv zeta. fields. done. Qed.

Lemma startBettingPhase_fields now r :
  players (startBettingPhase now r) = players r
  ∧ currentRound (startBettingPhase now r) = currentRound r
  ∧ gameState (startBettingPhase now r) = gameState r
  ∧ timer (startBettingPhase now r) = Some TimerPending
  ∧ config (startBettingPhase now r) = config r
  ∧ spawned (startBettingPhase now r) = spawned r ++ [GoBroadcastTimer].
Proof. unfold startBettingPhase. cbv zeta. fields. done. Qed.

Lemma beginRound_fields now r :
  players (beginRound now r) = players r
  ∧ currentRound (beginRound now r) = Some (newGameRound now r)
  ∧ gameState (beginRound now r) = StateBetting
  ∧ timer (beginRound now r) = Some TimerPending
  ∧ config (beginRound now r) = config r
  ∧ spawned (beginRound now r) = spawned r ++ [GoBroadcastTimer].
Proof.
  unfold beginRound. cbv zeta. fields.
  destruct (startBettingPhase_fields now
    (set_totalRounds
       (wrap64 (totalRounds (set_gameState StateBetting
                               (set_currentRound (Some (newGameRound now r)) r)) + 1))
       (set_gameState StateBetting (set_currentRound (Some (newGameRound now r)) r))))
    as (-> & -> & -> & -> & -> & ->).
  fields. done.
Qed.

Lemma admitPlayer_fields now playerID playerName balance r :
  players (admitPlayer now playerID playerName balance r)
  = <[playerID := newRoomPlayer now playerID playerName balance]> (players r)
  ∧ currentRound (admitPlayer now playerID playerName balance r) = currentRound r
  ∧ gameState (admitPlayer now playerID playerName balance r) = gameState r
  ∧ timer (admitPlayer now playerID playerName balance r) = timer r
  ∧ config (admitPlayer now playerID playerName balance r) = config r.
Proof. unfold admitPlayer. cbv zeta. fields. done. Qed.

Lemma AddPlayer_full now playerID playerName balance r :
  (len_players r >=? RoomConfig.MaxPlayers (config r)) = true →
  AddPlayer now playerID playerName balance r = (r, Some ErrRoomFull).
Proof. intros H. unfold AddPlayer. by rewrite H. Qed.

Lemma AddPlayer_admitted now playerID playerName balance r :
  (len_players r >=? RoomConfig.MaxPlayers (config r)) = false →
  AddPlayer now playerID playerName balance r
  = (admitPlayer now playerID playerName balance r, None).
Proof. intros H. unfold AddPlayer. by rewrite H. Qed.

Lemma with_Bets_same rd : with_Bets (GameRound.Bets rd) rd = rd.
Proof. by destruct rd. Qed.

Lemma refundBet_fields playerID player r :
  players r !! playerID = Some player →
  delete playerID (players (refundBet playerID player r)) = delete playerID (players r)
  ∧ currentRound (refundBet playerID player r)
    = (λ rd, with_Bets (delete playerID (GameRound.Bets rd)) rd) <$> currentRound r
  ∧ gameState (refundBet playerID player r) = gameState r
  ∧ timer (refundBet playerID player r) = timer r
  ∧ config (refundBet playerID player r) = config r
  ∧ spawned (refundBet playerID player r) = spawned r.
Proof.
  intros Hp. unfold refundBet.
  destruct (currentRound r) as [rd|] eqn:Hrd; [|by rewrite Hrd].
  destruct (GameRound.Bets rd !! playerID) as [bet|] eqn:Hbet.
  - cbv zeta. fields. by rewrite delete_insert_eq.
  - rewrite Hrd. cbn [fmap option_fmap option_map].
    rewrite (delete_id (GameRound.Bets rd)) by done. by rewrite with_Bets_same.
Qed.

(** Whether [dropPlayer] pauses the game. *)
Definition pausesOnLeave (playerID : string) (r : GameRoom) : bool :=
  (Z.of_nat (size (delete playerID (players r))) <? RoomConfig.MinPlayers (config r))
  && GameState_eqb (gameState r) StateBetting.

Lemma dropPlayer_fields now playerID r :
  players (dropPlayer now playerID r) = delete playerID (players r)
  ∧ currentRound (dropPlayer now playerID r) = currentRound r
  ∧ gameState (dropPlayer now playerID r)
    = (if pausesOnLeave playerID r then StatePaused else gameState r)
  ∧ timer (dropPlayer now playerID r)
    = (if pausesOnLeave playerID r then stopTimer (timer r) else timer r)
  ∧ config (dropPlayer now playerID r) = config r
  ∧ spawned (dropPlayer now playerID r) = spawned r.
Proof.
  unfold dropPlayer, pausesOnLeave. cbv zeta. unfold len_players. fields.
  destruct (_ && _).
  - destruct (pauseGame_fields now
      (log LogInfo "Player left room"
         (set_lastActivity now (set_players (delete playerID (players r)) r))))
      as (-> & -> & -> & -> & -> & ->).
    fields. done.
  - fields. done.
Qed.

Lemma RemovePlayer_absent now playerID r :
  players r !! playerID = None →
  RemovePlayer now playerID r = (r, Some ErrPlayerNotFound).
Proof. intros H. unfold RemovePlayer. by rewrite H. Qed.

Lemma RemovePlayer_present now playerID player r :
  players r !! playerID = Some player →
  RemovePlayer now playerID r
  = (dropPlayer now playerID (refundBet playerID player r), None).
Proof. intros H. unfold RemovePlayer. by rewrite H. Qed.

Lemma pausesOnLeave_refundBet playerID player r :
  players r !! playerID = Some player →
  pausesOnLeave playerID (refundBet playerID player r) = pausesOnLeave playerID r.
Proof.
  intros Hp. destruct (refundBet_fields playerID player r Hp) as (H1 & _ & H3 & _ & H5 & _).
  unfold pausesOnLeave. by rewrite H1, H3, H5.
Qed.

Lemma leave_fields now playerID player r :
  players r !! playerID = Some player →
  let r' := dropPlayer now playerID (refundBet playerID player r) in
  players r' = delete playerID (players r)
  ∧ currentRound r'
    = (λ rd, with_Bets (delete playerID (GameRound.Bets rd)) rd) <$> currentRound r
  ∧ gameState r' = (if pausesOnLeave playerID r then StatePaused else gameState r)
  ∧ timer r' = (if pausesOnLeave playerID r then stopTimer (timer r) else timer r)
  ∧ config r' = config r
  ∧ spawned r' = spawned r.
Proof.
  intros Hp r'. subst r'.
  destruct (refundBet_fields playerID player r Hp) as (H1 & H2 & H3 & H4 & H5 & H6).
  destruct (dropPlayer_fields now playerID (refundBet playerID player r))
    as (G1 & G2 & G3 & G4 & G5 & G6).
  rewrite G1, G2, G3, G4, G5, G6, (pausesOnLeave_refundBet _ _ _ Hp), H1, H2, H3, H4, H5, H6.
  done.
Qed.

Lemma recordBet_fields now playerID amount choice player rd r :
  let r' := recordBet now playerID amount choice player rd r in
  players r'
  = <[playerID :=
        with_CurrentBet (Some (placedBet now playerID amount choice))
          (with_Balance (PrimFloat.sub (RoomPlayer.Balance player) amount) player)]>
      (players r)
  ∧ currentRound r'
    = Some (with_Bets (<[playerID := placedBet now playerID amount choice]>
                         (GameRound.Bets rd)) rd)
  ∧ gameState r' = gameState r
  ∧ timer r' = timer r
  ∧ config r' = config r
  ∧ spawned r' = spawned r.
Proof. intros r'. subst r'. unfold recordBet. cbv zeta. fields. done. Qed.

(** The checks of [PlaceBet] all pass. *)
Definition betAccepted (playerID : string) (amount : float) (r : GameRoom)
    (player : RoomPlayer.t) (rd : GameRound.t) : Prop :=
  gameState r = StateBetting
  ∧ players r !! playerID = Some player
  ∧ currentRound r = Some rd
  ∧ GameRound.Bets rd !! playerID = None
  ∧ PrimFloat.ltb amount (RoomConfig.MinBet (config r)) = false
  ∧ PrimFloat.ltb (RoomConfig.MaxBet (config r)) amount = false
  ∧ PrimFloat.ltb (RoomPlayer.Balance player) amount = false.

Lemma PlaceBet_accepted now playerID amount choice r player rd :
  betAccepted playerID amount r player rd →
  PlaceBet now playerID amount choice r
  = (recordBet now playerID amount choice player rd r, None).
Proof.
  intros (Hs & Hp & Hrd & Hbet & Hmin & Hmax & Hbal).
  unfold PlaceBet. rewrite Hs, Hp, Hrd, Hbet, Hmin, Hmax, Hbal.
  rewrite bool_decide_eq_false_2 by (intros [? ?]; done). reflexivity.
Qed.

Lemma PlaceBet_cases now playerID amount choice r :
  (∃ e, PlaceBet now playerID amount choice r = (r, Some e))
  ∨ ∃ player rd, betAccepted playerID amount r player rd.
Proof.
  unfold PlaceBet, betAccepted.
  destruct (GameState_eqb (gameState r) StateBetting) eqn:Hs; cbn [negb];
    [|by left; eexists].
  apply GameState_eqb_eq in Hs.
  destruct (players r !! playerID) as [player|] eqn:Hp; [|by left; eexists].
  destruct (currentRound r) as [rd|] eqn:Hrd; [|by left; eexists].
  destruct (GameRound.Bets rd !! playerID) as [bet|] eqn:Hbet.
  { rewrite bool_decide_eq_true_2 by eauto. by left; eexists. }
  rewrite bool_decide_eq_false_2 by (intros [? ?]; done).
  destruct (PrimFloat.ltb amount (RoomConfig.MinBet (config r))) eqn:Hmin;
    [by left; eexists|].
  destruct (PrimFloat.ltb (RoomConfig.MaxBet (config r)) amount) eqn:Hmax;
    [by left; eexists|].
  destruct (PrimFloat.ltb (RoomPlayer.Balance player) amount) eqn:Hbal;
    [by left; eexists|].
  right. exists player, rd. done.
Qed.

Lemma StartGame_refused now r :
  (len_players r <? RoomConfig.MinPlayers (config r)) = true ∨ gameState r ≠ StateWaiting →
  ∃ e, StartGame now r = (r, Some e).
Proof.
  intros H. unfold StartGame.
  destruct (len_players r <? _); [by eexists|].
  destruct H as [|H]; [done|]. apply GameState_eqb_neq in H. rewrite H. by eexists.
Qed.

Lemma StartGame_started now r :
  (len_players r <? RoomConfig.MinPlayers (config r)) = false →
  gameState r = StateWaiting →
  StartGame now r = (beginRound now r, None).
Proof. intros Hlen Hs. unfold StartGame. by rewrite Hlen, Hs. Qed.

Lemma StartGame_cases now r :
  (∃ e, StartGame now r = (r, Some e))
  ∨ ((len_players r <? RoomConfig.MinPlayers (config r)) = false
     ∧ gameState r = StateWaiting
     ∧ StartGame now r = (beginRound now r, None)).
Proof.
  destruct (len_players r <? RoomConfig.MinPlayers (config r)) eqn:Hlen.
  { left. apply StartGame_refused. by left. }
  destruct (decide (gameState r = StateWaiting)) as [Hs|Hs].
  - right. split_and!; [done..|]. by apply StartGame_started.
  - left. apply StartGame_refused. by right.
Qed.

(** ** The loop over the bets, bet by bet *)

Lemma settleBets_spec coin cfg (bets : gmap string BetData.t)
    (ps : gmap string RoomPlayer.t) (res : gmap string PlayerResult.t) :
  (∀ k, is_Some (bets !! k) → is_Some (ps !! k)) →
  ∃ ps' res',
    settleBets coin cfg bets ps res = Some (ps', res')
    ∧ ∀ k,
        ps' !! k = match bets !! k with
                   | Some bet => settlePlayer coin cfg bet <$> ps !! k
                   | None => ps !! k
                   end
        ∧ res' !! k = match bets !! k, ps !! k with
                      | Some bet, Some p =>
                          Some (playerResult coin cfg k bet (settlePlayer coin cfg bet p))
                      | _, _ => res !! k
                      end.
Proof.
  unfold settleBets.
  apply (map_fold_weak_ind
    (fun acc (m : gmap string BetData.t) =>
       (∀ k, is_Some (m !! k) → is_Some (ps !! k)) →
       ∃ ps' res',
         acc = Some (ps', res')
         ∧ ∀ k,
             ps' !! k = match m !! k with
                        | Some bet => settlePlayer coin cfg bet <$> ps !! k
                        | None => ps !! k
                        end
             ∧ res' !! k = match m !! k, ps !! k with
                           | Some bet, Some p =>
                               Some (playerResult coin cfg k bet (settlePlayer coin cfg bet p))
                           | _, _ => res !! k
                           end)).
  - intros _. exists ps, res. split; [done|]. intros k. by rewrite lookup_empty.
  - intros i bet m acc Hi IH Hdom.
    destruct IH as (ps' & res' & -> & Hlook).
    { intros k Hk. apply Hdom. rewrite lookup_insert_ne; [done|].
      intros ->. rewrite Hi in Hk. by destruct Hk. }
    destruct (Hdom i) as [p Hp]; [by rewrite lookup_insert_eq|].
    destruct (Hlook i) as [Hpi _]. rewrite Hi, Hp in Hpi.
    simpl. rewrite Hpi.
    eexists _, _. split; [done|].
    intros k. destruct (decide (i = k)) as [->|Hne].
    + rewrite !lookup_insert_eq, Hp. done.
    + rewrite !lookup_insert_ne by done. apply Hlook.
Qed.

Section RoomProofs.

Variable Sum256 : list Byte.byte → list Byte.byte.

(** The outcome drawn from [seedBytes]: the seed kept on the round and the
    side of the coin. *)
Definition drawnSeed (seedBytes : list Byte.byte) : string :=
  hex_EncodeToString (Sum256 seedBytes).

Definition drawnCoin (seedBytes : list Byte.byte) : game.Side :=
  (FlipCoin Sum256 (drawnSeed seedBytes)).1.

(** The round after [generateFinalResult], given the results. *)
Definition resolvedRound (seedBytes : list Byte.byte)
    (results : gmap string PlayerResult.t) (rd : GameRound.t) : GameRound.t :=
  with_Results results
    (with_CoinResult (drawnCoin seedBytes) (with_FinalSeed (drawnSeed seedBytes) rd)).

Lemma generateFinalResult_spec seedBytes rd r :
  (∀ k, is_Some (GameRound.Bets rd !! k) → is_Some (players r !! k)) →
  ∃ ps results,
    generateFinalResult Sum256 seedBytes rd r
    = Some (set_currentRound (Some (resolvedRound seedBytes results rd)) (set_players ps r))
    ∧ (∀ k, ps !! k
            = match GameRound.Bets rd !! k with
              | Some bet => settlePlayer (drawnCoin seedBytes) (config r) bet <$> players r !! k
              | None => players r !! k
              end)
    ∧ (∀ k, results !! k
            = match GameRound.Bets rd !! k, players r !! k with
              | Some bet, Some p =>
                  Some (playerResult (drawnCoin seedBytes) (config r) k bet
                          (settlePlayer (drawnCoin seedBytes) (config r) bet p))
              | _, _ => GameRound.Results rd !! k
              end).
Proof.
  intros Hdom. unfold generateFinalResult.
  destruct (settleBets_spec (drawnCoin seedBytes) (config r) (GameRound.Bets rd)
              (players r) (GameRound.Results rd) Hdom) as (ps & res & Hset & Hlook).
  cbn [GameRound.FinalSeed GameRound.Bets GameRound.Results with_FinalSeed with_CoinResult].
  fold (drawnSeed seedBytes). fold (drawnCoin seedBytes). rewrite Hset.
  exists ps, res. split; [reflexivity|].
  split; intros k; apply Hlook.
Qed.

Lemma announceResult_fields now rd r :
  players (announceResult now rd r) = players r
  ∧ currentRound (announceResult now rd r) = currentRound r
  ∧ gameState (announceResult now rd r) = gameState r
  ∧ timer (announceResult now rd r) = timer r
  ∧ config (announceResult now rd r) = config r
  ∧ spawned (announceResult now rd r)
    = spawned r ++ [AfterResultDuration (RoomConfig.ResultDuration (config r))].
Proof. unfold announceResult. cbv zeta. fields. done. Qed.

Lemma startResultPhase_eq now r rd :
  currentRound r = Some rd →
  startResultPhase now r = Some (announceResult now rd (set_gameState StateResult r)).
Proof.
  intros Hrd. unfold startResultPhase. cbv zeta. rewrite currentRound_set_gameState, Hrd.
  reflexivity.
Qed.

Lemma abandonRound_fields now r :
  players (abandonRound now r) = players r
  ∧ currentRound (abandonRound now r) = None
  ∧ gameState (abandonRound now r) = StateWaiting
  ∧ timer (abandonRound now r) = timer r
  ∧ config (abandonRound now r) = config r
  ∧ spawned (abandonRound now r) = spawned r.
Proof. unfold abandonRound. cbv zeta. fields. done. Qed.

Lemma enterRevealing_fields r :
  players (enterRevealing r) = players r
  ∧ currentRound (enterRevealing r) = currentRound r
  ∧ gameState (enterRevealing r) = StateRevealing
  ∧ timer (enterRevealing r) = timer r
  ∧ config (enterRevealing r) = config r
  ∧ spawned (enterRevealing r) = spawned r.
Proof. unfold enterRevealing. fields. done. Qed.

Lemma resultTimerFunc_fields now r :
  players (resultTimerFunc now r) = players r
  ∧ currentRound (resultTimerFunc now r) = None
  ∧ gameState (resultTimerFunc now r) = StateWaiting
  ∧ timer (resultTimerFunc now r) = timer r
  ∧ config (resultTimerFunc now r) = config r
  ∧ spawned (resultTimerFunc now r)
    = (if len_players r >=? RoomConfig.MinPlayers (config r)
       then spawned r ++ [GoSleepStartGame (2 * Second)] else spawned r).
Proof.
  unfold resultTimerFunc. cbv zeta. unfold len_players. fields.
  destruct (_ >=? _); fields; done.
Qed.

Lemma broadcastTimerTick_fields now r :
  players (broadcastTimerTick now r).1 = players r
  ∧ currentRound (broadcastTimerTick now r).1 = currentRound r
  ∧ gameState (broadcastTimerTick now r).1 = gameState r
  ∧ timer (broadcastTimerTick now r).1 = timer r
  ∧ config (broadcastTimerTick now r).1 = config r
  ∧ spawned (broadcastTimerTick now r).1 = spawned r.
Proof.
  unfold broadcastTimerTick.
  destruct (negb _); [done|]. cbv zeta. destruct (_ <=? _); [done|].
  cbn [fst]. fields. done.
Qed.

End RoomProofs.

(** ** What every reachable room satisfies *)

Definition phase_round_ok (r : GameRoom) : Prop :=
  gameState r = StateWaiting ↔ currentRound r = None.

Definition bets_in_roster (r : GameRoom) : Prop :=
  ∀ rd k, currentRound r = Some rd →
          is_Some (GameRound.Bets rd !! k) → is_Some (players r !! k).

Definition betting_timer_ok (r : GameRoom) : Prop :=
  gameState r = StateBetting → timer r = Some TimerPending.

Definition never_revealing (r : GameRoom) : Prop := gameState r ≠ StateRevealing.

Definition consistent (r : GameRoom) : Prop :=
  phase_round_ok r ∧ bets_in_roster r ∧ betting_timer_ok r ∧ never_revealing r.

Ltac unfold_consistent :=
  unfold consistent, phase_round_ok, bets_in_roster, betting_timer_ok, never_revealing in *.

Lemma consistent_frame r r' :
  players r' = players r → currentRound r' = currentRound r →
  gameState r' = gameState r → timer r' = timer r →
  consistent r → consistent r'.
Proof. unfold_consistent. intros -> -> -> ->. done. Qed.

Lemma consistent_NewGameRoom now id name cfg : consistent (NewGameRoom now id name cfg).
Proof. unfold_consistent. cbn. split_and!; intros; done. Qed.

Lemma consistent_AddPlayer now playerID playerName balance r :
  consistent r → consistent (AddPlayer now playerID playerName balance r).1.
Proof.
  intros Hc.
  destruct (len_players r >=? RoomConfig.MaxPlayers (config r)) eqn:Hlen.
  { by rewrite AddPlayer_full. }
  rewrite AddPlayer_admitted by done. cbn [fst].
  destruct (admitPlayer_fields now playerID playerName balance r) as (Hp & Hr & Hg & Ht & _).
  unfold_consistent. destruct Hc as (H1 & H2 & H3 & H4).
  rewrite Hp, Hg, Hr, Ht. split_and!; try done.
  intros rd k Hrd Hk. rewrite lookup_insert_is_Some'. right. eauto.
Qed.

Lemma consistent_RemovePlayer now playerID r :
  consistent r → consistent (RemovePlayer now playerID r).1.
Proof.
  intros Hc.
  destruct (players r !! playerID) as [player|] eqn:Hpl;
    [|by rewrite RemovePlayer_absent].
  rewrite (RemovePlayer_present _ _ player) by done. cbn [fst].
  destruct (leave_fields now playerID player r Hpl) as (Hp & Hr & Hg & Ht & _).
  unfold_consistent. destruct Hc as (H1 & H2 & H3 & H4).
  rewrite Hp, Hg, Hr, Ht. unfold pausesOnLeave.
  assert (Hbets : ∀ rd k,
    (λ rd, with_Bets (delete playerID (GameRound.Bets rd)) rd) <$> currentRound r = Some rd →
    is_Some (GameRound.Bets rd !! k) → is_Some (delete playerID (players r) !! k)).
  { intros rd k Hrd [b Hk]. destruct (currentRound r) as [rd0|] eqn:Hrd0; [|done].
    simplify_eq/=. apply lookup_delete_Some in Hk as [Hne Hk].
    rewrite lookup_delete_ne by done. eapply H2; eauto. }
  rewrite fmap_None.
  destruct (_ && _) eqn:Hpause.
  - apply andb_true_iff in Hpause as [_ Hbet%GameState_eqb_eq].
    split_and!; [|done..]. split; [done|].
    intros Hnone. apply H1 in Hnone. congruence.
  - split_and!; done.
Qed.

Lemma consistent_PlaceBet now playerID amount choice r :
  consistent r → consistent (PlaceBet now playerID amount choice r).1.
Proof.
  intros Hc.
  destruct (PlaceBet_cases now playerID amount choice r) as [[e ->]|(player & rd & Hacc)];
    [done|].
  rewrite (PlaceBet_accepted _ _ _ _ _ _ _ Hacc). cbn [fst].
  destruct (recordBet_fields now playerID amount choice player rd r)
    as (Hp & Hr & Hg & Ht & _).
  destruct Hacc as (Hs & Hpl & Hrd & _).
  unfold_consistent. destruct Hc as (H1 & H2 & H3 & H4).
  rewrite Hp, Hg, Hr, Ht, Hs. split_and!.
  - done.
  - intros rd' k Hrd' Hk. simplify_eq/=.
    rewrite lookup_insert_is_Some'. rewrite lookup_insert_is_Some' in Hk.
    destruct Hk as [->|Hk]; [by left|]. right. eapply H2; eauto.
  - intros _. by apply H3.
  - done.
Qed.

Lemma consistent_beginRound now r : consistent (beginRound now r).
Proof.
  destruct (beginRound_fields now r) as (Hp & Hr & Hg & Ht & _).
  unfold_consistent. rewrite Hp, Hg, Hr, Ht. split_and!; try done.
  intros rd k Hrd [b Hk]. by simplify_eq/=.
Qed.

Lemma consistent_StartGame now r : consistent r → consistent (StartGame now r).1.
Proof.
  intros Hc.
  destruct (StartGame_cases now r) as [[e ->]|(_ & _ & ->)]; [done|].
  apply consistent_beginRound.
Qed.

Section Runs.

Variable Sum256 : list Byte.byte → list Byte.byte.

(** [endBettingPhase] in the betting phase: the two ways it ends. *)
Lemma endBettingPhase_betting now seedBytes r rd :
  gameState r = StateBetting → currentRound r = Some rd →
  (∀ k, is_Some (GameRound.Bets rd !! k) → is_Some (players r !! k)) →
  (size (GameRound.Bets rd) = 0%nat
   ∧ endBettingPhase Sum256 now seedBytes r = Some (abandonRound now (enterRevealing r)))
  ∨ (size (GameRound.Bets rd) ≠ 0%nat
     ∧ ∃ ps results,
         generateFinalResult Sum256 seedBytes rd (enterRevealing r)
         = Some (set_currentRound (Some (resolvedRound Sum256 seedBytes results rd))
                   (set_players ps (enterRevealing r)))
         ∧ endBettingPhase Sum256 now seedBytes r
           = Some (announceResult now (resolvedRound Sum256 seedBytes results rd)
                     (set_gameState StateResult
                        (set_currentRound (Some (resolvedRound Sum256 seedBytes results rd))
                           (set_players ps (enterRevealing r)))))
         ∧ (∀ k, ps !! k
                 = match GameRound.Bets rd !! k with
                   | Some bet =>
                       settlePlayer (drawnCoin Sum256 seedBytes) (config r) bet
                         <$> players r !! k
                   | None => players r !! k
                   end)
         ∧ (∀ k, results !! k
                 = match GameRound.Bets rd !! k, players r !! k with
                   | Some bet, Some p =>
                       Some (playerResult (drawnCoin Sum256 seedBytes) (config r) k bet
                               (settlePlayer (drawnCoin Sum256 seedBytes) (config r) bet p))
                   | _, _ => GameRound.Results rd !! k
                   end)).
Proof.
  intros Hs Hrd Hdom. unfold endBettingPhase. rewrite Hs, Hrd. cbn [GameState_eqb negb].
  cbv zeta.
  destruct (size (GameRound.Bets rd) =? 0)%nat eqn:Hsz.
  { left. apply Nat.eqb_eq in Hsz. done. }
  right. apply Nat.eqb_neq in Hsz. split; [done|].
  destruct (generateFinalResult_spec Sum256 seedBytes rd (enterRevealing r))
    as (ps & results & Hgen & Hps & Hres).
  { done. }
  exists ps, results. rewrite Hgen. split; [done|].
  split; [|done].
  apply startResultPhase_eq. by rewrite currentRound_set_currentRound.
Qed.

Lemma endBettingPhase_idle now seedBytes r :
  gameState r ≠ StateBetting → endBettingPhase Sum256 now seedBytes r = Some r.
Proof.
  intros Hs. unfold endBettingPhase. apply GameState_eqb_neq in Hs. by rewrite Hs.
Qed.

Lemma Bets_resolvedRound seedBytes results rd :
  GameRound.Bets (resolvedRound Sum256 seedBytes results rd) = GameRound.Bets rd.
Proof. reflexivity. Qed.

Lemma consistent_resultTimerFunc now r : consistent (resultTimerFunc now r).
Proof.
  destruct (resultTimerFunc_fields now r) as (Hp & Hr & Hg & Ht & _).
  unfold_consistent. rewrite Hg, Hr. split_and!; done.
Qed.

Lemma consistent_abandonRound now r : consistent (abandonRound now r).
Proof.
  destruct (abandonRound_fields now r) as (Hp & Hr & Hg & Ht & _).
  unfold_consistent. rewrite Hg, Hr. split_and!; done.
Qed.

(** The betting timer fires: [exec] marks it fired and calls
    [endBettingPhase]. *)
Lemma consistent_timerFires now seedBytes r r' :
  consistent r →
  endBettingPhase Sum256 now seedBytes (set_timer (Some TimerFired) r) = Some r' →
  consistent r' ∧ gameState r' ≠ StateBetting.
Proof.
  intros Hc Hend. set (r0 := set_timer (Some TimerFired) r) in *.
  assert (Hg0 : gameState r0 = gameState r) by apply gameState_set_timer.
  assert (Hr0 : currentRound r0 = currentRound r) by apply currentRound_set_timer.
  assert (Hp0 : players r0 = players r) by apply players_set_timer.
  destruct (decide (gameState r = StateBetting)) as [Hs|Hs].
  - destruct (currentRound r) as [rd|] eqn:Hrd.
    2:{ unfold_consistent. destruct Hc as (H1 & _). apply H1 in Hrd. congruence. }
    destruct (endBettingPhase_betting now seedBytes r0 rd)
      as [(_ & Heq)|(_ & ps & results & _ & Heq & Hps & _)].
    { congruence. }
    { congruence. }
    { intros k Hk. rewrite Hp0. unfold_consistent. destruct Hc as (_ & H2 & _). eauto. }
    + rewrite Heq in Hend. injection Hend as <-. split; [apply consistent_abandonRound|].
      destruct (abandonRound_fields now (enterRevealing r0)) as (_ & _ & -> & _). done.
    + rewrite Heq in Hend. injection Hend as <-.
      match goal with |- consistent (announceResult now ?rdR ?rr) ∧ _ =>
        destruct (announceResult_fields now rdR rr) as (Hp & Hr & Hg & Ht & _) end.
      revert Hp Hr Hg Ht. fields. intros Hp Hr Hg Ht.
      unfold_consistent. rewrite Hp, Hr, Hg. split_and!; try done.
      intros rd' k [= <-] Hk. rewrite Bets_resolvedRound in Hk.
      destruct Hc as (_ & H2 & _). destruct (H2 rd k Hrd Hk) as [p Hpk].
      destruct Hk as [b Hb]. rewrite Hps, Hb, Hp0, Hpk. done.
  - rewrite endBettingPhase_idle in Hend by congruence. injection Hend as <-.
    split; [|congruence].
    unfold_consistent. rewrite Hg0, Hr0, Hp0. destruct Hc as (H1 & H2 & H3 & H4).
    split_and!; done.
Qed.

Lemma consistent_runTask now t r : consistent r → consistent (runTask now t r).
Proof.
  intros Hc. destruct t; unfold runTask.
  - by apply consistent_StartGame.
  - destruct (broadcastTimerTick_fields now r) as (Hp & Hr & Hg & Ht & _).
    destruct (broadcastTimerTick now r) as [r1 continue]. cbn [fst] in *.
    destruct continue.
    + eapply consistent_frame; [..|exact Hc]; fields; done.
    + eapply consistent_frame; [..|exact Hc]; done.
  - apply consistent_resultTimerFunc.
  - by apply consistent_StartGame.
Qed.

Lemma consistent_exec now ev r r' :
  consistent r → exec Sum256 now ev r = Some r' → consistent r'.
Proof.
  intros Hc. destruct ev; cbn [exec].
  - intros [= <-]. by apply consistent_AddPlayer.
  - intros [= <-]. by apply consistent_RemovePlayer.
  - intros [= <-]. by apply consistent_PlaceBet.
  - intros [= <-]. by apply consistent_StartGame.
  - destruct (timer r) as [[]|]; try done.
    intros Hend. by apply (consistent_timerFires now seedBytes r r').
  - destruct (spawned r !! i) as [t|]; [|done]. intros [= <-].
    apply consistent_runTask.
    eapply consistent_frame; [..|exact Hc]; fields; done.
  - destruct (eventChan r) as [|m q]; [done|]. intros [= <-].
    eapply consistent_frame; [..|exact Hc]; fields; done.
Qed.

Lemma reachable_consistent r : reachable Sum256 r → consistent r.
Proof.
  induction 1 as [now id name cfg|now ev r r' _ IH Hexec].
  - apply consistent_NewGameRoom.
  - by eapply consistent_exec.
Qed.

Lemma run_reachable evs r r' :
  reachable Sum256 r → run Sum256 evs r = Some r' → reachable Sum256 r'.
Proof.
  revert r. induction evs as [|[now ev] evs IH]; intros r Hr; cbn [run].
  - by intros [= <-].
  - destruct (exec Sum256 now ev r) as [r1|] eqn:Hexec; [|done].
    apply IH. by eapply reachable_exec.
Qed.

(** No nil dereference: an event that can happen in a reachable room does
    happen. *)
Lemma exec_enabled now ev r :
  reachable Sum256 r → enabled ev r = true → is_Some (exec Sum256 now ev r).
Proof.
  intros Hc%reachable_consistent. destruct ev; cbn [exec enabled]; try done.
  - destruct (timer r) as [[]|]; try done. intros _.
    set (r0 := set_timer (Some TimerFired) r).
    destruct (decide (gameState r = StateBetting)) as [Hs|Hs].
    + unfold_consistent. destruct Hc as (H1 & H2 & _).
      destruct (currentRound r) as [rd|] eqn:Hrd.
      2:{ destruct H1 as [_ H1]. specialize (H1 eq_refl). congruence. }
      destruct (endBettingPhase_betting now seedBytes r0 rd)
        as [(_ & ->)|(_ & ps & results & _ & -> & _)]; try done.
      intros k Hk. eapply H2; eauto.
    + rewrite endBettingPhase_idle; [done|]. done.
  - intros H%bool_decide_eq_true. by destruct H as [t ->].
  - by destruct (eventChan r).
Qed.

End Runs.

Lemma eventChan_broadcastMessage msg r :
  eventChan (broadcastMessage msg r)
  = if (List.length (eventChan r) <? eventChanCap)%nat then eventChan r ++ [msg]
    else eventChan r.
Proof. unfold broadcastMessage, chan_offer. by destruct (_ <? _)%nat. Qed.

Lemma logger_broadcastMessage msg r :
  logger (broadcastMessage msg r)
  = if (List.length (eventChan r) <? eventChanCap)%nat then logger r
    else logger r ++ [(LogWarn, "Event channel full, dropping message")].
Proof. unfold broadcastMessage, chan_offer. by destruct (_ <? _)%nat. Qed.

Section Claims.

Variable Sum256 : list Byte.byte → list Byte.byte.

Lemma run_bettingRoom : run Sum256 twoJoinAndStart freshRoom = Some bettingRoom.
Proof. vm_compute. reflexivity. Qed.

Lemma reachable_freshRoom : reachable Sum256 freshRoom.
Proof. apply reachable_new. Qed.

Lemma reachable_bettingRoom : reachable Sum256 bettingRoom.
Proof. eapply run_reachable; [apply reachable_freshRoom|apply run_bettingRoom]. Qed.

(** In a reachable room the betting phase has a round. *)
Lemma betting_has_round r :
  reachable Sum256 r → gameState r = StateBetting → is_Some (currentRound r).
Proof.
  intros (H1 & _)%reachable_consistent Hs. unfold phase_round_ok in H1.
  destruct (currentRound r); [done|]. destruct H1 as [_ H1]. specialize (H1 eq_refl).
  congruence.
Qed.

(** C1, amended. [PlaceBet] on a reachable room: it fails with
    [ErrInvalidGamePhase] unless the phase is betting, with
    [ErrPlayerNotFound] if the player is not in the roster, with
    [ErrPlayerAlreadyBet] if the player has a bet in the current round, with
    [ErrInvalidBetAmount] if the amount is below [MinBet] or above [MaxBet],
    with [ErrInsufficientBalance] if the balance is less than the amount,
    each time leaving the room as it was; otherwise it succeeds, the player's
    balance becomes the [float64] difference [balance - amount] and the bet is
    recorded in the round. *)
Theorem PlaceBet_spec now playerID amount choice r :
  reachable Sum256 r →
  (gameState r ≠ StateBetting →
     PlaceBet now playerID amount choice r = (r, Some ErrInvalidGamePhase))
  ∧ (gameState r = StateBetting → players r !! playerID = None →
     PlaceBet now playerID amount choice r = (r, Some ErrPlayerNotFound))
  ∧ (gameState r = StateBetting → is_Some (players r !! playerID) →
     is_Some (openBet playerID r) →
     PlaceBet now playerID amount choice r = (r, Some ErrPlayerAlreadyBet))
  ∧ (gameState r = StateBetting → is_Some (players r !! playerID) →
     openBet playerID r = None →
     PrimFloat.ltb amount (RoomConfig.MinBet (config r)) = true
     ∨ PrimFloat.ltb (RoomConfig.MaxBet (config r)) amount = true →
     PlaceBet now playerID amount choice r = (r, Some ErrInvalidBetAmount))
  ∧ (∀ player,
       gameState r = StateBetting → players r !! playerID = Some player →
       openBet playerID r = None →
       PrimFloat.ltb amount (RoomConfig.MinBet (config r)) = false →
       PrimFloat.ltb (RoomConfig.MaxBet (config r)) amount = false →
       (PrimFloat.ltb (RoomPlayer.Balance player) amount = true →
        PlaceBet now playerID amount choice r = (r, Some ErrInsufficientBalance))
       ∧ (PrimFloat.ltb (RoomPlayer.Balance player) amount = false →
          ∃ r' player',
            PlaceBet now playerID amount choice r = (r', None)
            ∧ players r' !! playerID = Some player'
            ∧ RoomPlayer.Balance player' = PrimFloat.sub (RoomPlayer.Balance player) amount
            ∧ openBet playerID r' = Some (placedBet now playerID amount choice))).
Proof.
  intros Hreach. split_and!.
  - intros Hs%GameState_eqb_neq. unfold PlaceBet. by rewrite Hs.
  - intros Hs Hp. unfold PlaceBet. by rewrite Hs, Hp.
  - intros Hs [player Hp] Hbet.
    destruct (betting_has_round r Hreach Hs) as [rd Hrd].
    unfold openBet in Hbet. rewrite Hrd in Hbet.
    unfold PlaceBet. rewrite Hs, Hp, Hrd. cbn [GameState_eqb negb].
    by rewrite bool_decide_eq_true_2.
  - intros Hs [player Hp] Hbet Hamount.
    destruct (betting_has_round r Hreach Hs) as [rd Hrd].
    unfold openBet in Hbet. rewrite Hrd in Hbet.
    unfold PlaceBet. rewrite Hs, Hp, Hrd, Hbet. cbn [GameState_eqb negb].
    rewrite bool_decide_eq_false_2 by (intros [? ?]; done).
    by destruct Hamount as [-> | ->]; [|rewrite orb_true_r].
  - intros player Hs Hp Hbet Hmin Hmax.
    destruct (betting_has_round r Hreach Hs) as [rd Hrd].
    unfold openBet in Hbet. rewrite Hrd in Hbet.
    split.
    + intros Hbal. unfold PlaceBet. rewrite Hs, Hp, Hrd, Hbet, Hmin, Hmax, Hbal.
      cbn [GameState_eqb negb orb].
      by rewrite bool_decide_eq_false_2 by (intros [? ?]; done).
    + intros Hbal.
      assert (Hacc : betAccepted playerID amount r player rd) by done.
      rewrite (PlaceBet_accepted _ _ _ _ _ _ _ Hacc).
      destruct (recordBet_fields now playerID amount choice player rd r)
        as (Hps & Hround & _).
      eexists _, _. split; [reflexivity|]. rewrite Hps. split_and!.
      * apply lookup_insert_eq.
      * reflexivity.
      * unfold openBet. rewrite Hround. apply lookup_insert_eq.
Qed.

End Claims.

(** The witness of [PlaceBet_spec]: P1 bets 10 on heads in the room of the
    examples. *)
Lemma PlaceBet_spec_witness :
  reachable lastByteDigest bettingRoom
  ∧ ∃ r' player',
      PlaceBet (noon + 10 * Second) "P1" 10%float game.Heads bettingRoom = (r', None)
      ∧ players r' !! "P1" = Some player'
      ∧ RoomPlayer.Balance player' = PrimFloat.sub 100%float 10%float
      ∧ openBet "P1" r' = Some (placedBet (noon + 10 * Second) "P1" 10%float game.Heads).
Proof.
  split; [apply reachable_bettingRoom|].
  destruct (PlaceBet_spec lastByteDigest (noon + 10 * Second) "P1" 10%float game.Heads
              bettingRoom (reachable_bettingRoom lastByteDigest))
    as (_ & _ & _ & _ & H).
  apply (H (newRoomPlayer noon "P1" "Ann" 100%float)); reflexivity.
Defined.

(** C1, as stated, fails: P1, with a balance of 3.4, bets 1.2 (within the
    default bounds 1 and 100); the bet is accepted and the balance becomes
    3.4 - 1.2 = 2.2, but 2.2 + 1.2 is 3.4000000000000004 in [float64], not
    3.4: [balance_before == balance_after + amount] is false. *)
Lemma PlaceBet_balance_counterexample :
  ∃ r r' player player',
    run lastByteDigest smallJoinAndStart freshRoom = Some r
    ∧ PlaceBet (noon + 10 * Second) "P1" 0x1.3333333333333p+0%float game.Heads r
      = (r', None)
    ∧ players r !! "P1" = Some player
    ∧ players r' !! "P1" = Some player'
    ∧ PrimFloat.eqb (RoomPlayer.Balance player)
        (PrimFloat.add (RoomPlayer.Balance player') 0x1.3333333333333p+0%float)
      = false.
Proof.
  eexists _, _, _, _. split_and!.
  - vm_compute. reflexivity.
  - vm_compute. reflexivity.
  - vm_compute. reflexivity.
  - vm_compute. reflexivity.
  - vm_compute. reflexivity.
Qed.

(** C2, as stated, fails: when a player leaves during betting and too few are
    left, the room is paused and keeps its round; the phase is then none of
    betting, revealing and result while the round is there. *)
Lemma paused_room_keeps_round :
  ∃ r, run lastByteDigest leaveWhileBetting freshRoom = Some r
       ∧ gameState r = StatePaused
       ∧ is_Some (currentRound r)
       ∧ ¬ (is_Some (currentRound r)
            ↔ gameState r = StateBetting ∨ gameState r = StateRevealing
              ∨ gameState r = StateResult).
Proof.
  eexists. split; [vm_compute; reflexivity|].
  split; [reflexivity|]. split; [by eexists|].
  intros [H _]. destruct H as [H|[H|H]]; [by eexists|discriminate H..].
Qed.

Section Claims2.

Variable Sum256 : list Byte.byte → list Byte.byte.

(** C2, amended. In every reachable room the phase is waiting if and only if
    there is no round; the round is there if and only if the phase is betting,
    result or paused (revealing is never seen between two operations). *)
Theorem phase_waiting_iff_no_round r :
  reachable Sum256 r →
  (gameState r = StateWaiting ↔ currentRound r = None)
  ∧ (is_Some (currentRound r)
     ↔ gameState r = StateBetting ∨ gameState r = StateResult
       ∨ gameState r = StatePaused).
Proof.
  intros (Hpr & _ & _ & Hnr)%reachable_consistent.
  unfold phase_round_ok, never_revealing in *. split; [done|].
  rewrite <- not_eq_None_Some, <- Hpr.
  destruct (gameState r); split; intros; try tauto; intuition congruence.
Qed.

End Claims2.

Lemma phase_waiting_iff_no_round_witness :
  reachable lastByteDigest bettingRoom
  ∧ (gameState bettingRoom = StateWaiting ↔ currentRound bettingRoom = None)
  ∧ (is_Some (currentRound bettingRoom)
     ↔ gameState bettingRoom = StateBetting ∨ gameState bettingRoom = StateResult
       ∨ gameState bettingRoom = StatePaused).
Proof.
  split; [apply reachable_bettingRoom|].
  apply (phase_waiting_iff_no_round lastByteDigest), reachable_bettingRoom.
Defined.

Lemma Balance_settlePlayer coin cfg bet p :
  RoomPlayer.Balance (settlePlayer coin cfg bet p)
  = if String.eqb (BetData.Choice bet) coin
    then PrimFloat.add (RoomPlayer.Balance p)
           (PrimFloat.mul (BetData.Amount bet) (RoomConfig.PayoutRatio cfg))
    else RoomPlayer.Balance p.
Proof. unfold settlePlayer, betPayout, betWon. by destruct (String.eqb _ _). Qed.

Lemma Name_settlePlayer coin cfg bet p :
  RoomPlayer.Name (settlePlayer coin cfg bet p) = RoomPlayer.Name p.
Proof. unfold settlePlayer, betWon. by destruct (String.eqb _ _). Qed.

Lemma run_app Sum256 evs1 evs2 r :
  run Sum256 (evs1 ++ evs2) r
  = match run Sum256 evs1 r with Some r1 => run Sum256 evs2 r1 | None => None end.
Proof.
  revert r. induction evs1 as [|[now ev] evs1 IH]; intros r; [done|].
  cbn [run app]. destruct (exec Sum256 now ev r); [apply IH|done].
Qed.

Section Claims3.

Variable Sum256 : list Byte.byte → list Byte.byte.

Lemma run_roomWithBets : run Sum256 betsPlaced freshRoom = Some roomWithBets.
Proof. vm_compute. reflexivity. Qed.

Lemma reachable_roomWithBets : reachable Sum256 roomWithBets.
Proof. eapply run_reachable; [apply reachable_freshRoom|apply run_roomWithBets]. Qed.

(** The betting timer fires in a reachable room in its betting phase with at
    least one bet: what [exec] returns. *)
Lemma timerFires_with_bets now seedBytes r rd :
  reachable Sum256 r → gameState r = StateBetting → currentRound r = Some rd →
  size (GameRound.Bets rd) ≠ 0%nat →
  ∃ ps results,
    generateFinalResult Sum256 seedBytes rd (enterRevealing (set_timer (Some TimerFired) r))
    = Some (set_currentRound (Some (resolvedRound Sum256 seedBytes results rd))
              (set_players ps (enterRevealing (set_timer (Some TimerFired) r))))
    ∧ exec Sum256 now (BettingTimerFires seedBytes) r
      = Some (announceResult now (resolvedRound Sum256 seedBytes results rd)
                (set_gameState StateResult
                   (set_currentRound (Some (resolvedRound Sum256 seedBytes results rd))
                      (set_players ps (enterRevealing (set_timer (Some TimerFired) r))))))
    ∧ (∀ k, ps !! k
            = match GameRound.Bets rd !! k with
              | Some bet =>
                  settlePlayer (drawnCoin Sum256 seedBytes) (config r) bet <$> players r !! k
              | None => players r !! k
              end)
    ∧ (∀ k, results !! k
            = match GameRound.Bets rd !! k, players r !! k with
              | Some bet, Some p =>
                  Some (playerResult (drawnCoin Sum256 seedBytes) (config r) k bet
                          (settlePlayer (drawnCoin Sum256 seedBytes) (config r) bet p))
              | _, _ => GameRound.Results rd !! k
              end).
Proof.
  intros Hreach Hs Hrd Hsz.
  pose proof (reachable_consistent Sum256 r Hreach) as (_ & H2 & H3 & _).
  cbn [exec]. rewrite (H3 Hs).
  destruct (endBettingPhase_betting Sum256 now seedBytes (set_timer (Some TimerFired) r) rd)
    as [(Hz & _)|(_ & ps & results & Hgen & Hend & Hps & Hres)].
  { by rewrite gameState_set_timer. }
  { by rewrite currentRound_set_timer. }
  { intros k Hk. rewrite players_set_timer. eapply H2; eauto. }
  { done. }
  exists ps, results. rewrite players_set_timer, config_set_timer in Hps, Hres. done.
Qed.

(** C3. When the betting timer fires on a round with bets, one outcome is
    drawn; every bet is compared with it; the balance of a player who bet on
    it grows by amount x payout ratio, the balance of a player who did not is
    left as it was after the bet was debited, the players without a bet are
    untouched, and the round keeps, for each bet, a record with the verdict,
    the payout and the resulting balance. In scenario A (payout ratio 2,
    balances 100, P1 bets 10 on heads and P2 bets 20 on tails), when the coin
    shows heads the balances end at 110 and 80. *)
Theorem round_resolution :
  (∀ now seedBytes r rd,
     reachable Sum256 r → gameState r = StateBetting → currentRound r = Some rd →
     size (GameRound.Bets rd) ≠ 0%nat →
     ∃ r' rd',
       exec Sum256 now (BettingTimerFires seedBytes) r = Some r'
       ∧ currentRound r' = Some rd'
       ∧ GameRound.CoinResult rd' = drawnCoin Sum256 seedBytes
       ∧ (∀ k bet,
            GameRound.Bets rd !! k = Some bet →
            ∃ p p',
              players r !! k = Some p
              ∧ players r' !! k = Some p'
              ∧ RoomPlayer.Balance p'
                = (if String.eqb (BetData.Choice bet) (drawnCoin Sum256 seedBytes)
                   then PrimFloat.add (RoomPlayer.Balance p)
                          (PrimFloat.mul (BetData.Amount bet)
                             (RoomConfig.PayoutRatio (config r)))
                   else RoomPlayer.Balance p)
              ∧ GameRound.Results rd' !! k
                = Some {| PlayerResult.PlayerID := k;
                          PlayerResult.PlayerName := RoomPlayer.Name p;
                          PlayerResult.Bet := Some bet;
                          PlayerResult.Won :=
                            String.eqb (BetData.Choice bet) (drawnCoin Sum256 seedBytes);
                          PlayerResult.Payout :=
                            (if String.eqb (BetData.Choice bet) (drawnCoin Sum256 seedBytes)
                             then PrimFloat.mul (BetData.Amount bet)
                                    (RoomConfig.PayoutRatio (config r))
                             else 0%float);
                          PlayerResult.NewBalance := RoomPlayer.Balance p' |})
       ∧ (∀ k, GameRound.Bets rd !! k = None → players r' !! k = players r !! k))
  ∧ (∀ seedBytes,
       drawnCoin Sum256 seedBytes = game.Heads →
       ∃ r',
         run Sum256 (scenarioA seedBytes) freshRoom = Some r'
         ∧ RoomPlayer.Balance <$> players r' !! "P1" = Some 110%float
         ∧ RoomPlayer.Balance <$> players r' !! "P2" = Some 80%float).
Proof.
  assert (General : ∀ now seedBytes r rd,
     reachable Sum256 r → gameState r = StateBetting → currentRound r = Some rd →
     size (GameRound.Bets rd) ≠ 0%nat →
     ∃ r' rd',
       exec Sum256 now (BettingTimerFires seedBytes) r = Some r'
       ∧ currentRound r' = Some rd'
       ∧ GameRound.CoinResult rd' = drawnCoin Sum256 seedBytes
       ∧ (∀ k bet,
            GameRound.Bets rd !! k = Some bet →
            ∃ p p',
              players r !! k = Some p
              ∧ players r' !! k = Some p'
              ∧ RoomPlayer.Balance p'
                = (if String.eqb (BetData.Choice bet) (drawnCoin Sum256 seedBytes)
                   then PrimFloat.add (RoomPlayer.Balance p)
                          (PrimFloat.mul (BetData.Amount bet)
                             (RoomConfig.PayoutRatio (config r)))
                   else RoomPlayer.Balance p)
              ∧ GameRound.Results rd' !! k
                = Some {| PlayerResult.PlayerID := k;
                          PlayerResult.PlayerName := RoomPlayer.Name p;
                          PlayerResult.Bet := Some bet;
                          PlayerResult.Won :=
                            String.eqb (BetData.Choice bet) (drawnCoin Sum256 seedBytes);
                          PlayerResult.Payout :=
                            (if String.eqb (BetData.Choice bet) (drawnCoin Sum256 seedBytes)
                             then PrimFloat.mul (BetData.Amount bet)
                                    (RoomConfig.PayoutRatio (config r))
                             else 0%float);
                          PlayerResult.NewBalance := RoomPlayer.Balance p' |})
       ∧ (∀ k, GameRound.Bets rd !! k = None → players r' !! k = players r !! k)).
  { intros now seedBytes r rd Hreach Hs Hrd Hsz.
    destruct (timerFires_with_bets now seedBytes r rd Hreach Hs Hrd Hsz)
      as (ps & results & _ & Hexec & Hps & Hres).
    pose proof (reachable_consistent Sum256 r Hreach) as (_ & H2 & _).
    eexists _, _. split; [exact Hexec|].
    match goal with |- currentRound (announceResult now ?rdR ?rr) = _ ∧ _ =>
      destruct (announceResult_fields now rdR rr) as (Hp & Hr & _) end.
    rewrite Hp, Hr. fields. split; [reflexivity|]. split; [reflexivity|]. split.
    - intros k bet Hbet. destruct (H2 rd k Hrd) as [p Hpk]; [by eexists|].
      exists p, (settlePlayer (drawnCoin Sum256 seedBytes) (config r) bet p).
      split; [done|]. split; [by rewrite Hps, Hbet, Hpk|].
      split; [apply Balance_settlePlayer|].
      cbn [GameRound.Results resolvedRound with_Results].
      rewrite Hres, Hbet, Hpk. unfold playerResult, betPayout, betWon.
      by rewrite Name_settlePlayer.
    - intros k Hbet. by rewrite Hps, Hbet. }
  split; [exact General|].
  intros seedBytes Hcoin. unfold scenarioA. rewrite run_app, run_roomWithBets.
  edestruct (General (noon + 62 * Second) seedBytes roomWithBets)
    as (r' & rd' & Hexec & _ & _ & Hbets & _);
    [apply reachable_roomWithBets|reflexivity|reflexivity|by vm_compute|].
  cbn [run]. rewrite Hexec. exists r'. split; [reflexivity|].
  rewrite Hcoin in Hbets.
  edestruct (Hbets "P1") as (p1 & p1' & Hp1 & -> & Hb1 & _); [vm_compute; reflexivity|].
  edestruct (Hbets "P2") as (p2 & p2' & Hp2 & -> & Hb2 & _); [vm_compute; reflexivity|].
  vm_compute in Hp1, Hp2. injection Hp1 as <-. injection Hp2 as <-.
  cbn [fmap option_fmap option_map]. rewrite Hb1, Hb2. split; vm_compute; reflexivity.
Qed.

End Claims3.

(** The witness of [round_resolution]: scenario A with a seed that makes the
    stand-in digest show heads. *)
Lemma round_resolution_witness :
  drawnCoin lastByteDigest [Byte.x00] = game.Heads
  ∧ ∃ r',
      run lastByteDigest (scenarioA [Byte.x00]) freshRoom = Some r'
      ∧ RoomPlayer.Balance <$> players r' !! "P1" = Some 110%float
      ∧ RoomPlayer.Balance <$> players r' !! "P2" = Some 80%float.
Proof.
  split; [reflexivity|].
  apply (proj2 (round_resolution lastByteDigest) [Byte.x00]). reflexivity.
Defined.

Lemma eventChan_abandonRound now r :
  ∃ msg,
    Message.Type_ msg = MsgRoomUpdate
    ∧ eventChan (abandonRound now r)
      = if (List.length (eventChan r) <? eventChanCap)%nat then eventChan r ++ [msg]
        else eventChan r.
Proof.
  unfold abandonRound. cbv zeta. unfold broadcastRoomUpdate.
  eexists. rewrite eventChan_broadcastMessage. fields. split; [|reflexivity]. reflexivity.
Qed.

Lemma eventChan_announceResult now rd r :
  eventChan (announceResult now rd r)
  = if (List.length (eventChan r) <? eventChanCap)%nat
    then eventChan r
         ++ [NewMessage now MsgGameResult (room_id r) "" (DataGameResult (gameResultData now rd))]
    else eventChan r.
Proof.
  unfold announceResult. cbv zeta. rewrite eventChan_spawn, eventChan_broadcastMessage.
  by fields.
Qed.

Lemma logger_announceResult now rd r :
  logger (announceResult now rd r)
  = logger r ++ [(LogInfo, "Game result generated")]
    ++ (if (List.length (eventChan r) <? eventChanCap)%nat then []
        else [(LogWarn, "Event channel full, dropping message")]).
Proof.
  unfold announceResult. cbv zeta. rewrite logger_spawn, logger_broadcastMessage.
  fields. destruct (_ <? _)%nat; [by rewrite app_nil_r|by rewrite <- app_assoc].
Qed.

Section Claims4.

Variable Sum256 : list Byte.byte → list Byte.byte.

(** C4. The betting timer fires while the phase is betting. With no bet, the
    round is dropped, the phase is waiting again, no balance changes, nothing
    is scheduled and the only event offered to the queue is a room update.
    With bets, the outcome is generated while the phase is revealing: the
    seed is the digest of the random bytes in hexadecimal, the side is the
    one [FlipCoin] draws from that seed, every bet is settled against it and
    recorded in the round's results, the players without a bet are untouched.
    The phase then ends at result with that round; the result event is
    offered to the queue without waiting: it is queued when the queue has
    room, and when the queue is full it is dropped and a warning is logged.
    In both cases a one-shot result timer is scheduled; when it fires the
    round is cleared, the phase is waiting and, if the roster is at least the
    minimum, a [StartGame] is scheduled after a pause of two seconds. *)
Theorem betting_timer_expiry now seedBytes r :
  reachable Sum256 r → gameState r = StateBetting →
  ∃ rd,
    currentRound r = Some rd
    ∧ (size (GameRound.Bets rd) = 0%nat →
       ∃ r' update,
         exec Sum256 now (BettingTimerFires seedBytes) r = Some r'
         ∧ gameState r' = StateWaiting
         ∧ currentRound r' = None
         ∧ players r' = players r
         ∧ spawned r' = spawned r
         ∧ Message.Type_ update = MsgRoomUpdate
         ∧ eventChan r'
           = (if (List.length (eventChan r) <? eventChanCap)%nat
              then eventChan r ++ [update] else eventChan r))
    ∧ (size (GameRound.Bets rd) ≠ 0%nat →
       ∃ r1 rd' r',
         generateFinalResult Sum256 seedBytes rd
           (enterRevealing (set_timer (Some TimerFired) r)) = Some r1
         ∧ gameState r1 = StateRevealing
         ∧ currentRound r1 = Some rd'
         ∧ GameRound.ID rd' = GameRound.ID rd
         ∧ GameRound.FinalSeed rd' = hex_EncodeToString (Sum256 seedBytes)
         ∧ GameRound.CoinResult rd' = (FlipCoin Sum256 (GameRound.FinalSeed rd')).1
         ∧ GameRound.Bets rd' = GameRound.Bets rd
         ∧ (∀ k bet,
              GameRound.Bets rd !! k = Some bet →
              ∃ p,
                players r !! k = Some p
                ∧ players r1 !! k
                  = Some (settlePlayer (GameRound.CoinResult rd') (config r) bet p)
                ∧ GameRound.Results rd' !! k
                  = Some (playerResult (GameRound.CoinResult rd') (config r) k bet
                            (settlePlayer (GameRound.CoinResult rd') (config r) bet p)))
         ∧ (∀ k,
              GameRound.Bets rd !! k = None →
              players r1 !! k = players r !! k
              ∧ GameRound.Results rd' !! k = GameRound.Results rd !! k)
         ∧ exec Sum256 now (BettingTimerFires seedBytes) r = Some r'
         ∧ gameState r' = StateResult
         ∧ currentRound r' = Some rd'
         ∧ players r' = players r1
         ∧ ((List.length (eventChan r) < eventChanCap)%nat →
            eventChan r'
            = eventChan r
              ++ [NewMessage now MsgGameResult (room_id r) ""
                    (DataGameResult (gameResultData now rd'))]
            ∧ logger r' = logger r1 ++ [(LogInfo, "Game result generated")])
         ∧ ((eventChanCap ≤ List.length (eventChan r))%nat →
            eventChan r' = eventChan r
            ∧ logger r'
              = logger r1
                ++ [(LogInfo, "Game result generated");
                    (LogWarn, "Event channel full, dropping message")])
         ∧ spawned r'
           = spawned r ++ [AfterResultDuration (RoomConfig.ResultDuration (config r))]
         ∧ ∀ now',
             ∃ r'',
               exec Sum256 now' (RunTask (List.length (spawned r))) r' = Some r''
               ∧ gameState r'' = StateWaiting
               ∧ currentRound r'' = None
               ∧ players r'' = players r'
               ∧ spawned r''
                 = spawned r
                   ++ (if len_players r' >=? RoomConfig.MinPlayers (config r)
                       then [GoSleepStartGame (2 * Second)] else [])).
Proof.
  intros Hreach Hs.
  destruct (betting_has_round Sum256 r Hreach Hs) as [rd Hrd].
  pose proof (reachable_consistent Sum256 r Hreach) as (_ & H2 & H3 & _).
  exists rd. split; [done|]. split.
  - intros Hsz. cbn [exec]. rewrite (H3 Hs).
    destruct (endBettingPhase_betting Sum256 now seedBytes (set_timer (Some TimerFired) r) rd)
      as [(_ & Hend)|(Hnz & _)].
    { by rewrite gameState_set_timer. }
    { by rewrite currentRound_set_timer. }
    { intros k Hk. rewrite players_set_timer. eapply H2; eauto. }
    2:{ done. }
    destruct (abandonRound_fields now (enterRevealing (set_timer (Some TimerFired) r)))
      as (Hp & Hr & Hg & _ & _ & Hsp).
    destruct (eventChan_abandonRound now (enterRevealing (set_timer (Some TimerFired) r)))
      as (update & Hty & Hev).
    revert Hp Hsp Hev. unfold enterRevealing. fields. intros Hp Hsp Hev.
    eexists _, update. split; [exact Hend|]. done.
  - intros Hsz.
    destruct (timerFires_with_bets Sum256 now seedBytes r rd Hreach Hs Hrd Hsz)
      as (ps & results & Hgen & Hexec & Hps & Hres).
    eexists _, _, _. split; [exact Hgen|]. split; [by unfold enterRevealing; fields|].
    split; [by fields|]. split; [reflexivity|]. split; [reflexivity|].
    split; [reflexivity|]. split; [reflexivity|].
    split.
    { intros k bet Hbet. destruct (H2 rd k Hrd) as [p Hpk]; [by eexists|].
      exists p. split; [exact Hpk|]. rewrite players_set_currentRound, players_set_players.
      split.
      - rewrite Hps, Hbet, Hpk. reflexivity.
      - cbn [GameRound.Results resolvedRound with_Results]. rewrite Hres, Hbet, Hpk.
        reflexivity. }
    split.
    { intros k Hbet. rewrite players_set_currentRound, players_set_players.
      split.
      - by rewrite Hps, Hbet.
      - cbn [GameRound.Results resolvedRound with_Results]. by rewrite Hres, Hbet. }
    split; [exact Hexec|].
    match goal with |- gameState (announceResult now ?rdR ?rr) = _ ∧ _ =>
      destruct (announceResult_fields now rdR rr) as (Hp & Hr & Hg & _ & Hc & Hsp);
      pose proof (eventChan_announceResult now rdR rr) as Hev;
      pose proof (logger_announceResult now rdR rr) as Hlog;
      set (r' := announceResult now rdR rr) in *
    end.
    revert Hp Hr Hg Hc Hsp Hev Hlog. unfold enterRevealing. fields.
    intros Hp Hr Hg Hc Hsp Hev Hlog.
    split; [exact Hg|]. split; [exact Hr|]. split; [exact Hp|].
    split.
    { intros Hroom. apply Nat.ltb_lt in Hroom. rewrite Hroom in Hev, Hlog.
      split; [exact Hev|]. rewrite Hlog. by rewrite app_nil_r. }
    split.
    { intros Hfull. apply Nat.ltb_ge in Hfull. rewrite Hfull in Hev, Hlog.
      split; [exact Hev|]. rewrite Hlog. reflexivity. }
    split; [exact Hsp|].
    intros now'. cbn [exec]. rewrite Hsp.
    rewrite lookup_app_r, Nat.sub_diag by done. cbn [lookup list_lookup].
    eexists. split; [reflexivity|]. rewrite delete_middle, app_nil_r. cbn [runTask].
    destruct (resultTimerFunc_fields now' (set_spawned (spawned r) r'))
      as (Hp2 & Hr2 & Hg2 & _ & _ & Hsp2).
    rewrite Hp2, Hr2, Hg2, Hsp2. unfold len_players. fields. rewrite Hc.
    split; [done|]. split; [done|]. split; [reflexivity|].
    destruct (Z.of_nat (size (players r')) >=? RoomConfig.MinPlayers (config r));
      [reflexivity|]. rewrite app_nil_r. reflexivity.
Qed.

(** C5. [AddPlayer] fails with [ErrRoomFull], leaving the room as it was, when
    the roster has [MaxPlayers] entries or more. Otherwise it succeeds and
    inserts the player, touching neither the phase nor the round: it starts
    no round itself. If the roster is then at least [MinPlayers] and the
    phase is waiting, a goroutine that will call [StartGame] is started, and
    if that goroutine is the next to get the room the phase becomes betting
    with a fresh round; in every other case nothing is started. Whenever such
    a goroutine gets to run, in whatever state the room then is: if the
    roster is still at least [MinPlayers] and the phase is waiting, the phase
    becomes betting with a fresh round, and otherwise [StartGame] is refused
    and the phase, the round, the roster, the timer and the queue stay as
    they are, so that a round in its betting phase is neither doubled nor
    replaced. *)
Theorem AddPlayer_spec now playerID playerName balance r :
  ((len_players r >=? RoomConfig.MaxPlayers (config r)) = true →
   AddPlayer now playerID playerName balance r = (r, Some ErrRoomFull))
  ∧ ((len_players r >=? RoomConfig.MaxPlayers (config r)) = false →
     ∃ r',
       AddPlayer now playerID playerName balance r = (r', None)
       ∧ players r' = <[playerID := newRoomPlayer now playerID playerName balance]> (players r)
       ∧ gameState r' = gameState r
       ∧ currentRound r' = currentRound r
       ∧ ((len_players r' >=? RoomConfig.MinPlayers (config r)) = true →
          gameState r = StateWaiting →
          spawned r' = spawned r ++ [GoStartGame]
          ∧ ∀ now',
              ∃ r'',
                exec Sum256 now' (RunTask (List.length (spawned r))) r' = Some r''
                ∧ gameState r'' = StateBetting
                ∧ currentRound r''
                  = Some (newGameRound now' (set_spawned (spawned r) r')))
       ∧ ((len_players r' >=? RoomConfig.MinPlayers (config r)) = false
          ∨ gameState r ≠ StateWaiting →
          spawned r' = spawned r))
  ∧ (∀ now' i r2,
       spawned r2 !! i = Some GoStartGame →
       ∃ r3,
         exec Sum256 now' (RunTask i) r2 = Some r3
         ∧ players r3 = players r2
         ∧ ((len_players r2 >=? RoomConfig.MinPlayers (config r2)) = true →
            gameState r2 = StateWaiting →
            gameState r3 = StateBetting
            ∧ currentRound r3
              = Some (newGameRound now' (set_spawned (delete i (spawned r2)) r2))
            ∧ spawned r3 = delete i (spawned r2) ++ [GoBroadcastTimer])
         ∧ ((len_players r2 >=? RoomConfig.MinPlayers (config r2)) = false
            ∨ gameState r2 ≠ StateWaiting →
            (∃ e, StartGame now' (set_spawned (delete i (spawned r2)) r2)
                  = (set_spawned (delete i (spawned r2)) r2, Some e))
            ∧ gameState r3 = gameState r2
            ∧ currentRound r3 = currentRound r2
            ∧ timer r3 = timer r2
            ∧ eventChan r3 = eventChan r2
            ∧ spawned r3 = delete i (spawned r2))).
Proof.
  split; [apply AddPlayer_full|]. split.
  - intros Hlen.
    rewrite AddPlayer_admitted by done. eexists. split; [reflexivity|].
    destruct (admitPlayer_fields now playerID playerName balance r) as (Hp & Hr & Hg & _ & Hc).
    split; [done|]. split; [done|]. split; [done|].
    set (r' := admitPlayer now playerID playerName balance r) in *.
    assert (Hsp : spawned r'
      = if (len_players r' >=? RoomConfig.MinPlayers (config r))
           && GameState_eqb (gameState r) StateWaiting
        then spawned r ++ [GoStartGame] else spawned r).
    { unfold len_players. rewrite Hp. subst r'. unfold admitPlayer, checkAndStartGame. cbv zeta.
      unfold len_players. fields. destruct (_ && _); by fields. }
    split.
    + intros Hmin Hs. rewrite Hsp, Hmin, Hs. cbn [GameState_eqb andb]. split; [done|].
      intros now'. cbn [exec]. rewrite Hsp, Hmin, Hs. cbn [GameState_eqb andb].
      rewrite lookup_app_r, Nat.sub_diag by done. cbn [lookup list_lookup].
      eexists. split; [reflexivity|]. rewrite delete_middle, app_nil_r. cbn [runTask].
      rewrite StartGame_started; cbn [fst].
      * destruct (beginRound_fields now' (set_spawned (spawned r) r')) as (_ & -> & -> & _).
        done.
      * unfold len_players in *. fields. rewrite Hc.
        apply Z.ltb_ge. by apply Z.geb_le in Hmin.
      * fields. by rewrite Hg.
    + intros [Hmin|Hs]; rewrite Hsp.
      * by rewrite Hmin.
      * apply GameState_eqb_neq in Hs. by rewrite Hs, andb_false_r.
  - intros now' i r2 Hi. cbn [exec]. rewrite Hi. eexists. split; [reflexivity|].
    cbn [runTask]. set (r2' := set_spawned (delete i (spawned r2)) r2).
    assert (Hlen' : len_players r2' = len_players r2) by (unfold len_players, r2'; by fields).
    assert (Hcfg' : config r2' = config r2) by (unfold r2'; by fields).
    assert (Hg' : gameState r2' = gameState r2) by (unfold r2'; by fields).
    destruct (StartGame_cases now' r2') as [[e He]|(Hlen & Hs & Hstart)].
    + rewrite He. cbn [fst]. split; [unfold r2'; by fields|]. split.
      * intros Hmin Hs. exfalso. unfold StartGame in He.
        rewrite Hlen', Hcfg', Hg', Hs in He. apply Z.geb_le in Hmin.
        assert (Hlt : (len_players r2 <? RoomConfig.MinPlayers (config r2)) = false)
          by (apply Z.ltb_ge; lia).
        rewrite Hlt in He. cbn [GameState_eqb negb] in He. congruence.
      * intros _. split; [by exists e|]. unfold r2'. by fields.
    + rewrite Hstart. cbn [fst].
      destruct (beginRound_fields now' r2') as (Hp & Hr & Hg & _ & _ & Hsp).
      split; [rewrite Hp; unfold r2'; by fields|]. split.
      * intros _ _. split; [exact Hg|]. split; [exact Hr|]. rewrite Hsp. unfold r2'. by fields.
      * intros [Hmin|Hs']; exfalso.
        -- rewrite Hlen', Hcfg' in Hlen. apply Z.ltb_ge in Hlen.
           rewrite Z.geb_leb in Hmin. apply Z.leb_gt in Hmin. lia.
        -- rewrite Hg' in Hs. done.
Qed.

(** C10. [AddPlayer] with an id already in the roster, in a room that is not
    full, does not fail: the entry is replaced by a fresh player whose balance
    is the argument and who has no current bet; the round is untouched, so a
    bet the player had placed stays in the round's bets and nothing is
    refunded. *)
Theorem AddPlayer_again now playerID playerName balance r old :
  players r !! playerID = Some old →
  (len_players r >=? RoomConfig.MaxPlayers (config r)) = false →
  ∃ r' fresh,
    AddPlayer now playerID playerName balance r = (r', None)
    ∧ players r' !! playerID = Some fresh
    ∧ RoomPlayer.Balance fresh = balance
    ∧ RoomPlayer.CurrentBet fresh = None
    ∧ RoomPlayer.TotalGames fresh = 0
    ∧ currentRound r' = currentRound r
    ∧ openBet playerID r' = openBet playerID r
    ∧ size (players r') = size (players r)
    ∧ ∀ k, k ≠ playerID → players r' !! k = players r !! k.
Proof.
  intros Hold Hlen. rewrite AddPlayer_admitted by done.
  destruct (admitPlayer_fields now playerID playerName balance r) as (Hp & Hr & _).
  eexists _, _. split; [reflexivity|]. rewrite Hp. split; [apply lookup_insert_eq|].
  split; [reflexivity|]. split; [reflexivity|]. split; [reflexivity|]. split; [done|].
  split; [by unfold openBet; rewrite Hr|]. split.
  - apply map_size_insert_Some. done.
  - intros k Hk. by rewrite lookup_insert_ne.
Qed.

End Claims4.

(** The witness of [betting_timer_expiry]: the timer fires in the room of
    scenario A, where two bets are placed and the queue has room; the digest
    of the examples shows heads for the seed read, P1's bet of 10 on heads
    wins, and the result event is the last of the queue. *)
Lemma betting_timer_expiry_witness :
  reachable lastByteDigest roomWithBets
  ∧ gameState roomWithBets = StateBetting
  ∧ ∃ r' rd' p1 event,
      exec lastByteDigest (noon + 62 * Second) (BettingTimerFires [Byte.x00]) roomWithBets
      = Some r'
      ∧ gameState r' = StateResult
      ∧ currentRound r' = Some rd'
      ∧ GameRound.CoinResult rd' = game.Heads
      ∧ players r' !! "P1" = Some p1
      ∧ RoomPlayer.Balance p1 = 110%float
      ∧ eventChan r' = eventChan roomWithBets ++ [event]
      ∧ Message.Type_ event = MsgGameResult
      ∧ spawned r' = spawned roomWithBets ++ [AfterResultDuration ResultPhaseDuration].
Proof.
  split; [apply reachable_roomWithBets|]. split; [reflexivity|].
  destruct (betting_timer_expiry lastByteDigest (noon + 62 * Second) [Byte.x00] roomWithBets
              (reachable_roomWithBets lastByteDigest) eq_refl)
    as (rd & Hrd & _ & Hbets).
  assert (∃ bet, GameRound.Bets rd !! "P1" = Some bet
                 ∧ BetData.Amount bet = 10%float ∧ BetData.Choice bet = game.Heads)
    as (bet & Hbet & Hamount & Hchoice)
    by (vm_compute in Hrd; injection Hrd as <-; eexists; vm_compute; done).
  destruct Hbets
    as (r1 & rd' & r' & _ & _ & _ & _ & Hseed & Hcoin & _ & Hset & _ & Hexec & Hg & Hr & Hp
        & Hroom & _ & Hsp & _).
  { intros Hsz. apply map_size_empty_iff in Hsz. by rewrite Hsz, lookup_empty in Hbet. }
  assert (Hheads : GameRound.CoinResult rd' = game.Heads)
    by (rewrite Hcoin, Hseed; vm_compute; reflexivity).
  destruct (Hset "P1" bet Hbet) as (p & Hp0 & Hp1 & _).
  destruct Hroom as [Hev _]; [vm_compute; lia|].
  eexists r', rd', _, _. split; [exact Hexec|]. split; [exact Hg|]. split; [exact Hr|].
  split; [exact Hheads|]. split; [rewrite Hp; exact Hp1|].
  split.
  { vm_compute in Hp0. injection Hp0 as <-. rewrite Hheads.
    destruct bet as [pid amount choice bid]. cbn in Hamount, Hchoice. subst amount choice.
    vm_compute. reflexivity. }
  split; [exact Hev|]. split; [reflexivity|]. exact Hsp.
Defined.

(** The result event is not always emitted: here the queue of the room holds
    a hundred events when the betting timer fires on P1's bet; the phase goes
    to result and the result event is dropped, the queue staying as it
    was, without a result event in it. *)
Lemma result_event_dropped_counterexample :
  ∃ r rd r',
    run lastByteDigest crowdedQueue freshRoom = Some r
    ∧ gameState r = StateBetting
    ∧ currentRound r = Some rd
    ∧ size (GameRound.Bets rd) = 1%nat
    ∧ List.length (eventChan r) = eventChanCap
    ∧ exec lastByteDigest (noon + 62 * Second) (BettingTimerFires [Byte.x00]) r = Some r'
    ∧ gameState r' = StateResult
    ∧ eventChan r' = eventChan r
    ∧ Forall (λ event, Message.Type_ event ≠ MsgGameResult) (eventChan r').
Proof.
  eexists _, _, _. split; [vm_compute; reflexivity|].
  split; [reflexivity|]. split; [reflexivity|]. split; [by vm_compute|].
  split; [reflexivity|]. split; [vm_compute; reflexivity|].
  split; [reflexivity|]. split; [reflexivity|].
  match goal with |- Forall _ ?q =>
    assert (Hall : forallb (λ event, negb (String.eqb (Message.Type_ event) MsgGameResult)) q
                   = true) by (vm_compute; reflexivity)
  end.
  rewrite List.forallb_forall in Hall.
  apply Forall_forall. intros event Hin%list_elem_of_In.
  specialize (Hall event Hin). by apply negb_true_iff, String.eqb_neq in Hall.
Qed.

(** The round is not always started: P2 joins P1, the roster reaches the
    minimum of two in the waiting phase and [AddPlayer] returns with no round
    started; P2 leaves before the goroutine runs, [StartGame] is then
    refused, and the room is left waiting, with no round and nothing
    scheduled. *)
Lemma round_not_started_counterexample :
  ∃ r1 r2 r4,
    run lastByteDigest (take 1 twoJoinAndStart) freshRoom = Some r1
    ∧ AddPlayer (noon + 1 * Second) "P2" "Bob" 100%float r1 = (r2, None)
    ∧ len_players r2 = RoomConfig.MinPlayers (config r2)
    ∧ gameState r2 = StateWaiting
    ∧ currentRound r2 = None
    ∧ spawned r2 = [GoStartGame]
    ∧ run lastByteDigest leftBeforeStart r2 = Some r4
    ∧ gameState r4 = StateWaiting
    ∧ currentRound r4 = None
    ∧ totalRounds r4 = 0
    ∧ spawned r4 = [].
Proof.
  eexists _, _, _. split; [vm_compute; reflexivity|]. split; [vm_compute; reflexivity|].
  split; [reflexivity|]. split; [reflexivity|]. split; [reflexivity|].
  split; [reflexivity|]. split; [vm_compute; reflexivity|]. done.
Qed.

(** The witness of [AddPlayer_spec]: P2 joins P1 in the room of the examples;
    the goroutine is started and, run next, starts the round; run only after
    P2 has left, it starts nothing. *)
Lemma AddPlayer_spec_witness :
  ∃ r1 r2 r3 r4,
    run lastByteDigest (take 1 twoJoinAndStart) freshRoom = Some r1
    ∧ AddPlayer (noon + 1 * Second) "P2" "Bob" 100%float r1 = (r2, None)
    ∧ spawned r2 = [GoStartGame]
    ∧ exec lastByteDigest (noon + 2 * Second) (RunTask 0) r2 = Some r3
    ∧ gameState r3 = StateBetting
    ∧ exec lastByteDigest (noon + 2 * Second) (RunTask 0)
        (RemovePlayer (noon + 1 * Second) "P2" r2).1 = Some r4
    ∧ gameState r4 = StateWaiting
    ∧ currentRound r4 = None.
Proof.
  assert (∃ r1, run lastByteDigest (take 1 twoJoinAndStart) freshRoom = Some r1
                ∧ (len_players r1 >=? RoomConfig.MaxPlayers (config r1)) = false
                ∧ spawned r1 = [] ∧ gameState r1 = StateWaiting
                ∧ config r1 = DefaultRoomConfig)
    as (r1 & Hrun & Hfree & Hsp1 & Hg1 & Hc1)
    by (eexists; split; [vm_compute; reflexivity|]; done).
  destruct (AddPlayer_spec lastByteDigest (noon + 1 * Second) "P2" "Bob" 100%float r1)
    as (_ & Hadd & Hlater).
  destruct (Hadd Hfree) as (r2 & Hadd2 & Hp2 & Hg2 & Hr2 & Hgo & _).
  assert (Hmin : (len_players r2 >=? RoomConfig.MinPlayers (config r1)) = true).
  { unfold len_players. rewrite Hp2, Hc1.
    assert (Hsize : size (<["P2" := newRoomPlayer (noon + 1 * Second) "P2" "Bob" 100%float]>
                            (players r1)) = 2%nat).
    { vm_compute in Hrun. injection Hrun as <-. by vm_compute. }
    rewrite Hsize. reflexivity. }
  destruct (Hgo Hmin Hg1) as (Hsp2 & Hnext). rewrite Hsp1 in Hsp2, Hnext.
  destruct (Hnext (noon + 2 * Second)) as (r3 & Hexec3 & Hg3 & _).
  set (r2' := (RemovePlayer (noon + 1 * Second) "P2" r2).1).
  assert (Hleft : spawned r2' !! 0%nat = Some GoStartGame
                  ∧ (len_players r2' >=? RoomConfig.MinPlayers (config r2')) = false
                  ∧ gameState r2' = StateWaiting ∧ currentRound r2' = None).
  { subst r2'. vm_compute in Hrun. injection Hrun as <-.
    vm_compute in Hadd2. injection Hadd2 as <-. split_and!; vm_compute; reflexivity. }
  destruct Hleft as (Hsp' & Hfew & Hg' & Hr').
  destruct (Hlater (noon + 2 * Second) 0%nat r2' Hsp') as (r4 & Hexec4 & _ & _ & Hrefused).
  destruct (Hrefused (or_introl Hfew)) as (_ & Hg4 & Hr4 & _).
  exists r1, r2, r3, r4. split; [exact Hrun|]. split; [exact Hadd2|]. split; [exact Hsp2|].
  split; [exact Hexec3|]. split; [exact Hg3|]. split; [exact Hexec4|].
  split; [by rewrite Hg4|]. by rewrite Hr4.
Defined.

(** The witness of [AddPlayer_again]: P1 joins the room of scenario A a second
    time, with a balance of 5, after betting 10. *)
Lemma AddPlayer_again_witness :
  ∃ old,
    players roomWithBets !! "P1" = Some old
    ∧ (len_players roomWithBets >=? RoomConfig.MaxPlayers (config roomWithBets)) = false
    ∧ RoomPlayer.Balance old = 90%float
    ∧ ∃ r' fresh,
        AddPlayer (noon + 30 * Second) "P1" "Ann" 5%float roomWithBets = (r', None)
        ∧ players r' !! "P1" = Some fresh
        ∧ RoomPlayer.Balance fresh = 5%float
        ∧ RoomPlayer.CurrentBet fresh = None
        ∧ is_Some (openBet "P1" r').
Proof.
  eexists. split; [vm_compute; reflexivity|]. split; [reflexivity|]. split; [reflexivity|].
  edestruct (AddPlayer_again (noon + 30 * Second) "P1" "Ann" 5%float roomWithBets)
    as (r' & fresh & Hadd & Hp & Hb & Hc & _ & _ & Hopen & _);
    [vm_compute; reflexivity|reflexivity|].
  exists r', fresh. rewrite Hopen. split_and!; try done; by vm_compute.
Defined.

(** C6. [RemovePlayer] fails with [ErrPlayerNotFound], leaving the room as it
    was, when the id is not in the roster. Otherwise it succeeds: a bet the
    player has in the current round is first refunded (its amount is added to
    the player's balance) and taken out of the round, then the player is taken
    out of the roster; the other players and their bets are untouched; and if
    the roster is then below [MinPlayers] while the phase is betting, the
    phase becomes paused and the betting timer is stopped, so that it cannot
    fire any more. *)
Theorem RemovePlayer_spec (Sum256 : list Byte.byte → list Byte.byte) now playerID r :
  reachable Sum256 r →
  (players r !! playerID = None →
   RemovePlayer now playerID r = (r, Some ErrPlayerNotFound))
  ∧ (∀ player,
       players r !! playerID = Some player →
       ∃ r',
         RemovePlayer now playerID r = (r', None)
         ∧ r' = dropPlayer now playerID (refundBet playerID player r)
         ∧ (∀ bet,
              openBet playerID r = Some bet →
              ∃ refunded,
                players (refundBet playerID player r) !! playerID = Some refunded
                ∧ RoomPlayer.Balance refunded
                  = PrimFloat.add (RoomPlayer.Balance player) (BetData.Amount bet)
                ∧ openBet playerID (refundBet playerID player r) = None)
         ∧ players r' = delete playerID (players r)
         ∧ openBet playerID r' = None
         ∧ (∀ k, k ≠ playerID → openBet k r' = openBet k r)
         ∧ ((Z.of_nat (size (players r')) <? RoomConfig.MinPlayers (config r)) = true →
            gameState r = StateBetting →
            gameState r' = StatePaused
            ∧ timer r' = Some TimerStopped
            ∧ ∀ seedBytes, enabled (BettingTimerFires seedBytes) r' = false)
         ∧ ((Z.of_nat (size (players r')) <? RoomConfig.MinPlayers (config r)) = false
            ∨ gameState r ≠ StateBetting →
            gameState r' = gameState r ∧ timer r' = timer r)).
Proof.
  intros Hreach. split; [apply RemovePlayer_absent|]. intros player Hpl.
  rewrite (RemovePlayer_present _ _ player) by done.
  eexists. split; [reflexivity|]. split; [reflexivity|].
  destruct (leave_fields now playerID player r Hpl) as (Hp & Hr & Hg & Ht & _).
  cbv zeta in Hp, Hr, Hg, Ht.
  set (r' := dropPlayer now playerID (refundBet playerID player r)) in *.
  split.
  { intros bet Hbet. unfold openBet in Hbet. unfold refundBet, openBet.
    destruct (currentRound r) as [rd|]; [|done]. rewrite Hbet. cbv zeta.
    eexists. fields. rewrite lookup_insert_eq. split; [reflexivity|].
    split; [reflexivity|]. apply lookup_delete_eq. }
  split; [exact Hp|].
  assert (Hopen : ∀ k, openBet k r' = if decide (k = playerID) then None else openBet k r).
  { intros k. unfold openBet. rewrite Hr. destruct (currentRound r) as [rd|].
    - cbn. rewrite lookup_delete. by destruct (decide (playerID = k)), (decide (k = playerID)).
    - by destruct (decide _). }
  split; [by rewrite Hopen, decide_True|].
  split; [by intros k Hk; rewrite Hopen, decide_False|].
  rewrite Hp, Hg, Ht. unfold pausesOnLeave. split.
  - intros Hlt Hs. rewrite Hlt, Hs. cbn [GameState_eqb andb].
    pose proof (reachable_consistent Sum256 r Hreach) as (_ & _ & H3 & _).
    rewrite (H3 Hs). split; [reflexivity|]. split; [reflexivity|]. intros seedBytes.
    cbn [enabled]. rewrite Ht. unfold pausesOnLeave. rewrite Hlt, Hs, (H3 Hs).
    reflexivity.
  - intros [-> | Hs%GameState_eqb_neq]; [done|]. by rewrite Hs, andb_false_r.
Qed.

(** The witness of [RemovePlayer_spec]: P1 leaves the room of scenario A after
    betting 10 out of 100, and the room is paused. *)
Lemma RemovePlayer_spec_witness :
  reachable lastByteDigest roomWithBets
  ∧ ∃ player r' refunded,
      players roomWithBets !! "P1" = Some player
      ∧ RemovePlayer (noon + 30 * Second) "P1" roomWithBets = (r', None)
      ∧ players (refundBet "P1" player roomWithBets) !! "P1" = Some refunded
      ∧ RoomPlayer.Balance refunded = 100%float
      ∧ players r' !! "P1" = None
      ∧ gameState r' = StatePaused
      ∧ timer r' = Some TimerStopped.
Proof.
  split; [apply reachable_roomWithBets|].
  destruct (RemovePlayer_spec lastByteDigest (noon + 30 * Second) "P1" roomWithBets
              (reachable_roomWithBets lastByteDigest)) as (_ & H).
  edestruct H as (r' & Hrm & _ & Href & Hp & _ & _ & Hpause & _); [vm_compute; reflexivity|].
  edestruct Href as (refunded & Hr1 & Hr2 & _); [vm_compute; reflexivity|].
  destruct Hpause as (Hg & Ht & _); [rewrite Hp; by vm_compute|reflexivity|].
  eexists _, r', refunded. split; [vm_compute; reflexivity|].
  split; [exact Hrm|]. split; [exact Hr1|]. split; [rewrite Hr2; by vm_compute|].
  split; [rewrite Hp; apply lookup_delete_eq|]. done.
Defined.


(** What the relay does to the connection [client], whose object was [c0]
    before: nothing if it is not mapped to [room]; the data is queued if its
    buffer has room; otherwise its channel is closed and it leaves
    [s.clients]. *)
Definition relayed (room : RoomRef) (data : JSON) (s s' : Server) (client : ClientRef) : Prop :=
  match clients s !! client with
  | Some (Some room') =>
      if decide (room' = room) then
        ∃ c, heap s !! client = Some c
             ∧ if (List.length (Client.send c) <? sendCap)%nat
               then clients s' !! client = Some (Some room)
                    ∧ heap s' !! client = Some (with_send (Client.send c ++ [data]) c)
               else clients s' !! client = None
                    ∧ heap s' !! client = Some (closeSend c)
      else clients s' !! client = clients s !! client ∧ heap s' !! client = heap s !! client
  | _ => clients s' !! client = clients s !! client ∧ heap s' !! client = heap s !! client
  end.

(** The connections mapped to [room] have their object and an open
    channel. *)
Definition membersOpen (room : RoomRef) (s : Server) : Prop :=
  ∀ client, clients s !! client = Some (Some room) →
            ∃ c, heap s !! client = Some c ∧ Client.sendClosed c = false.

(** The same, when the loop has only gone over the entries in [m]. *)
Definition relayedOver (m : gmap ClientRef (option RoomRef)) (room : RoomRef) (data : JSON)
    (s s' : Server) (client : ClientRef) : Prop :=
  match m !! client with
  | Some (Some room') =>
      if decide (room' = room) then
        ∃ c, heap s !! client = Some c
             ∧ if (List.length (Client.send c) <? sendCap)%nat
               then clients s' !! client = clients s !! client
                    ∧ heap s' !! client = Some (with_send (Client.send c ++ [data]) c)
               else clients s' !! client = None
                    ∧ heap s' !! client = Some (closeSend c)
      else clients s' !! client = clients s !! client ∧ heap s' !! client = heap s !! client
  | _ => clients s' !! client = clients s !! client ∧ heap s' !! client = heap s !! client
  end.

Lemma relay_loop room data s (m : gmap ClientRef (option RoomRef)) :
  (∀ client, m !! client = Some (Some room) →
             ∃ c, heap s !! client = Some c ∧ Client.sendClosed c = false) →
  ∃ s', map_fold (relayToClient room data) (Some s) m = Some s'
        ∧ serverLogger s' = serverLogger s
        ∧ ∀ client, relayedOver m room data s s' client.
Proof.
  apply (map_fold_weak_ind
    (fun acc (m : gmap ClientRef (option RoomRef)) =>
       (∀ client, m !! client = Some (Some room) →
                  ∃ c, heap s !! client = Some c ∧ Client.sendClosed c = false) →
       ∃ s', acc = Some s'
             ∧ serverLogger s' = serverLogger s
             ∧ ∀ client, relayedOver m room data s s' client)).
  - intros _. exists s. split; [done|]. split; [done|]. intros client.
    unfold relayedOver. by rewrite lookup_empty.
  - intros i x m0 acc Hi IH Hopen.
    destruct IH as (s1 & -> & Hlog & Hrel).
    { intros client Hc. apply Hopen. rewrite lookup_insert_ne; [done|]. congruence. }
    pose proof (Hrel i) as Hrel_i. unfold relayedOver in Hrel_i. rewrite Hi in Hrel_i.
    destruct Hrel_i as [Hcl_i Hheap_i].
    unfold relayToClient. destruct (bool_decide (x = Some room)) eqn:Hx.
    + apply bool_decide_eq_true in Hx. subst x.
      destruct (Hopen i) as (c & Hc & Hclosed); [by rewrite lookup_insert_eq|].
      rewrite Hheap_i, Hc, Hclosed. unfold chan_offer.
      destruct (List.length (Client.send c) <? sendCap)%nat eqn:Hroom.
      * eexists. split; [reflexivity|]. split; [done|]. intros client.
        unfold relayedOver. cbn [clients heap].
        destruct (decide (i = client)) as [<-|Hne].
        -- rewrite !lookup_insert_eq, decide_True by done.
           exists c. rewrite Hroom. done.
        -- rewrite !lookup_insert_ne by done. apply Hrel.
      * eexists. split; [reflexivity|]. split; [done|]. intros client.
        unfold relayedOver. cbn [clients heap].
        destruct (decide (i = client)) as [<-|Hne].
        -- rewrite !lookup_insert_eq, lookup_delete_eq, decide_True by done.
           exists c. rewrite Hroom. done.
        -- rewrite !lookup_insert_ne, lookup_delete_ne by done. apply Hrel.
    + apply bool_decide_eq_false in Hx.
      exists s1. split; [done|]. split; [done|]. intros client.
      unfold relayedOver.
      destruct (decide (i = client)) as [<-|Hne].
      * rewrite lookup_insert_eq. destruct x as [room'|]; [|done].
        rewrite decide_False by congruence. done.
      * rewrite lookup_insert_ne by done. apply Hrel.
Qed.

(** The loop panics when it comes to a connection of the room whose channel
    is closed. *)
Lemma relay_loop_closed room data s (m : gmap ClientRef (option RoomRef)) client :
  m !! client = Some (Some room) →
  (∀ c, heap s !! client = Some c → Client.sendClosed c = true) →
  map_fold (relayToClient room data) (Some s) m = None.
Proof.
  intros Hm Hclosed.
  cut ((m !! client = Some (Some room) →
        map_fold (relayToClient room data) (Some s) m = None)
       ∧ (∀ s', map_fold (relayToClient room data) (Some s) m = Some s' →
                m !! client = None → heap s' !! client = heap s !! client)).
  { intros [H _]. by apply H. }
  clear Hm.
  apply (map_fold_weak_ind
    (fun acc (m : gmap ClientRef (option RoomRef)) =>
       (m !! client = Some (Some room) → acc = None)
       ∧ (∀ s', acc = Some s' → m !! client = None →
                heap s' !! client = heap s !! client))).
  - split; [by rewrite lookup_empty|]. by intros s' [= <-] _.
  - intros i x m0 acc Hi [IH1 IH2]. split.
    + intros Hlook. destruct acc as [s1|]; [|done].
      destruct (decide (i = client)) as [->|Hne].
      * rewrite lookup_insert_eq in Hlook. injection Hlook as ->.
        unfold relayToClient. rewrite bool_decide_eq_true_2 by done.
        rewrite (IH2 s1 eq_refl Hi).
        destruct (heap s !! client) as [c|] eqn:Hc; [|done].
        by rewrite (Hclosed c eq_refl).
      * rewrite lookup_insert_ne in Hlook by done. by specialize (IH1 Hlook).
    + intros s' Hacc Hlook.
      apply lookup_insert_None in Hlook as [Hlook Hne].
      destruct acc as [s1|]; [|done].
      rewrite <- (IH2 s1 eq_refl Hlook).
      unfold relayToClient in Hacc.
      destruct (bool_decide (x = Some room)); [|by injection Hacc as <-].
      destruct (heap s1 !! i) as [c|]; [|done].
      destruct (Client.sendClosed c); [done|].
      destruct (chan_offer sendCap (Client.send c) data);
        injection Hacc as <-; cbn [heap]; by rewrite lookup_insert_ne.
Qed.


(** Three connections: 1 and 2 are in room 7, 3 is in room 8; the buffer of 1
    is full. *)
Definition exampleServer : Server :=
  mkServer
    (<[1%nat := Some 7%nat]> (<[2%nat := Some 7%nat]> (<[3%nat := Some 8%nat]> ∅)))
    (<[1%nat := Client.mk (Some 7%nat) "P1" "Ann" (replicate sendCap JNull) false]>
       (<[2%nat := Client.mk (Some 7%nat) "P2" "Bob" [] false]>
          (<[3%nat := Client.mk (Some 8%nat) "P3" "Cid" [] false]> ∅)))
    [].

Definition exampleEvent : Message.t :=
  NewMessage noon MsgGameStart "lobby" "" (DataString "round_lobby_1").



(** The server at the end of [stalledReader], and once connection 1, cut
    off, has asked to join again. *)
Definition cutOffServer : ServerState :=
  Eval vm_compute in
    match serveAll noTimeFormat noTimeParse stalledReader (NewServer None) with
    | Some st => st
    | None => NewServer None
    end.

Definition rejoinedServer : ServerState :=
  Eval vm_compute in
    match serve noTimeFormat noTimeParse
            (Reads exampleClock 7%nat (ToJSON joinEnvelope) 1%nat) cutOffServer with
    | Some st => st
    | None => cutOffServer
    end.


(** ** The remote client's reconnection *)

Section ReconnectSteps.
Import NetworkClient.

Definition connectionLost : Error := ErrorsNew "connection lost".
Definition budgetExhausted : Error := ErrorsNew "max reconnection attempts reached".

(** No reconnection is waiting to run. *)
Definition noneScheduled (c : NetworkClient.t) : Prop := takeReconnect (spawned c) = None.

(** An answer of the world that makes the attempt fail at the dial. *)
Definition dialFails (a : Time * DialResult * bool) : Prop := a.1.2 = DialFailed.

Lemma takeReconnect_app_reconnect l :
  takeReconnect l = None → takeReconnect (l ++ [GoAttemptReconnect]) = Some l.
Proof.
  induction l as [|t0 l IH]; [done|]. destruct t0; cbn; try done;
    intros H; destruct (takeReconnect l); try done; by rewrite IH.
Qed.

Lemma wrap64_small z : - 2 ^ 63 ≤ z < 2 ^ 63 → wrap64 z = z.
Proof. intros H. unfold wrap64. rewrite Z.mod_small; lia. Qed.

Lemma takeReconnect_app_pumps l :
  takeReconnect l = None →
  takeReconnect (((l ++ [GoReadPump]) ++ [GoWritePump]) ++ [GoPingPump]) = None.
Proof.
  induction l as [|t0 l IH]; [done|]. destruct t0; cbn; try done;
    intros H; destruct (takeReconnect l); try done; by rewrite IH.
Qed.

Definition isSlept (a : Action) : bool := match a with Slept _ => true | _ => false end.

(** The sleeps among the client's actions, in order. *)
Definition sleeps (c : NetworkClient.t) : list Action := List.filter isSlept (actions c).

Lemma attempts_sleeps c : attempts c = List.length (sleeps c).
Proof. reflexivity. Qed.

Lemma sleeps_act a c : sleeps (act a c) = sleeps c ++ (if isSlept a then [a] else []).
Proof. unfold sleeps. cbn [actions act]. rewrite List.filter_app. by destruct a. Qed.

(** The settings and the traces that an operation may leave alone. *)
Record unchanged (c c' : NetworkClient.t) : Prop := mkUnchanged {
  un_connected : connected c' = connected c;
  un_count : reconnectCount c' = reconnectCount c;
  un_max : maxReconnects c' = maxReconnects c;
  un_delay : reconnectDelay c' = reconnectDelay c;
  un_sleeps : sleeps c' = sleeps c;
  un_spawned : spawned c' = spawned c;
  un_errors : errorChan c' = errorChan c
}.

Lemma errorChan_offerError e c :
  errorChan (offerError e c)
  = if (List.length (errorChan c) <? errorChanCap)%nat then errorChan c ++ [e]
    else errorChan c.
Proof. unfold offerError, chan_offer. by destruct (_ <? _)%nat. Qed.

Lemma offerError_fields e c :
  connected (offerError e c) = connected c
  ∧ reconnectCount (offerError e c) = reconnectCount c
  ∧ maxReconnects (offerError e c) = maxReconnects c
  ∧ reconnectDelay (offerError e c) = reconnectDelay c
  ∧ actions (offerError e c) = actions c
  ∧ spawned (offerError e c) = spawned c.
Proof. unfold offerError, chan_offer. destruct (_ <? _)%nat; done. Qed.

Lemma established_fields h c :
  connected (established h c) = true
  ∧ reconnectCount (established h c) = 0
  ∧ maxReconnects (established h c) = maxReconnects c
  ∧ reconnectDelay (established h c) = reconnectDelay c
  ∧ currentRoom (established h c) = currentRoom c
  ∧ sleeps (established h c) = sleeps c
  ∧ errorChan (established h c) = errorChan c
  ∧ spawned (established h c)
    = ((spawned c ++ [GoReadPump]) ++ [GoWritePump]) ++ [GoPingPump].
Proof.
  unfold established, sleeps. destruct c. cbn. rewrite List.filter_app. cbn.
  rewrite app_nil_r. done.
Qed.

Lemma JoinRoom_fields now writeOK roomID balance c :
  unchanged c (JoinRoom now writeOK roomID balance c).1.
Proof.
  unfold JoinRoom. destruct (negb (connected c)); [done|]. cbv zeta.
  unfold sendMessage. destruct (_ || _); [done|].
  destruct (ToJSON _) as [data|]; [|done].
  assert (Hact : sleeps (act (Wrote data writeOK) c) = sleeps c).
  { rewrite sleeps_act. cbn. by rewrite app_nil_r. }
  destruct writeOK; cbn [fst]; by split.
Qed.

(** What [attemptReconnect] does after a connection attempt failed. *)
Definition afterFailure (c2 : NetworkClient.t) : NetworkClient.t :=
  let c3 := log LogError "Reconnection failed" c2 in
  if reconnectCount c3 <? maxReconnects c3
  then spawn GoAttemptReconnect c3
  else offerError budgetExhausted c3.

Lemma afterFailure_fields c2 :
  connected (afterFailure c2) = connected c2
  ∧ reconnectCount (afterFailure c2) = reconnectCount c2
  ∧ maxReconnects (afterFailure c2) = maxReconnects c2
  ∧ reconnectDelay (afterFailure c2) = reconnectDelay c2
  ∧ actions (afterFailure c2) = actions c2
  ∧ (if reconnectCount c2 <? maxReconnects c2
     then spawned (afterFailure c2) = spawned c2 ++ [GoAttemptReconnect]
          ∧ errorChan (afterFailure c2) = errorChan c2
     else spawned (afterFailure c2) = spawned c2
          ∧ errorChan (afterFailure c2) = errorChan (offerError budgetExhausted c2)).
Proof.
  unfold afterFailure. cbv zeta.
  change (reconnectCount (log LogError "Reconnection failed" c2)) with (reconnectCount c2).
  change (maxReconnects (log LogError "Reconnection failed" c2)) with (maxReconnects c2).
  destruct (reconnectCount c2 <? maxReconnects c2); [done|].
  destruct (offerError_fields budgetExhausted (log LogError "Reconnection failed" c2))
    as (-> & -> & -> & -> & -> & ->).
  rewrite !errorChan_offerError. done.
Qed.

(** The client as [attemptReconnect] has it when it calls [Connect]. *)
Definition aboutToDial (c : NetworkClient.t) : NetworkClient.t :=
  act (Slept (reconnectDelay c))
    (log LogInfo "Attempting to reconnect"
       (set_reconnectCount (wrap64 (reconnectCount c + 1)) c)).

Lemma aboutToDial_fields c :
  0 ≤ reconnectCount c < 2 ^ 63 - 1 →
  connected (aboutToDial c) = connected c
  ∧ reconnectCount (aboutToDial c) = reconnectCount c + 1
  ∧ maxReconnects (aboutToDial c) = maxReconnects c
  ∧ reconnectDelay (aboutToDial c) = reconnectDelay c
  ∧ currentRoom (aboutToDial c) = currentRoom c
  ∧ actions (aboutToDial c) = actions c ++ [Slept (reconnectDelay c)]
  ∧ spawned (aboutToDial c) = spawned c
  ∧ errorChan (aboutToDial c) = errorChan c.
Proof. intros H. unfold aboutToDial. cbn. rewrite wrap64_small by lia. done. Qed.

Lemma attemptReconnect_unfold now dial writeOK c :
  attemptReconnect now dial writeOK c
  = match Connect dial (aboutToDial c) with
    | (c2, Some _) => afterFailure c2
    | (c2, None) =>
        if negb (String.eqb (currentRoom c2) "") then
          match JoinRoom now writeOK (currentRoom c2) 1000%float c2 with
          | (c3, Some _) => log LogError "Failed to rejoin room after reconnect" c3
          | (c3, None) => c3
          end
        else c2
    end.
Proof. reflexivity. Qed.

(** One failed dial, from a client that is not connected. *)
Lemma attemptReconnect_fails now writeOK c :
  connected c = false → 0 ≤ reconnectCount c < 2 ^ 63 - 1 →
  let c' := attemptReconnect now DialFailed writeOK c in
  reconnectCount c' = reconnectCount c + 1
  ∧ maxReconnects c' = maxReconnects c
  ∧ reconnectDelay c' = reconnectDelay c
  ∧ connected c' = false
  ∧ actions c' = actions c ++ [Slept (reconnectDelay c); Dialed false]
  ∧ (if reconnectCount c + 1 <? maxReconnects c
     then spawned c' = spawned c ++ [GoAttemptReconnect] ∧ errorChan c' = errorChan c
     else spawned c' = spawned c ∧ errorChan c' = errorChan (offerError budgetExhausted c)).
Proof.
  intros Hconn Hcount. cbv zeta. rewrite attemptReconnect_unfold.
  destruct (aboutToDial_fields c Hcount) as (Hc1 & Hn1 & Hm1 & Hd1 & _ & Ha1 & Hs1 & He1).
  unfold Connect. rewrite Hc1, Hconn.
  set (c2 := act (Dialed false) (log LogInfo "Connecting to server" (aboutToDial c))).
  assert (H2 : connected c2 = false ∧ reconnectCount c2 = reconnectCount c + 1
               ∧ maxReconnects c2 = maxReconnects c ∧ reconnectDelay c2 = reconnectDelay c
               ∧ actions c2 = actions c ++ [Slept (reconnectDelay c); Dialed false]
               ∧ spawned c2 = spawned c ∧ errorChan c2 = errorChan c).
  { subst c2. cbn [connected reconnectCount maxReconnects reconnectDelay actions spawned
                   errorChan act log].
    rewrite Hc1, Hn1, Hm1, Hd1, Ha1, Hs1, He1, Hconn, <- app_assoc. done. }
  destruct H2 as (Hc2 & Hn2 & Hm2 & Hd2 & Ha2 & Hs2 & He2).
  destruct (afterFailure_fields c2) as (-> & -> & -> & -> & -> & Hs).
  rewrite Hn2, Hm2 in Hs. rewrite !errorChan_offerError, Hs2, He2 in Hs.
  rewrite !errorChan_offerError.
  split_and!; try done.
Qed.

(** One attempt, whatever the world answers, from a client that is not
    connected and has no other attempt scheduled: it sleeps once, for the
    configured delay, and either the client stays disconnected with its
    counter one up, the next attempt scheduled if and only if the budget is
    not used up, or it is connected again with the counter back at zero and
    nothing scheduled. *)
Lemma attemptReconnect_any now dial writeOK c :
  connected c = false → 0 ≤ reconnectCount c < 2 ^ 63 - 1 → noneScheduled c →
  let c' := attemptReconnect now dial writeOK c in
  sleeps c' = sleeps c ++ [Slept (reconnectDelay c)]
  ∧ maxReconnects c' = maxReconnects c
  ∧ reconnectDelay c' = reconnectDelay c
  ∧ ((connected c' = false
      ∧ reconnectCount c' = reconnectCount c + 1
      ∧ (if reconnectCount c + 1 <? maxReconnects c
         then spawned c' = spawned c ++ [GoAttemptReconnect]
         else noneScheduled c'))
     ∨ (connected c' = true ∧ reconnectCount c' = 0 ∧ noneScheduled c')).
Proof.
  intros Hconn Hcount Hnone. unfold noneScheduled in *.
  cbv zeta. rewrite attemptReconnect_unfold.
  destruct (aboutToDial_fields c Hcount) as (Hc1 & Hn1 & Hm1 & Hd1 & _ & Ha1 & Hs1 & He1).
  assert (Hsl1 : sleeps (aboutToDial c) = sleeps c ++ [Slept (reconnectDelay c)]).
  { unfold sleeps. rewrite Ha1, List.filter_app. done. }
  unfold Connect. rewrite Hc1, Hconn.
  destruct dial as [| |h].
  - (* the URL does not parse *)
    destruct (afterFailure_fields (aboutToDial c)) as (Hc & Hn & Hm & Hd & Ha & Hs).
    unfold sleeps at 1. rewrite Ha. fold (sleeps (aboutToDial c)).
    rewrite Hc, Hn, Hm, Hd, Hn1, Hm1, Hd1, Hc1 in *.
    split; [done|]. split; [done|]. split; [done|]. left. split; [done|]. split; [done|].
    destruct (reconnectCount c + 1 <? maxReconnects c); destruct Hs as [-> _];
      rewrite Hs1; done.
  - (* the dial fails *)
    set (c2 := act (Dialed false) (log LogInfo "Connecting to server" (aboutToDial c))).
    assert (H2 : connected c2 = false ∧ reconnectCount c2 = reconnectCount c + 1
               ∧ maxReconnects c2 = maxReconnects c ∧ reconnectDelay c2 = reconnectDelay c
               ∧ sleeps c2 = sleeps c ++ [Slept (reconnectDelay c)]
               ∧ spawned c2 = spawned c).
    { subst c2. rewrite sleeps_act. cbn [isSlept]. rewrite app_nil_r.
      change (sleeps (log LogInfo "Connecting to server" (aboutToDial c)))
        with (sleeps (aboutToDial c)).
      cbn [connected reconnectCount maxReconnects reconnectDelay spawned act log].
      rewrite Hc1, Hn1, Hm1, Hd1, Hsl1, Hs1, Hconn. done. }
    destruct H2 as (Hc2 & Hn2 & Hm2 & Hd2 & Hsl2 & Hs2).
    destruct (afterFailure_fields c2) as (Hc & Hn & Hm & Hd & Ha & Hs).
    unfold sleeps at 1. rewrite Ha. fold (sleeps c2).
    rewrite Hc, Hn, Hm, Hd, Hn2, Hm2, Hd2, Hc2 in *.
    split; [done|]. split; [done|]. split; [done|]. left. split; [done|]. split; [done|].
    destruct (reconnectCount c + 1 <? maxReconnects c); destruct Hs as [-> _];
      rewrite Hs2; done.
  - (* connected again *)
    destruct (established_fields h (aboutToDial c))
      as (Hc2 & Hn2 & Hm2 & Hd2 & _ & Hsl2 & _ & Hs2).
    assert (Hnone2 : takeReconnect (spawned (established h (aboutToDial c))) = None).
    { rewrite Hs2, Hs1. by apply takeReconnect_app_pumps. }
    destruct (negb _).
    + destruct (JoinRoom_fields now writeOK (currentRoom (established h (aboutToDial c)))
                  1000%float (established h (aboutToDial c)))
        as [Hc3 Hn3 Hm3 Hd3 Hsl3 Hs3 _].
      destruct (JoinRoom now writeOK _ _ _) as [c3 [e|]]; cbn [fst] in *.
      * change (sleeps (log LogError "Failed to rejoin room after reconnect" c3))
          with (sleeps c3).
        cbn [connected reconnectCount maxReconnects reconnectDelay spawned log].
        rewrite Hsl3, Hsl2, Hsl1, Hm3, Hm2, Hm1, Hd3, Hd2, Hd1, Hc3, Hc2, Hn3, Hn2, Hs3.
        split; [done|]. split; [done|]. split; [done|]. by right.
      * rewrite Hsl3, Hsl2, Hsl1, Hm3, Hm2, Hm1, Hd3, Hd2, Hd1, Hc3, Hc2, Hn3, Hn2, Hs3.
        split; [done|]. split; [done|]. split; [done|]. by right.
    + rewrite Hsl2, Hsl1, Hm2, Hm1, Hd2, Hd1, Hc2, Hn2.
      split; [done|]. split; [done|]. split; [done|]. by right.
Qed.

End ReconnectSteps.

Section ReconnectChains.
Import NetworkClient.

Lemma runReconnects_none answers c : noneScheduled c → runReconnects answers c = c.
Proof. unfold noneScheduled. intros H. destruct answers as [|[[now dial] w] l]; cbn; by rewrite ?H. Qed.

Lemma runReconnects_scheduled now dial w answers c sp :
  spawned c = sp ++ [GoAttemptReconnect] → takeReconnect sp = None →
  runReconnects ((now, dial, w) :: answers) c
  = runReconnects answers (attemptReconnect now dial w (set_spawned sp c)).
Proof.
  intros Hs Hsp. cbn [runReconnects]. rewrite Hs, (takeReconnect_app_reconnect _ Hsp). done.
Qed.

(** [handleDisconnect], from a client with no reconnection waiting. *)
Lemma handleDisconnect_fields c :
  let c' := handleDisconnect c in
  connected c' = false
  ∧ reconnectCount c' = reconnectCount c
  ∧ maxReconnects c' = maxReconnects c
  ∧ reconnectDelay c' = reconnectDelay c
  ∧ conn c' = None
  ∧ actions c' = actions c ++ match conn c with Some _ => [ClosedConn] | None => [] end
  ∧ errorChan c' = errorChan (offerError connectionLost c)
  ∧ spawned c'
    = if (maxReconnects c >? 0) && (reconnectCount c <? maxReconnects c)
      then spawned c ++ [GoAttemptReconnect] else spawned c.
Proof.
  cbv zeta. unfold handleDisconnect. cbv zeta.
  set (c1 := match conn (set_connected false c) with
             | Some _ => set_conn None (act ClosedConn (set_connected false c))
             | None => set_connected false c
             end).
  set (c2 := log LogWarn "Connection lost" c1).
  assert (H2 : connected c2 = false ∧ reconnectCount c2 = reconnectCount c
    ∧ maxReconnects c2 = maxReconnects c ∧ reconnectDelay c2 = reconnectDelay c
    ∧ conn c2 = None
    ∧ actions c2 = actions c ++ match conn c with Some _ => [ClosedConn] | None => [] end
    ∧ errorChan c2 = errorChan c ∧ spawned c2 = spawned c).
  { subst c2 c1. destruct c as [[h|] ? ? ? ? ? ? ? ? ? ? ? ? ?]; cbn; rewrite ?app_nil_r; done. }
  destruct H2 as (Hc & Hn & Hm & Hd & Hcn & Ha & He & Hs).
  destruct (offerError_fields (ErrorsNew "connection lost") c2)
    as (Hc' & Hn' & Hm' & Hd' & Ha' & Hs').
  assert (Hcn' : conn (offerError (ErrorsNew "connection lost") c2) = None).
  { unfold offerError, chan_offer. by destruct (_ <? _)%nat. }
  assert (He' : errorChan (offerError (ErrorsNew "connection lost") c2)
                = errorChan (offerError connectionLost c)).
  { rewrite !errorChan_offerError, He. done. }
  rewrite Hm', Hn', Hm, Hn.
  destruct (_ && _);
    cbn [connected reconnectCount maxReconnects reconnectDelay conn actions errorChan
         spawned spawn];
    rewrite Hc', Hn', Hm', Hd', Ha', Hs', Hcn', He', Hc, Hn, Hm, Hd, Ha, Hs; done.
Qed.

(** However the world answers, a chain of reconnections sleeps at most as
    many times as the budget has attempts left, each time for the configured
    delay, and leaves the counter within the budget. *)
Lemma runReconnects_bounded answers : ∀ c,
  0 ≤ reconnectCount c → maxReconnects c < 2 ^ 63 →
  noneScheduled c
  ∨ (connected c = false ∧ reconnectCount c < maxReconnects c
     ∧ ∃ sp, spawned c = sp ++ [GoAttemptReconnect] ∧ takeReconnect sp = None) →
  let c' := runReconnects answers c in
  ∃ n : nat,
    (n ≤ Z.to_nat (maxReconnects c - reconnectCount c))%nat
    ∧ sleeps c' = sleeps c ++ repeat (Slept (reconnectDelay c)) n
    ∧ maxReconnects c' = maxReconnects c
    ∧ (reconnectCount c' = reconnectCount c + Z.of_nat n
       ∨ (connected c' = true ∧ reconnectCount c' = 0)).
Proof.
  induction answers as [|[[now dial] w] answers IH]; intros c Hcount Hmax Hsched.
  { exists 0%nat. cbn. rewrite app_nil_r. split_and!; try done; [lia|left; lia]. }
  destruct Hsched as [Hnone|(Hconn & Hlt & sp & Hs & Hsp)].
  { cbv zeta. rewrite runReconnects_none by done.
    exists 0%nat. cbn [repeat]. rewrite app_nil_r. split_and!; try done; [lia|left; lia]. }
  cbv zeta. rewrite (runReconnects_scheduled _ _ _ _ _ _ Hs Hsp).
  set (c0 := set_spawned sp c).
  destruct (attemptReconnect_any now dial w c0) as (Hsl & Hm & Hd & Hcase);
    [done|cbn; lia|exact Hsp|].
  change (sleeps c0) with (sleeps c) in Hsl.
  change (reconnectDelay c0) with (reconnectDelay c) in Hsl, Hd.
  change (maxReconnects c0) with (maxReconnects c) in Hm, Hcase.
  change (reconnectCount c0) with (reconnectCount c) in Hcase.
  set (c1 := attemptReconnect now dial w c0) in *.
  destruct Hcase as [(Hc1 & Hn1 & Hnext)|(Hc1 & Hn1 & Hnone1)].
  - destruct (IH c1) as (n & Hle & Hsl' & Hm' & Hcnt).
    + lia.
    + lia.
    + destruct (reconnectCount c + 1 <? maxReconnects c) eqn:Hlt'.
      * right. split; [done|]. split; [lia|]. exists sp. split; [|done].
        rewrite Hnext. done.
      * by left.
    + destruct (reconnectCount c + 1 <? maxReconnects c) eqn:Hlt'.
      * exists (S n). rewrite Hsl', Hsl, Hd, Hm', Hm, <- app_assoc.
        rewrite Hm, Hn1 in Hle.
        split; [lia|]. split; [done|]. split; [done|].
        destruct Hcnt as [Hcnt|Hcnt]; [left; lia|by right].
      * (* the budget is used up: nothing more runs *)
        assert (Hstop : runReconnects answers c1 = c1) by by apply runReconnects_none.
        rewrite Hstop. exists 1%nat. rewrite Hsl. cbn [repeat].
        split; [lia|]. split; [done|]. split; [done|]. left. lia.
  - rewrite (runReconnects_none answers c1 Hnone1).
    exists 1%nat. rewrite Hsl. cbn [repeat].
    split; [lia|]. split; [done|]. split; [done|]. by right.
Qed.

(** A chain of reconnections whose dials all fail, with answers enough to use
    the budget up. *)
Lemma runReconnects_all_fail answers : ∀ c sp,
  Forall dialFails answers →
  connected c = false →
  0 ≤ reconnectCount c < maxReconnects c → maxReconnects c < 2 ^ 63 →
  spawned c = sp ++ [GoAttemptReconnect] → takeReconnect sp = None →
  (Z.to_nat (maxReconnects c - reconnectCount c) ≤ List.length answers)%nat →
  let n := Z.to_nat (maxReconnects c - reconnectCount c) in
  let c' := runReconnects answers c in
  connected c' = false
  ∧ reconnectCount c' = maxReconnects c
  ∧ maxReconnects c' = maxReconnects c
  ∧ spawned c' = sp
  ∧ actions c'
    = actions c ++ concat (repeat [Slept (reconnectDelay c); Dialed false] n)
  ∧ errorChan c' = errorChan (offerError budgetExhausted c).
Proof.
  induction answers as [|[[now dial] w] answers IH];
    intros c sp Hall Hconn Hcount Hmax Hs Hsp Hlen.
  { cbn in Hlen. lia. }
  apply Forall_cons in Hall as [Hdial Hall]. unfold dialFails in Hdial.
  cbn [fst snd] in Hdial. subst dial.
  cbv zeta. rewrite (runReconnects_scheduled _ _ _ _ _ _ Hs Hsp).
  set (c0 := set_spawned sp c).
  destruct (attemptReconnect_fails now w c0) as (Hn1 & Hm1 & Hd1 & Hc1 & Ha1 & Hnext);
    [done|cbn; lia|].
  change (reconnectDelay c0) with (reconnectDelay c) in Hd1, Ha1.
  change (maxReconnects c0) with (maxReconnects c) in Hm1, Hnext.
  change (reconnectCount c0) with (reconnectCount c) in Hn1, Hnext.
  change (actions c0) with (actions c) in Ha1.
  change (spawned c0) with sp in Hnext.
  assert (He0 : errorChan (offerError budgetExhausted c0)
                = errorChan (offerError budgetExhausted c)).
  { rewrite !errorChan_offerError. done. }
  change (errorChan c0) with (errorChan c) in Hnext.
  set (c1 := attemptReconnect now DialFailed w c0) in *.
  destruct (reconnectCount c + 1 <? maxReconnects c) eqn:Hlt.
  - destruct Hnext as [Hs1 He1].
    destruct (IH c1 sp) as (Hc' & Hn' & Hm' & Hs' & Ha' & He'); try done; try lia.
    { rewrite Hm1, Hn1. cbn [List.length] in Hlen. lia. }
    rewrite Hc', Hn', Hm', Hs', Ha', He', Hm1, Hn1, Hd1, Ha1.
    replace (Z.to_nat (maxReconnects c - reconnectCount c))
      with (S (Z.to_nat (maxReconnects c - (reconnectCount c + 1)))) by lia.
    cbn [repeat concat]. rewrite !errorChan_offerError, He1, <- !app_assoc.
    split_and!; done.
  - destruct Hnext as [Hs1 He1].
    assert (Hstop : runReconnects answers c1 = c1).
    { apply runReconnects_none. unfold noneScheduled. by rewrite Hs1. }
    rewrite Hstop, Hc1, Hn1, Hm1, Hs1, Ha1, He1, He0.
    replace (Z.to_nat (maxReconnects c - reconnectCount c)) with 1%nat by lia.
    cbn [repeat concat]. rewrite app_nil_r.
    split_and!; try done. lia.
Qed.

End ReconnectChains.

Section ReconnectClaim.
Import NetworkClient.

(** C7, as claimed, fails where the error channel is full: a client that
    lost and regained its connection ten times without its errors being read
    loses it again, all three reconnections fail, the budget is used up and
    nothing more is scheduled, yet no terminal error reaches the error
    channel. *)
Lemma reconnect_error_dropped_counterexample :
  let c' := runReconnects threeFailures (handleDisconnect neverDrained) in
  connected neverDrained = true
  ∧ maxReconnects neverDrained = 3
  ∧ reconnectCount neverDrained = 0
  ∧ noneScheduled neverDrained
  ∧ Forall dialFails threeFailures
  ∧ attempts c' = (attempts neverDrained + 3)%nat
  ∧ reconnectCount c' = 3
  ∧ noneScheduled c'
  ∧ errorChan c' = repeat connectionLost 10
  ∧ budgetExhausted ∉ errorChan c'.
Proof.
  cbv zeta. split_and!; try (vm_compute; reflexivity).
  - repeat constructor.
  - assert (errorChan (runReconnects threeFailures (handleDisconnect neverDrained))
            = repeat connectionLost 10) as -> by (vm_compute; reflexivity).
    intros H. apply list_elem_of_In, repeat_spec in H. discriminate H.
Qed.

(** C7, amended: after the connection is lost, whatever the world answers,
    the reconnections sleep at most as many times as the budget has attempts
    left, each time for the configured delay, and the counter stays within
    the budget; when every dial fails, the budget is used up exactly, each
    dial comes after its sleep, nothing further is scheduled or runs, and the
    terminal error is offered to the error channel after the loss itself,
    where it arrives provided the channel has room for both. *)
Theorem reconnect_budget (c : NetworkClient.t) (answers : list (Time * DialResult * bool)) :
  noneScheduled c → 0 ≤ reconnectCount c → maxReconnects c < 2 ^ 63 →
  let N := maxReconnects c in
  let k := reconnectCount c in
  let c' := runReconnects answers (handleDisconnect c) in
  (∃ n : nat,
      (n ≤ Z.to_nat (N - k))%nat
      ∧ attempts c' = (attempts c + n)%nat
      ∧ sleeps c' = sleeps c ++ repeat (Slept (reconnectDelay c)) n
      ∧ (reconnectCount c' = k + Z.of_nat n
         ∨ (connected c' = true ∧ reconnectCount c' = 0)))
  ∧ (k < N → Forall dialFails answers →
     (Z.to_nat (N - k) ≤ List.length answers)%nat →
     connected c' = false
     ∧ reconnectCount c' = N
     ∧ attempts c' = (attempts c + Z.to_nat (N - k))%nat
     ∧ actions c'
       = actions (handleDisconnect c)
         ++ concat (repeat [Slept (reconnectDelay c); Dialed false] (Z.to_nat (N - k)))
     ∧ noneScheduled c'
     ∧ (∀ more, runReconnects more c' = c')
     ∧ errorChan c'
       = errorChan (offerError budgetExhausted (offerError connectionLost c))
     ∧ ((List.length (errorChan c) + 2 ≤ errorChanCap)%nat →
        errorChan c' = errorChan c ++ [connectionLost; budgetExhausted])).
Proof.
  intros Hnone Hcount Hmax. cbv zeta.
  destruct (handleDisconnect_fields c) as (Hc0 & Hn0 & Hm0 & Hd0 & _ & Ha0 & He0 & Hs0).
  assert (Hsl0 : sleeps (handleDisconnect c) = sleeps c).
  { unfold sleeps. rewrite Ha0, List.filter_app. destruct (conn c); cbn; by rewrite app_nil_r. }
  assert (Hgen : ∃ n : nat,
      (n ≤ Z.to_nat (maxReconnects c - reconnectCount c))%nat
      ∧ sleeps (runReconnects answers (handleDisconnect c))
        = sleeps c ++ repeat (Slept (reconnectDelay c)) n
      ∧ (reconnectCount (runReconnects answers (handleDisconnect c))
         = reconnectCount c + Z.of_nat n
         ∨ (connected (runReconnects answers (handleDisconnect c)) = true
            ∧ reconnectCount (runReconnects answers (handleDisconnect c)) = 0))).
  { destruct (runReconnects_bounded answers (handleDisconnect c)) as (n & Hle & Hsl & _ & Hcnt).
    - lia.
    - lia.
    - unfold noneScheduled in *. rewrite Hs0, Hn0, Hm0.
      destruct ((maxReconnects c >? 0) && (reconnectCount c <? maxReconnects c)) eqn:Hgo.
      + right. split; [done|]. split; [lia|]. by exists (spawned c).
      + by left.
    - exists n. rewrite Hsl, Hsl0, Hd0. rewrite Hm0, Hn0 in Hle. rewrite Hn0 in Hcnt. done. }
  split.
  - destruct Hgen as (n & Hle & Hsl & Hcnt). exists n. split; [done|]. split; [|done].
    rewrite !attempts_sleeps, Hsl, List.length_app, repeat_length. done.
  - intros Hlt Hall Hlen.
    assert (Hgo : (maxReconnects c >? 0) && (reconnectCount c <? maxReconnects c) = true).
    { apply andb_true_iff. split; lia. }
    rewrite Hgo in Hs0.
    destruct (runReconnects_all_fail answers (handleDisconnect c) (spawned c))
      as (Hc' & Hn' & _ & Hs' & Ha' & He');
      rewrite ?Hn0, ?Hm0; try done; try lia.
    rewrite ?Hm0, ?Hn0, ?Hd0 in *.
    assert (Hnone' : noneScheduled (runReconnects answers (handleDisconnect c))).
    { unfold noneScheduled. rewrite Hs'. exact Hnone. }
    assert (Herr : errorChan (runReconnects answers (handleDisconnect c))
              = errorChan (offerError budgetExhausted (offerError connectionLost c))).
    { rewrite He', !errorChan_offerError, He0, !errorChan_offerError. done. }
    split; [done|]. split; [done|]. split.
    { unfold attempts. rewrite Ha', List.filter_app, List.length_app. f_equal.
      - change (List.length (sleeps (handleDisconnect c)) = List.length (sleeps c)).
        by rewrite Hsl0.
      - generalize (Z.to_nat (maxReconnects c - reconnectCount c)).
        intros m. induction m as [|m IHm]; [done|]. cbn. by rewrite IHm. }
    split; [done|]. split; [done|].
    split; [intros more; by apply runReconnects_none|].
    split; [done|].
    intros Hroom. rewrite Herr. unfold errorChanCap in Hroom.
    assert (H1 : (List.length (errorChan c) <? errorChanCap)%nat = true)
      by (apply Nat.ltb_lt; unfold errorChanCap; lia).
    assert (H2 : (List.length (errorChan c ++ [connectionLost]) <? errorChanCap)%nat = true).
    { apply Nat.ltb_lt. rewrite List.length_app. unfold errorChanCap. cbn. lia. }
    rewrite errorChan_offerError, (errorChan_offerError connectionLost c), H1, H2.
    by rewrite <- app_assoc.
Qed.

(** The witness of [reconnect_budget]: the example client, whose budget is
    three, loses its connection and all three dials fail. *)
Lemma reconnect_budget_witness :
  noneScheduled exampleClient
  ∧ maxReconnects exampleClient = 3
  ∧ Forall dialFails threeFailures
  ∧ let c' := runReconnects threeFailures (handleDisconnect exampleClient) in
    attempts c' = 3%nat
    ∧ reconnectCount c' = 3
    ∧ noneScheduled c'
    ∧ errorChan c' = [connectionLost; budgetExhausted].
Proof.
  assert (Hall : Forall dialFails threeFailures) by repeat constructor.
  split; [reflexivity|]. split; [reflexivity|]. split; [exact Hall|].
  destruct (reconnect_budget exampleClient threeFailures) as (_ & H);
    [reflexivity|vm_compute; discriminate|reflexivity|].
  destruct H as (_ & Hn & Ha & _ & Hnone & _ & _ & He);
    [reflexivity|exact Hall|vm_compute; lia|].
  cbv zeta. split; [exact Ha|]. split; [exact Hn|]. split; [exact Hnone|].
  apply He. vm_compute. lia.
Defined.

End ReconnectClaim.

(** ** The envelope written and read back *)

(** A string that the encoder writes as it is. *)
Definition validUTF8 (s : string) : bool := String.eqb (coerceUTF8 s) s.

(** Each key comes after all the keys before it. *)
Fixpoint ascending (ks : list string) : bool :=
  match ks with
  | [] => true
  | k :: rest =>
      forallb (fun k' => match String.compare k' k with Gt => true | _ => false end) rest
      && ascending rest
  end.

(** The generic values that [json.Unmarshal] gives back as they were
    written: numbers are finite, strings and keys are valid UTF-8, and the
    keys of a map are in order. *)
Fixpoint plain (a : Any) : bool :=
  match a with
  | ANil | ABool _ => true
  | AFloat f => negb (PrimFloat.is_nan f || PrimFloat.is_infinity f)
  | AString s => validUTF8 s
  | ASlice l => forallb plain l
  | AMap m =>
      forallb (fun kv => validUTF8 (fst kv) && plain (snd kv)) m
      && ascending (List.map fst m)
  end.

(** The envelope of a bet, as the client sends it. *)
Definition betEnvelope : Message.t :=
  NewMessage noon MsgBetPlaced "lobby" "P1"
    (DataBet {| BetData.PlayerID := "P1"; BetData.Amount := 10%float;
                BetData.Choice := game.Heads; BetData.BetID := "bet_1" |}).

Section AnyInduction.
Variable P : Any → Prop.
Hypothesis HNil : P ANil.
Hypothesis HBool : ∀ b, P (ABool b).
Hypothesis HFloat : ∀ f, P (AFloat f).
Hypothesis HString : ∀ s, P (AString s).
Hypothesis HSlice : ∀ l, Forall P l → P (ASlice l).
Hypothesis HMap : ∀ m, Forall (fun kv => P (snd kv)) m → P (AMap m).

Fixpoint Any_nested_ind (a : Any) : P a :=
  match a with
  | ANil => HNil
  | ABool b => HBool b
  | AFloat f => HFloat f
  | AString s => HString s
  | ASlice l =>
      HSlice l
        ((fix go (l : list Any) : Forall P l :=
            match l with
            | [] => @List.Forall_nil _ P
            | x :: l' => @List.Forall_cons _ P x l' (Any_nested_ind x) (go l')
            end) l)
  | AMap m =>
      HMap m
        ((fix go (m : list (string * Any)) : Forall (fun kv => P (snd kv)) m :=
            match m with
            | [] => List.Forall_nil _
            | (k, x) :: m' =>
                @List.Forall_cons _ (fun kv => P (snd kv)) (k, x) m' (Any_nested_ind x) (go m')
            end) m)
  end.
End AnyInduction.

Lemma bind_after {A} k (v : A) m :
  forallb (fun kv => match String.compare k (fst kv) with Gt => true | _ => false end) m
  = true →
  bind k v m = m ++ [(k, v)].
Proof.
  induction m as [|[k' v'] m IH]; [done|]. cbn. intros H.
  apply andb_true_iff in H as [Hk H]. destruct (String.compare k k'); try done.
  by rewrite IH.
Qed.

Lemma bindAll_ascending_from {A} (l acc : list (string * A)) :
  ascending (List.map fst (acc ++ l)) = true →
  fold_left (fun m kv => bind (fst kv) (snd kv) m) l acc = acc ++ l.
Proof.
  revert acc. induction l as [|[k v] l IH]; intros acc H; cbn; [by rewrite app_nil_r|].
  rewrite bind_after.
  - rewrite IH; rewrite <- app_assoc; done.
  - clear IH. induction acc as [|[k0 v0] acc IHacc]; [done|].
    cbn in H. apply andb_true_iff in H as [H0 H1].
    cbn. rewrite IHacc by done. rewrite andb_true_r.
    rewrite List.map_app, forallb_app in H0. apply andb_true_iff in H0 as [_ H0].
    cbn in H0. by destruct (String.compare k k0).
Qed.

Lemma bindAll_ascending {A} (l : list (string * A)) :
  ascending (List.map fst l) = true → bindAll l = l.
Proof. intros H. unfold bindAll. by rewrite (bindAll_ascending_from l []). Qed.

Lemma validUTF8_eq s : validUTF8 s = true → coerceUTF8 s = s.
Proof. unfold validUTF8. apply String.eqb_eq. Qed.

Section RoundTrip.
Variable Time_Format : Time → string.
Variable Time_Parse : string → option Time.

(** A plain value is written without error and read back as it was. *)
Lemma plain_round_trip a :
  plain a = true →
  ∃ j, marshalAny a = Some j ∧ unmarshalAny Time_Format j = a.
Proof.
  induction a as [| b | f | s | l IH | m IH] using Any_nested_ind; intros Hp.
  - by exists JNull.
  - by exists (JBool b).
  - exists (JNumber (NumFloat f)). cbn [plain] in Hp. cbn [marshalAny unmarshalAny].
    unfold marshalFloat. apply negb_true_iff in Hp. by rewrite Hp.
  - exists (JString s). cbn [plain] in Hp. cbn [marshalAny unmarshalAny].
    unfold marshalString. by rewrite (validUTF8_eq _ Hp).
  - assert (H : ∃ vs, sequence (List.map marshalAny l) = Some vs
                      ∧ List.map (unmarshalAny Time_Format) vs = l).
    { cbn [plain] in Hp. induction IH as [|a l Ha _ IHl]; [by exists []|].
      cbn in Hp. apply andb_true_iff in Hp as [Hpa Hpl].
      destruct (Ha Hpa) as (j & Hj & Hu). destruct (IHl Hpl) as (vs & Hvs & Hus).
      exists (j :: vs). cbn [List.map sequence]. rewrite Hj, Hvs, Hu, Hus. done. }
    destruct H as (vs & Hvs & Hus). exists (JArray vs).
    cbn [marshalAny]. rewrite Hvs. cbn [unmarshalAny]. by rewrite Hus.
  - cbn [plain] in Hp. apply andb_true_iff in Hp as [Hp Hasc].
    assert (H : ∃ vs, sequence (List.map (fun kv => marshalAny (snd kv)) m) = Some vs
                      ∧ List.map (fun kv => (fst kv, unmarshalAny Time_Format (snd kv)))
                          (zip (List.map (fun kv => coerceUTF8 (fst kv)) m) vs) = m).
    { clear Hasc. induction IH as [|[k a] m Ha _ IHm]; [by exists []|].
      cbn in Hp. apply andb_true_iff in Hp as [Hpa Hpm].
      apply andb_true_iff in Hpa as [Hk Hpa]. cbn in Ha.
      destruct (Ha Hpa) as (j & Hj & Hu). destruct (IHm Hpm) as (vs & Hvs & Hus).
      exists (j :: vs). cbn [List.map sequence fst snd]. rewrite Hj, Hvs.
      split; [done|]. cbn [zip_with List.map fst snd].
      rewrite Hus, Hu, (validUTF8_eq _ Hk). done. }
    destruct H as (vs & Hvs & Hus). eexists. cbn [marshalAny]. rewrite Hvs.
    split; [reflexivity|]. cbn [unmarshalAny]. rewrite Hus.
    by rewrite bindAll_ascending.
Qed.

(** What [FromJSON] makes of an object with the five members of an envelope,
    in the order [ToJSON] writes them. *)
Lemma FromJSON_envelope (ty room player : string) (t : Time) (p : JSON) :
  FromJSON Time_Format Time_Parse
    (JObject [("type", JString ty); ("room_id", JString room);
              ("player_id", JString player); ("timestamp", JTime t); ("data", p)])
  = (Message.mk ty room player t (DataAny (unmarshalAny Time_Format p)), None).
Proof. reflexivity. Qed.

Lemma ToJSON_Some m j :
  ToJSON m = Some j →
  ∃ p, marshalPayload (Message.Data m) = Some p
       ∧ j = JObject [("type", JString (coerceUTF8 (Message.Type_ m)));
                      ("room_id", JString (coerceUTF8 (Message.RoomID m)));
                      ("player_id", JString (coerceUTF8 (Message.PlayerID m)));
                      ("timestamp", JTime (Message.Timestamp m)); ("data", p)].
Proof.
  unfold ToJSON, marshalStruct, marshalTime, marshalString.
  cbn [List.map snd fst sequence].
  destruct (_ && _); [|done].
  destruct (marshalPayload (Message.Data m)) as [p|]; [|done].
  cbn. intros [= <-]. by exists p.
Qed.

(** C8, amended: an envelope that [ToJSON] writes is read back by [FromJSON]
    without error, with its timestamp, with its kind, room id and player id
    as the encoder left them (invalid UTF-8 replaced), and with the payload
    in the generic form of what was written; the envelope read is the one
    written when the three strings are valid UTF-8 and the payload is a
    plain generic value. *)
Theorem ToJSON_FromJSON (m : Message.t) (j : JSON) :
  ToJSON m = Some j →
  ∃ p,
    marshalPayload (Message.Data m) = Some p
    ∧ FromJSON Time_Format Time_Parse j
      = (Message.mk (coerceUTF8 (Message.Type_ m)) (coerceUTF8 (Message.RoomID m))
           (coerceUTF8 (Message.PlayerID m)) (Message.Timestamp m)
           (DataAny (unmarshalAny Time_Format p)), None)
    ∧ (validUTF8 (Message.Type_ m) = true → validUTF8 (Message.RoomID m) = true →
       validUTF8 (Message.PlayerID m) = true →
       ∀ a, Message.Data m = DataAny a → plain a = true →
       FromJSON Time_Format Time_Parse j = (m, None)).
Proof.
  intros Hj. destruct (ToJSON_Some m j Hj) as (p & Hp & ->). exists p.
  split; [exact Hp|]. split; [apply FromJSON_envelope|].
  intros Hty Hroom Hplayer a Ha Hplain. rewrite FromJSON_envelope.
  rewrite (validUTF8_eq _ Hty), (validUTF8_eq _ Hroom), (validUTF8_eq _ Hplayer).
  destruct (plain_round_trip a Hplain) as (j' & Hj' & Hu).
  rewrite Ha in Hp. cbn [marshalPayload] in Hp. rewrite Hj' in Hp.
  injection Hp as <-. rewrite Hu. destruct m as [ty room player t d].
  cbn in Ha. by subst d.
Qed.

End RoundTrip.

(** C8, as claimed, fails: the envelope of a bet is written and read back
    without error under any reading of times, but the envelope read holds a
    generic map where the one written held a [BetData]. *)
Lemma round_trip_payload_counterexample :
  ∃ j m',
    ToJSON betEnvelope = Some j
    ∧ (∀ Time_Format Time_Parse, FromJSON Time_Format Time_Parse j = (m', None))
    ∧ Message.Data m'
      = DataAny (AMap [("amount", AFloat 10%float); ("bet_id", AString "bet_1");
                       ("choice", AString "heads"); ("player_id", AString "P1")])
    ∧ m' ≠ betEnvelope.
Proof.
  eexists _, _. split; [vm_compute; reflexivity|].
  split; [intros fmt parse; vm_compute; reflexivity|].
  split; [reflexivity|]. discriminate.
Qed.

(** The witness of [ToJSON_FromJSON]: the event of the relay example, whose
    payload is a string, is read back as it was written. *)
Lemma ToJSON_FromJSON_witness :
  ∃ j,
    ToJSON exampleEvent = Some j
    ∧ FromJSON (fun _ => "") (fun _ => None) j = (exampleEvent, None).
Proof.
  eexists. split; [vm_compute; reflexivity|].
  destruct (ToJSON_FromJSON (fun _ => "") (fun _ => None) exampleEvent _
              ltac:(vm_compute; reflexivity)) as (p & _ & _ & H).
  apply (H ltac:(vm_compute; reflexivity) ltac:(vm_compute; reflexivity)
           ltac:(vm_compute; reflexivity) (AString "round_lobby_1")); reflexivity.
Defined.

(** * Further properties of the room *)

(** ** The result timer and the phases *)

Definition isResultTask (t : Task) : bool :=
  match t with AfterResultDuration _ => true | _ => false end.

(** The result timers that have not fired yet. *)
Definition resultTasks (r : GameRoom) : list Task := List.filter isResultTask (spawned r).

(** A result timer is waiting only in the result phase, and then only one. *)
Definition result_task_ok (r : GameRoom) : Prop :=
  (List.length (resultTasks r) ≤ 1)%nat
  ∧ (gameState r ≠ StateResult → resultTasks r = []).

(** The steps between phases that the room takes. *)
Definition phaseStep (s s' : GameState) : bool :=
  match s, s' with
  | StateWaiting, (StateWaiting | StateBetting) => true
  | StateBetting, (StateBetting | StatePaused | StateWaiting | StateResult) => true
  | StateResult, (StateResult | StateWaiting) => true
  | StatePaused, StatePaused => true
  | _, _ => false
  end.

Lemma resultTasks_same r r' : spawned r' = spawned r → resultTasks r' = resultTasks r.
Proof. unfold resultTasks. by intros ->. Qed.

Lemma resultTasks_more r r' t :
  spawned r' = spawned r ++ [t] →
  resultTasks r' = resultTasks r ++ (if isResultTask t then [t] else []).
Proof. unfold resultTasks. intros ->. rewrite List.filter_app. cbn. by destruct (isResultTask t). Qed.

Lemma filter_delete_other (l : list Task) i t :
  l !! i = Some t → isResultTask t = false →
  List.filter isResultTask (delete i l) = List.filter isResultTask l.
Proof.
  revert i. induction l as [|x l IH]; intros [|i]; try done.
  - cbn. by intros [= ->] ->.
  - intros Hl Ht. change (delete (S i) (x :: l)) with (x :: delete i l).
    cbn [List.filter]. by rewrite (IH i).
Qed.

Lemma filter_delete_one (l : list Task) i t :
  l !! i = Some t → isResultTask t = true →
  S (List.length (List.filter isResultTask (delete i l)))
  = List.length (List.filter isResultTask l).
Proof.
  revert i. induction l as [|x l IH]; intros [|i]; try done.
  - cbn. by intros [= ->] ->.
  - intros Hl Ht. change (delete (S i) (x :: l)) with (x :: delete i l).
    cbn [List.filter]. destruct (isResultTask x); cbn [List.length]; by rewrite <- (IH i).
Qed.

Lemma spawned_checkAndStartGame r :
  spawned (checkAndStartGame r)
  = spawned r
    ++ (if (len_players r >=? RoomConfig.MinPlayers (config r))
           && GameState_eqb (gameState r) StateWaiting
        then [GoStartGame] else []).
Proof.
  unfold checkAndStartGame. destruct (_ && _); fields; [done|by rewrite app_nil_r].
Qed.

Lemma spawned_admitPlayer now playerID playerName balance r :
  resultTasks (admitPlayer now playerID playerName balance r) = resultTasks r.
Proof.
  unfold admitPlayer, resultTasks. cbv zeta. rewrite spawned_checkAndStartGame.
  rewrite List.filter_app. fields. destruct (_ && _); cbn; by rewrite app_nil_r.
Qed.

Lemma gameState_AddPlayer now playerID playerName balance r :
  gameState (AddPlayer now playerID playerName balance r).1 = gameState r.
Proof.
  destruct (len_players r >=? RoomConfig.MaxPlayers (config r)) eqn:Hlen.
  { by rewrite AddPlayer_full. }
  rewrite AddPlayer_admitted by done. cbn [fst].
  by destruct (admitPlayer_fields now playerID playerName balance r) as (_ & _ & -> & _).
Qed.

Lemma resultTasks_AddPlayer now playerID playerName balance r :
  resultTasks (AddPlayer now playerID playerName balance r).1 = resultTasks r.
Proof.
  destruct (len_players r >=? RoomConfig.MaxPlayers (config r)) eqn:Hlen.
  { by rewrite AddPlayer_full. }
  rewrite AddPlayer_admitted by done. cbn [fst]. apply spawned_admitPlayer.
Qed.

Lemma RemovePlayer_phase now playerID r :
  spawned (RemovePlayer now playerID r).1 = spawned r
  ∧ (gameState (RemovePlayer now playerID r).1 = gameState r
     ∨ (gameState r = StateBetting
        ∧ gameState (RemovePlayer now playerID r).1 = StatePaused)).
Proof.
  destruct (players r !! playerID) as [player|] eqn:Hpl.
  2:{ rewrite RemovePlayer_absent by done. split; [done|by left]. }
  rewrite (RemovePlayer_present _ _ player) by done. cbn [fst].
  destruct (leave_fields now playerID player r Hpl) as (_ & _ & Hg & _ & _ & Hs).
  split; [done|]. rewrite Hg. unfold pausesOnLeave.
  destruct (_ && _) eqn:Hp; [|by left].
  right. apply andb_true_iff in Hp as [_ Hb%GameState_eqb_eq]. done.
Qed.

Lemma PlaceBet_phase now playerID amount choice r :
  spawned (PlaceBet now playerID amount choice r).1 = spawned r
  ∧ gameState (PlaceBet now playerID amount choice r).1 = gameState r.
Proof.
  destruct (PlaceBet_cases now playerID amount choice r) as [[e ->]|(player & rd & Hacc)];
    [done|].
  rewrite (PlaceBet_accepted _ _ _ _ _ _ _ Hacc). cbn [fst].
  by destruct (recordBet_fields now playerID amount choice player rd r)
    as (_ & _ & -> & _ & _ & ->).
Qed.

Lemma StartGame_phase now r :
  resultTasks (StartGame now r).1 = resultTasks r
  ∧ (gameState (StartGame now r).1 = gameState r
     ∨ (gameState r = StateWaiting ∧ gameState (StartGame now r).1 = StateBetting)).
Proof.
  destruct (StartGame_cases now r) as [[e ->]|(_ & Hs & ->)]; [split; [done|by left]|].
  cbn [fst]. destruct (beginRound_fields now r) as (_ & _ & Hg & _ & _ & Hsp).
  split; [|by right]. rewrite (resultTasks_more _ _ _ Hsp). cbn. by rewrite app_nil_r.
Qed.

Section Phases.

Variable Sum256 : list Byte.byte → list Byte.byte.

Lemma timerFires_phase now seedBytes r r' :
  consistent r →
  endBettingPhase Sum256 now seedBytes (set_timer (Some TimerFired) r) = Some r' →
  (gameState r ≠ StateBetting ∧ gameState r' = gameState r ∧ spawned r' = spawned r)
  ∨ (gameState r = StateBetting ∧ gameState r' = StateWaiting ∧ spawned r' = spawned r)
  ∨ (gameState r = StateBetting ∧ gameState r' = StateResult
     ∧ spawned r'
       = spawned r ++ [AfterResultDuration (RoomConfig.ResultDuration (config r))]).
Proof.
  intros Hc Hend. set (r0 := set_timer (Some TimerFired) r) in *.
  assert (Hg0 : gameState r0 = gameState r) by apply gameState_set_timer.
  assert (Hr0 : currentRound r0 = currentRound r) by apply currentRound_set_timer.
  assert (Hp0 : players r0 = players r) by apply players_set_timer.
  assert (Hs0 : spawned r0 = spawned r) by apply spawned_set_timer.
  assert (Hc0 : config r0 = config r) by apply config_set_timer.
  destruct (decide (gameState r = StateBetting)) as [Hs|Hs].
  - right. destruct (currentRound r) as [rd|] eqn:Hrd.
    2:{ unfold_consistent. destruct Hc as (H1 & _). apply H1 in Hrd. congruence. }
    destruct (endBettingPhase_betting Sum256 now seedBytes r0 rd)
      as [(_ & Heq)|(_ & ps & results & _ & Heq & _)].
    { congruence. }
    { congruence. }
    { intros k Hk. rewrite Hp0. unfold_consistent. destruct Hc as (_ & H2 & _). eauto. }
    + rewrite Heq in Hend. injection Hend as <-. left.
      destruct (abandonRound_fields now (enterRevealing r0)) as (_ & _ & -> & _ & _ & ->).
      destruct (enterRevealing_fields r0) as (_ & _ & _ & _ & _ & ->). done.
    + rewrite Heq in Hend. injection Hend as <-. right.
      match goal with |- _ ∧ gameState (announceResult now ?rdR ?rr) = _ ∧ _ =>
        destruct (announceResult_fields now rdR rr) as (_ & _ & Hg & _ & _ & Hsp) end.
      rewrite Hg, Hsp. fields.
      destruct (enterRevealing_fields r0) as (_ & _ & _ & _ & -> & ->).
      rewrite Hs0, Hc0. done.
  - left. rewrite endBettingPhase_idle in Hend by congruence. injection Hend as <-. done.
Qed.

Lemma result_task_ok_exec now ev r r' :
  consistent r → result_task_ok r → exec Sum256 now ev r = Some r' →
  result_task_ok r' ∧ phaseStep (gameState r) (gameState r') = true.
Proof.
  intros Hc [Hle Hnone] Hexec.
  assert (Hrev : gameState r ≠ StateRevealing) by (unfold_consistent; tauto).
  assert (Hself : phaseStep (gameState r) (gameState r) = true)
    by (destruct (gameState r); done).
  unfold result_task_ok.
  destruct ev; cbn [exec] in Hexec.
  - injection Hexec as <-. rewrite resultTasks_AddPlayer, gameState_AddPlayer. done.
  - injection Hexec as <-.
    destruct (RemovePlayer_phase now playerID r) as (Hs & [Hg|[Hb Hg]]);
      rewrite (resultTasks_same _ _ Hs), Hg; [done|].
    rewrite Hb. split; [|done]. split; [done|]. intros _. apply Hnone. congruence.
  - injection Hexec as <-.
    destruct (PlaceBet_phase now playerID amount choice r) as (Hs & Hg).
    rewrite (resultTasks_same _ _ Hs), Hg. done.
  - injection Hexec as <-.
    destruct (StartGame_phase now r) as (Hs & [Hg|[Hb Hg]]); rewrite Hs, Hg; [done|].
    rewrite Hb. split; [|done]. split; [done|]. intros _. apply Hnone. congruence.
  - destruct (timer r) as [[]|]; try done.
    destruct (timerFires_phase now seedBytes r r' Hc Hexec)
      as [(Hb & Hg & Hs)|[(Hb & Hg & Hs)|(Hb & Hg & Hs)]].
    + rewrite (resultTasks_same _ _ Hs), Hg. done.
    + rewrite (resultTasks_same _ _ Hs), Hg, Hb. split; [|done]. split; [done|].
      intros _. apply Hnone. congruence.
    + rewrite (resultTasks_more _ _ _ Hs), Hg, Hb. cbn [isResultTask].
      rewrite Hnone by congruence. done.
  - destruct (spawned r !! i) as [t|] eqn:Ht; [|done]. injection Hexec as <-.
    set (r0 := set_spawned (delete i (spawned r)) r).
    assert (Hg0 : gameState r0 = gameState r) by apply gameState_set_spawned.
    assert (Hs0 : spawned r0 = delete i (spawned r)) by apply spawned_set_spawned.
    destruct (isResultTask t) eqn:Hres.
    + (* the result timer fires *)
      destruct t; try done. cbn [runTask].
      assert (Hone : resultTasks r0 = []).
      { unfold resultTasks. rewrite Hs0.
        pose proof (filter_delete_one _ _ _ Ht Hres) as H. fold (resultTasks r) in H.
        apply length_zero_iff_nil. lia. }
      assert (Hstate : gameState r = StateResult).
      { destruct (decide (gameState r = StateResult)) as [|Hne]; [done|].
        pose proof (filter_delete_one _ _ _ Ht Hres) as H. fold (resultTasks r) in H.
        rewrite (Hnone Hne) in H. done. }
      destruct (resultTimerFunc_fields now r0) as (_ & _ & Hg & _ & _ & Hsp).
      rewrite Hg, Hstate. split; [|done].
      assert (Hrt : resultTasks (resultTimerFunc now r0) = []).
      { unfold resultTasks. rewrite Hsp.
        destruct (_ >=? _); rewrite ?List.filter_app; fold (resultTasks r0);
          rewrite Hone; done. }
      rewrite Hrt. split; [cbn; lia|done].
    + assert (Hsame : resultTasks r0 = resultTasks r).
      { unfold resultTasks. rewrite Hs0. by apply (filter_delete_other _ _ t). }
      destruct t; try done; cbn [runTask].
      * destruct (StartGame_phase now r0) as (Hs & [Hg|[Hb Hg]]);
          rewrite Hs, Hg, Hsame, ?Hg0; [done|].
        rewrite Hg0 in Hb. rewrite Hb. split; [|done]. split; [done|].
        intros _. apply Hnone. congruence.
      * destruct (broadcastTimerTick_fields now r0) as (_ & _ & Hg & _ & _ & Hs).
        destruct (broadcastTimerTick now r0) as [r1 continue]. cbn [fst] in *.
        destruct continue.
        -- rewrite (resultTasks_more r1 _ GoBroadcastTimer) by apply spawned_spawn.
           rewrite (resultTasks_same _ _ Hs), Hsame. fields. rewrite Hg, Hg0.
           cbn [isResultTask]. rewrite app_nil_r. done.
        -- rewrite (resultTasks_same _ _ Hs), Hsame, Hg, Hg0. done.
      * destruct (StartGame_phase now r0) as (Hs & [Hg|[Hb Hg]]);
          rewrite Hs, Hg, Hsame, ?Hg0; [done|].
        rewrite Hg0 in Hb. rewrite Hb. split; [|done]. split; [done|].
        intros _. apply Hnone. congruence.
  - destruct (eventChan r) as [|m q]; [done|]. injection Hexec as <-.
    rewrite (resultTasks_same r (set_eventChan q r)) by (by fields). fields. done.
Qed.

(** ** The size of the roster *)

Lemma exec_roster now ev r r' :
  consistent r → exec Sum256 now ev r = Some r' →
  config r' = config r
  ∧ (len_players r' ≤ len_players r
     ∨ (len_players r < RoomConfig.MaxPlayers (config r)
        ∧ len_players r' ≤ len_players r + 1)).
Proof.
  intros Hc Hexec. destruct ev; cbn [exec] in Hexec.
  - injection Hexec as <-.
    destruct (len_players r >=? RoomConfig.MaxPlayers (config r)) eqn:Hlen.
    { rewrite AddPlayer_full by done. split; [done|]. left. cbn. lia. }
    rewrite AddPlayer_admitted by done. cbn [fst].
    destruct (admitPlayer_fields now playerID playerName balance r) as (Hp & _ & _ & _ & Hcfg).
    rewrite Z.geb_leb in Hlen. apply Z.leb_gt in Hlen.
    split; [done|]. right. split; [lia|]. unfold len_players. rewrite Hp.
    pose proof (map_size_insert playerID (newRoomPlayer now playerID playerName balance)
                  (players r)) as Hsz.
    destruct (players r !! playerID); cbn in Hsz; lia.
  - injection Hexec as <-.
    destruct (players r !! playerID) as [player|] eqn:Hpl.
    2:{ rewrite RemovePlayer_absent by done. split; [done|]. left. cbn. lia. }
    rewrite (RemovePlayer_present _ _ player) by done. cbn [fst].
    destruct (leave_fields now playerID player r Hpl) as (Hp & _ & _ & _ & Hcfg & _).
    split; [done|]. left. unfold len_players. rewrite Hp.
    pose proof (map_size_delete playerID (players r)) as Hsz. rewrite Hpl in Hsz.
    cbn in Hsz. lia.
  - injection Hexec as <-.
    destruct (PlaceBet_cases now playerID amount choice r) as [[e ->]|(player & rd & Hacc)].
    { split; [done|]. left. cbn. lia. }
    rewrite (PlaceBet_accepted _ _ _ _ _ _ _ Hacc). cbn [fst].
    destruct (recordBet_fields now playerID amount choice player rd r)
      as (Hp & _ & _ & _ & Hcfg & _).
    split; [done|]. left. unfold len_players. rewrite Hp.
    destruct Hacc as (_ & Hpl & _).
    rewrite map_size_insert, Hpl. cbn. lia.
  - injection Hexec as <-.
    destruct (StartGame_cases now r) as [[e ->]|(_ & _ & ->)].
    { split; [done|]. left. cbn. lia. }
    cbn [fst]. destruct (beginRound_fields now r) as (Hp & _ & _ & _ & Hcfg & _).
    split; [done|]. left. by rewrite (len_players_eq _ _ Hp).
  - destruct (timer r) as [[]|]; try done.
    set (r0 := set_timer (Some TimerFired) r) in *.
    assert (Hg0 : gameState r0 = gameState r) by apply gameState_set_timer.
    assert (Hr0 : currentRound r0 = currentRound r) by apply currentRound_set_timer.
    assert (Hp0 : players r0 = players r) by apply players_set_timer.
    assert (Hc0 : config r0 = config r) by apply config_set_timer.
    destruct (decide (gameState r = StateBetting)) as [Hs|Hs].
    + destruct (currentRound r) as [rd|] eqn:Hrd.
      2:{ unfold_consistent. destruct Hc as (H1 & _). apply H1 in Hrd. congruence. }
      destruct (endBettingPhase_betting Sum256 now seedBytes r0 rd)
        as [(_ & Heq)|(_ & ps & results & _ & Heq & Hps & _)].
      { congruence. }
      { congruence. }
      { intros k Hk. rewrite Hp0. unfold_consistent. destruct Hc as (_ & H2 & _). eauto. }
      * rewrite Heq in Hexec. injection Hexec as <-.
        destruct (abandonRound_fields now (enterRevealing r0)) as (Hp & _ & _ & _ & Hcfg & _).
        destruct (enterRevealing_fields r0) as (Hp' & _ & _ & _ & Hcfg' & _).
        split; [congruence|]. left.
        rewrite (len_players_eq r (abandonRound now (enterRevealing r0))) by congruence. lia.
      * rewrite Heq in Hexec. injection Hexec as <-.
        match goal with |- config (announceResult now ?rdR ?rr) = _ ∧ _ =>
          destruct (announceResult_fields now rdR rr) as (Hp & _ & _ & _ & Hcfg & _) end.
        revert Hp Hcfg. fields. intros Hp Hcfg.
        destruct (enterRevealing_fields r0) as (_ & _ & _ & _ & Hcfg' & _).
        split; [congruence|]. left. unfold len_players. rewrite Hp.
        assert (Hdom : dom ps = dom (players r)).
        { apply set_eq. intros k. rewrite !elem_of_dom, Hps, Hp0.
          destruct (GameRound.Bets rd !! k); [|done]. by rewrite fmap_is_Some. }
        rewrite <- !size_dom, Hdom. lia.
    + rewrite endBettingPhase_idle in Hexec by congruence. injection Hexec as <-.
      split; [done|]. left. rewrite (len_players_eq _ _ Hp0). lia.
  - destruct (spawned r !! i) as [t|] eqn:Ht; [|done]. injection Hexec as <-.
    set (r0 := set_spawned (delete i (spawned r)) r).
    assert (Hp0 : players r0 = players r) by apply players_set_spawned.
    assert (Hc0 : config r0 = config r) by apply config_set_spawned.
    assert (Hgoal : config (runTask now t r0) = config r0
                    ∧ players (runTask now t r0) = players r0).
    { destruct t; cbn [runTask].
      - destruct (StartGame_cases now r0) as [[e ->]|(_ & _ & ->)]; [done|]. cbn [fst].
        by destruct (beginRound_fields now r0) as (-> & _ & _ & _ & -> & _).
      - destruct (broadcastTimerTick_fields now r0) as (Hp & _ & _ & _ & Hcfg & _).
        destruct (broadcastTimerTick now r0) as [r1 continue]. cbn [fst] in *.
        destruct continue; fields; done.
      - by destruct (resultTimerFunc_fields now r0) as (-> & _ & _ & _ & -> & _).
      - destruct (StartGame_cases now r0) as [[e ->]|(_ & _ & ->)]; [done|]. cbn [fst].
        by destruct (beginRound_fields now r0) as (-> & _ & _ & _ & -> & _). }
    destruct Hgoal as [Hcfg Hp]. split; [congruence|]. left.
    rewrite (len_players_eq r (runTask now t r0)) by congruence. lia.
  - destruct (eventChan r) as [|m q]; [done|]. injection Hexec as <-.
    split; [by fields|]. left.
    rewrite (len_players_eq r (set_eventChan q r)) by (by fields). lia.
Qed.

Lemma reachable_result_task_ok r : reachable Sum256 r → result_task_ok r.
Proof.
  induction 1 as [now id name cfg|now ev r r' Hr IH Hexec].
  - split; [cbn; lia|done].
  - by apply (result_task_ok_exec now ev r r' (reachable_consistent Sum256 r Hr) IH).
Qed.

End Phases.

(** ** The coin *)

Lemma BigEndian_Uint64_last bs b :
  BigEndian_Uint64 (bs ++ [b]) mod 2 = Z.of_N (Byte.to_N b) mod 2.
Proof.
  unfold BigEndian_Uint64. rewrite fold_left_app. cbn [fold_left].
  replace (fold_left (λ acc b0, acc * 256 + Z.of_N (Byte.to_N b0)) bs 0 * 256)
    with ((fold_left (λ acc b0, acc * 256 + Z.of_N (Byte.to_N b0)) bs 0 * 128) * 2) by lia.
  rewrite Z.add_comm. apply Z.mod_add. done.
Qed.

Lemma take_8_of_32 (hash : list Byte.byte) :
  List.length hash = 32%nat →
  ∃ front b, take 8 hash = front ++ [b] ∧ hash !! 7%nat = Some b.
Proof.
  intros Hlen. do 8 (destruct hash as [|? hash]; [done|]).
  eexists [_; _; _; _; _; _; _], _. done.
Qed.

Lemma hex_EncodeToString_nonempty bs : bs ≠ [] → hex_EncodeToString bs ≠ "".
Proof. by destruct bs. Qed.

Section Coin.

Variable Sum256 : list Byte.byte → list Byte.byte.
Hypothesis Sum256_size : ∀ bs, List.length (Sum256 bs) = 32%nat.

(** X1. [FlipCoin] refuses the empty seed; for any other seed the side is
    decided by the eighth byte of the digest of the seed alone: heads when
    that byte is even, tails when it is odd. *)
Theorem FlipCoin_spec (seed : string) :
  (seed = "" → FlipCoin Sum256 seed = ("", Some (ErrorsNew "seed cannot be empty")))
  ∧ (seed ≠ "" →
     ∃ b, Sum256 (list_byte_of_string seed) !! 7%nat = Some b
          ∧ FlipCoin Sum256 seed
            = (if Z.even (Z.of_N (Byte.to_N b)) then game.Heads else game.Tails, None)).
Proof.
  split.
  - by intros ->.
  - intros Hne. unfold FlipCoin. apply String.eqb_neq in Hne. rewrite Hne.
    destruct (take_8_of_32 _ (Sum256_size (list_byte_of_string seed)))
      as (front & b & Htake & Hb).
    exists b. split; [done|]. cbv zeta. rewrite Htake, BigEndian_Uint64_last.
    rewrite Zmod_even. by destruct (Z.even _).
Qed.

Lemma drawnCoin_side seedBytes :
  drawnCoin Sum256 seedBytes = game.Heads ∨ drawnCoin Sum256 seedBytes = game.Tails.
Proof.
  unfold drawnCoin, drawnSeed.
  destruct (FlipCoin_spec (hex_EncodeToString (Sum256 seedBytes))) as [_ H].
  destruct H as (b & _ & ->).
  - apply hex_EncodeToString_nonempty. pose proof (Sum256_size seedBytes).
    by destruct (Sum256 seedBytes).
  - destruct (Z.even _); [by left|by right].
Qed.

(** X2. A bet on a side that is neither heads nor tails, which [PlaceBet]
    does not refuse, loses whatever the coin shows: when the betting timer
    fires the bet is recorded as lost with no payout and the balance stays
    where the bet left it. *)
Theorem invalid_choice_loses now seedBytes r rd k bet :
  reachable Sum256 r → gameState r = StateBetting → currentRound r = Some rd →
  GameRound.Bets rd !! k = Some bet → game.IsValid (BetData.Choice bet) = false →
  ∃ r' rd' p res,
    exec Sum256 now (BettingTimerFires seedBytes) r = Some r'
    ∧ currentRound r' = Some rd'
    ∧ players r !! k = Some p
    ∧ GameRound.Results rd' !! k = Some res
    ∧ PlayerResult.Won res = false
    ∧ PlayerResult.Payout res = 0%float
    ∧ RoomPlayer.Balance <$> players r' !! k = Some (RoomPlayer.Balance p).
Proof.
  intros Hreach Hs Hrd Hbet Hinvalid.
  assert (Hsz : size (GameRound.Bets rd) ≠ 0%nat).
  { intros Hz. apply map_size_empty_iff in Hz. by rewrite Hz in Hbet. }
  destruct (timerFires_with_bets Sum256 now seedBytes r rd Hreach Hs Hrd Hsz)
    as (ps & results & _ & Hexec & Hps & Hres).
  pose proof (reachable_consistent Sum256 r Hreach) as (_ & H2 & _).
  destruct (H2 rd k Hrd (mk_is_Some _ _ Hbet)) as [p Hp].
  assert (Hlost : betWon (drawnCoin Sum256 seedBytes) bet = false).
  { unfold betWon. unfold game.IsValid in Hinvalid.
    apply orb_false_iff in Hinvalid as [Hh Ht].
    destruct (drawnCoin_side seedBytes) as [-> | ->]; done. }
  eexists _, _, p, _. split; [exact Hexec|].
  match goal with |- currentRound (announceResult now ?rdR ?rr) = _ ∧ _ =>
    destruct (announceResult_fields now rdR rr) as (Hp' & Hr' & _) end.
  rewrite Hp', Hr'. fields.
  split; [reflexivity|]. split; [exact Hp|].
  change (GameRound.Results (resolvedRound Sum256 seedBytes results rd)) with results.
  rewrite Hres, Hps, Hbet, Hp. split; [reflexivity|].
  unfold playerResult, betPayout. cbn [PlayerResult.Won PlayerResult.Payout].
  rewrite Hlost. split; [done|]. split; [done|].
  cbn [fmap option_fmap option_map]. f_equal.
  rewrite Balance_settlePlayer. unfold betWon in Hlost. by rewrite Hlost.
Qed.

End Coin.

(** The stand-in digest of the examples has the size of a SHA-256 digest. *)
Lemma lastByteDigest_size bs : List.length (lastByteDigest bs) = 32%nat.
Proof. reflexivity. Qed.

Lemma FlipCoin_spec_witness :
  (∀ bs, List.length (lastByteDigest bs) = 32%nat)
  ∧ FlipCoin lastByteDigest "b" = (game.Heads, None)
  ∧ FlipCoin lastByteDigest "a" = (game.Tails, None).
Proof.
  split; [exact lastByteDigest_size|].
  destruct (FlipCoin_spec lastByteDigest lastByteDigest_size "b") as [_ Hb].
  destruct (FlipCoin_spec lastByteDigest lastByteDigest_size "a") as [_ Ha].
  destruct Hb as (b & Hb7 & ->); [done|].
  destruct Ha as (a & Ha7 & ->); [done|].
  vm_compute in Hb7, Ha7. injection Hb7 as <-. injection Ha7 as <-. done.
Defined.

Lemma reachable_roomWithOddBet : reachable lastByteDigest roomWithOddBet.
Proof.
  apply (run_reachable lastByteDigest oddBetPlaced freshRoom); [apply reachable_new|].
  vm_compute. reflexivity.
Qed.

Lemma reachable_pausedRoom : reachable lastByteDigest pausedRoom.
Proof.
  apply (run_reachable lastByteDigest leaveWhileBetting freshRoom); [apply reachable_new|].
  vm_compute. reflexivity.
Qed.

Lemma invalid_choice_loses_witness :
  ∃ r',
    exec lastByteDigest (noon + 62 * Second) (BettingTimerFires [Byte.x00]) roomWithOddBet
    = Some r'
    ∧ RoomPlayer.Balance <$> players r' !! "P1" = Some 90%float.
Proof.
  assert (∃ rd bet, currentRound roomWithOddBet = Some rd
                    ∧ GameRound.Bets rd !! "P1" = Some bet
                    ∧ game.IsValid (BetData.Choice bet) = false)
    as (rd & bet & Hrd & Hbet & Hinvalid).
  { eexists _, _. split; [reflexivity|]. split; [vm_compute; reflexivity|reflexivity]. }
  destruct (invalid_choice_loses lastByteDigest lastByteDigest_size (noon + 62 * Second)
              [Byte.x00] roomWithOddBet rd "P1" bet reachable_roomWithOddBet
              eq_refl Hrd Hbet Hinvalid)
    as (r' & rd' & p & res & Hexec & _ & Hp & _ & _ & _ & Hbal).
  exists r'. split; [exact Hexec|]. rewrite Hbal.
  vm_compute in Hp. injection Hp as <-. reflexivity.
Defined.

(** ** The phases *)

Section Steps.

Variable Sum256 : list Byte.byte → list Byte.byte.

(** X3. The steps between phases: whatever happens to a reachable room, it
    goes from waiting to betting only, from betting to paused, to waiting
    (no bets) or to result, from result to waiting only, and from paused
    nowhere; revealing is never where an operation leaves the room. *)
Theorem room_phase_steps now ev r r' :
  reachable Sum256 r → exec Sum256 now ev r = Some r' →
  phaseStep (gameState r) (gameState r') = true.
Proof.
  intros Hreach Hexec.
  by destruct (result_task_ok_exec Sum256 now ev r r'
                 (reachable_consistent Sum256 r Hreach)
                 (reachable_result_task_ok Sum256 r Hreach) Hexec).
Qed.

(** X4. A paused room stays paused: no run of events takes a reachable room
    out of the paused phase, in which [StartGame] and [PlaceBet] are
    refused. *)
Theorem paused_room_stays_paused evs r r' :
  reachable Sum256 r → gameState r = StatePaused → run Sum256 evs r = Some r' →
  gameState r' = StatePaused
  ∧ (∀ now, ∃ e, StartGame now r' = (r', Some e))
  ∧ (∀ now playerID amount choice,
       PlaceBet now playerID amount choice r' = (r', Some ErrInvalidGamePhase)).
Proof.
  intros Hreach Hs Hrun.
  assert (Hs' : gameState r' = StatePaused).
  { revert r Hreach Hs Hrun. induction evs as [|[now ev] evs IH]; intros r Hreach Hs.
    - cbn. by intros [= <-].
    - cbn [run]. destruct (exec Sum256 now ev r) as [r1|] eqn:Hexec; [|done].
      apply IH; [by eapply reachable_exec|].
      destruct (result_task_ok_exec Sum256 now ev r r1
                  (reachable_consistent Sum256 r Hreach)
                  (reachable_result_task_ok Sum256 r Hreach) Hexec) as [_ Hstep].
      rewrite Hs in Hstep. by destruct (gameState r1). }
  split; [done|]. split.
  - intros now. apply StartGame_refused. right. by rewrite Hs'.
  - intros now playerID amount choice. unfold PlaceBet. by rewrite Hs'.
Qed.

(** X5. The roster never outgrows the room: a reachable room holds at most
    [MaxPlayers] players, and its configuration is the one it was made
    with. *)
Theorem roster_within_capacity r :
  reachable Sum256 r → len_players r ≤ Z.max 0 (RoomConfig.MaxPlayers (config r)).
Proof.
  induction 1 as [now id name cfg|now ev r r' Hr IH Hexec].
  - unfold len_players. cbn. rewrite map_size_empty. lia.
  - destruct (exec_roster Sum256 now ev r r' (reachable_consistent Sum256 r Hr) Hexec)
      as (-> & [Hle|[Hlt Hle]]); lia.
Qed.

(** X6. No nil dereference: in a reachable room every event that can happen
    (a call, the pending betting timer firing, a waiting task running, the
    relay taking an event) runs to its end, and leaves a reachable room in
    which a betting phase has its round and its timer. *)
Theorem room_events_never_panic now ev r :
  reachable Sum256 r → enabled ev r = true →
  ∃ r', exec Sum256 now ev r = Some r'
        ∧ reachable Sum256 r'
        ∧ (gameState r' = StateBetting →
           is_Some (currentRound r') ∧ timer r' = Some TimerPending).
Proof.
  intros Hreach Hen. destruct (exec_enabled Sum256 now ev r Hreach Hen) as [r' Hexec].
  exists r'. split; [done|].
  assert (Hreach' : reachable Sum256 r') by by eapply reachable_exec.
  split; [done|]. intros Hs.
  pose proof (reachable_consistent Sum256 r' Hreach') as (H1 & _ & H3 & _).
  split; [|by apply H3].
  destruct (currentRound r') eqn:Hrd; [done|]. apply H1 in Hrd. congruence.
Qed.

End Steps.

Lemma room_phase_steps_witness :
  ∃ r', exec lastByteDigest (noon + 3 * Second) (CallRemovePlayer "P1") bettingRoom = Some r'
        ∧ gameState bettingRoom = StateBetting
        ∧ gameState r' = StatePaused
        ∧ phaseStep (gameState bettingRoom) (gameState r') = true.
Proof.
  assert (∃ r', exec lastByteDigest (noon + 3 * Second) (CallRemovePlayer "P1") bettingRoom
                = Some r' ∧ gameState r' = StatePaused) as (r' & Hexec & Hs).
  { eexists. split; vm_compute; reflexivity. }
  exists r'. split; [exact Hexec|]. split; [reflexivity|]. split; [exact Hs|].
  exact (room_phase_steps lastByteDigest (noon + 3 * Second) (CallRemovePlayer "P1")
           bettingRoom r' (reachable_bettingRoom lastByteDigest) Hexec).
Defined.

Lemma paused_room_stays_paused_witness :
  ∃ r',
    run lastByteDigest
      [(noon + 4 * Second, CallAddPlayer "P3" "Cid" 100%float);
       (noon + 5 * Second, CallStartGame)] pausedRoom = Some r'
    ∧ len_players r' = 2
    ∧ gameState r' = StatePaused.
Proof.
  assert (∃ r', run lastByteDigest
                  [(noon + 4 * Second, CallAddPlayer "P3" "Cid" 100%float);
                   (noon + 5 * Second, CallStartGame)] pausedRoom = Some r'
                ∧ len_players r' = 2) as (r' & Hrun & Hlen).
  { eexists. split; vm_compute; reflexivity. }
  exists r'. split; [exact Hrun|]. split; [exact Hlen|].
  apply (paused_room_stays_paused lastByteDigest _ pausedRoom r' reachable_pausedRoom
           eq_refl Hrun).
Defined.

Lemma roster_within_capacity_witness :
  len_players roomWithBets ≤ Z.max 0 (RoomConfig.MaxPlayers (config roomWithBets)).
Proof. apply (roster_within_capacity lastByteDigest), reachable_roomWithBets. Defined.

Lemma room_events_never_panic_witness :
  ∃ r', exec lastByteDigest (noon + 62 * Second) (BettingTimerFires [Byte.x01]) roomWithBets
        = Some r'
        ∧ reachable lastByteDigest r'.
Proof.
  assert (Hen : enabled (BettingTimerFires [Byte.x01]) roomWithBets = true)
    by (vm_compute; reflexivity).
  destruct (room_events_never_panic lastByteDigest (noon + 62 * Second)
              (BettingTimerFires [Byte.x01]) roomWithBets
              (reachable_roomWithBets lastByteDigest) Hen) as (r' & Hexec & Hreach & _).
  exists r'. split; [exact Hexec|exact Hreach].
Defined.

(** ** Starting a round *)

(** The two events of a round that starts. *)
Definition betPhaseEvent (now : Time) (r : GameRoom) : Message.t :=
  NewMessage now MsgBetPhase (room_id r) ""
    (DataTimer {| TimerData.Phase := StateBetting;
                  TimerData.SecondsLeft := bettingSeconds r;
                  TimerData.TotalSeconds := bettingSeconds r |}).

Definition gameStartEvent (now : Time) (r : GameRoom) : Message.t :=
  NewMessage now MsgGameStart (room_id r) "" (DataString (generateRoundID now r)).

Lemma totalRounds_broadcastMessage msg r :
  totalRounds (broadcastMessage msg r) = totalRounds r.
Proof. unfold broadcastMessage. by destruct (chan_offer _ _ _). Qed.

Lemma timerEnd_broadcastMessage msg r : timerEnd (broadcastMessage msg r) = timerEnd r.
Proof. unfold broadcastMessage. by destruct (chan_offer _ _ _). Qed.

Lemma totalRounds_log lvl msg r : totalRounds (log lvl msg r) = totalRounds r.
Proof. reflexivity. Qed.

Lemma totalRounds_spawn t r : totalRounds (spawn t r) = totalRounds r.
Proof. reflexivity. Qed.

Lemma totalRounds_set_timer v r : totalRounds (set_timer v r) = totalRounds r.
Proof. reflexivity. Qed.

Lemma totalRounds_set_timerEnd v r : totalRounds (set_timerEnd v r) = totalRounds r.
Proof. reflexivity. Qed.

Lemma totalRounds_set_totalRounds v r : totalRounds (set_totalRounds v r) = v.
Proof. reflexivity. Qed.

Lemma totalRounds_set_gameState v r : totalRounds (set_gameState v r) = totalRounds r.
Proof. reflexivity. Qed.

Lemma totalRounds_set_currentRound v r : totalRounds (set_currentRound v r) = totalRounds r.
Proof. reflexivity. Qed.

Lemma timerEnd_log lvl msg r : timerEnd (log lvl msg r) = timerEnd r.
Proof. reflexivity. Qed.

Lemma timerEnd_spawn t r : timerEnd (spawn t r) = timerEnd r.
Proof. reflexivity. Qed.

Lemma timerEnd_set_timer v r : timerEnd (set_timer v r) = timerEnd r.
Proof. reflexivity. Qed.

Lemma timerEnd_set_timerEnd v r : timerEnd (set_timerEnd v r) = v.
Proof. reflexivity. Qed.

(** An event offered to a queue with room is queued. *)
Lemma broadcastMessage_room msg r :
  (List.length (eventChan r) < eventChanCap)%nat →
  eventChan (broadcastMessage msg r) = eventChan r ++ [msg].
Proof.
  intros H. rewrite eventChan_broadcastMessage. apply Nat.ltb_lt in H. by rewrite H.
Qed.

Lemma beginRound_clock now r :
  totalRounds (beginRound now r) = wrap64 (totalRounds r + 1)
  ∧ timerEnd (beginRound now r) = Time_Add now (RoomConfig.BettingDuration (config r))
  ∧ ((List.length (eventChan r) + 2 ≤ eventChanCap)%nat →
     eventChan (beginRound now r)
     = eventChan r ++ [betPhaseEvent now r; gameStartEvent now r]).
Proof.
  unfold beginRound, startBettingPhase. cbv zeta. split_and!.
  - rewrite totalRounds_broadcastMessage, totalRounds_log, totalRounds_broadcastMessage,
      totalRounds_spawn, !totalRounds_set_timer, totalRounds_set_timerEnd,
      totalRounds_set_totalRounds, totalRounds_set_gameState, totalRounds_set_currentRound.
    reflexivity.
  - rewrite timerEnd_broadcastMessage, timerEnd_log, timerEnd_broadcastMessage,
      timerEnd_spawn, !timerEnd_set_timer, timerEnd_set_timerEnd. fields. reflexivity.
  - intros Hlen. unfold eventChanCap in Hlen.
    rewrite broadcastMessage_room; fields.
    + rewrite broadcastMessage_room; fields; [|unfold eventChanCap; lia].
      unfold betPhaseEvent, gameStartEvent, bettingSeconds. fields.
      rewrite <- app_assoc. reflexivity.
    + rewrite broadcastMessage_room; fields; [|unfold eventChanCap; lia].
      rewrite List.length_app. unfold eventChanCap. cbn [List.length]. lia.
Qed.

(** X7. [StartGame] is refused, the room left as it is, when the players are
    fewer than [MinPlayers] and otherwise when the phase is not waiting; it
    succeeds in every other case: a fresh round without bets is the current
    round, the phase is betting, the round counter is one up, the betting
    timer is armed to end [BettingDuration] from now, the ticker is started,
    the roster is untouched, and the events bet_phase and game_start are
    queued in this order when the queue has room for both. *)
Theorem StartGame_spec now r :
  ((len_players r <? RoomConfig.MinPlayers (config r)) = true →
   StartGame now r = (r, Some (ErrorsNew "not enough players to start game")))
  ∧ ((len_players r <? RoomConfig.MinPlayers (config r)) = false →
     gameState r ≠ StateWaiting →
     StartGame now r = (r, Some ErrInvalidGamePhase))
  ∧ ((len_players r <? RoomConfig.MinPlayers (config r)) = false →
     gameState r = StateWaiting →
     ∃ r', StartGame now r = (r', None)
           ∧ currentRound r' = Some (newGameRound now r)
           ∧ GameRound.Bets (newGameRound now r) = ∅
           ∧ gameState r' = StateBetting
           ∧ totalRounds r' = wrap64 (totalRounds r + 1)
           ∧ timer r' = Some TimerPending
           ∧ timerEnd r' = Time_Add now (RoomConfig.BettingDuration (config r))
           ∧ spawned r' = spawned r ++ [GoBroadcastTimer]
           ∧ players r' = players r
           ∧ ((List.length (eventChan r) + 2 ≤ eventChanCap)%nat →
              eventChan r' = eventChan r ++ [betPhaseEvent now r; gameStartEvent now r])).
Proof.
  split_and!.
  - intros Hlen. unfold StartGame. by rewrite Hlen.
  - intros Hlen Hs. unfold StartGame. rewrite Hlen.
    apply GameState_eqb_neq in Hs. by rewrite Hs.
  - intros Hlen Hs. exists (beginRound now r).
    split; [by apply StartGame_started|].
    destruct (beginRound_fields now r) as (Hp & Hr & Hg & Ht & _ & Hsp).
    destruct (beginRound_clock now r) as (Htr & Hte & Hev).
    split_and!; done.
Qed.

Lemma StartGame_spec_witness :
  ∃ r',
    StartGame (noon + 2 * Second) roomOfTwo = (r', None)
    ∧ gameState r' = StateBetting
    ∧ totalRounds r' = 1
    ∧ timerEnd r' = noon + 62 * Second.
Proof.
  destruct (StartGame_spec (noon + 2 * Second) roomOfTwo) as (_ & _ & H).
  destruct H as (r' & Hstart & _ & _ & Hg & Htr & _ & Hte & _); [reflexivity..|].
  exists r'. split; [exact Hstart|]. split; [exact Hg|]. split; [exact Htr|exact Hte].
Defined.

(** * Further properties of the remote client *)

Section ClientProperties.
Import NetworkClient.

(** The message [JoinRoom] sends. *)
Definition joinRequest (now : Time) (roomID : string) (balance : float)
    (c : NetworkClient.t) : Message.t :=
  NewMessage now MsgJoinRoom roomID (playerID c)
    (DataJoin {| RoomJoinData.PlayerName := playerName c;
                 RoomJoinData.Balance := balance |}).

(** The message [LeaveRoom] sends. *)
Definition leaveRequest (now : Time) (c : NetworkClient.t) : Message.t :=
  NewMessage now MsgLeaveRoom (currentRoom c) (playerID c) DataNil.

Lemma sendMessage_ok msg data c h :
  connected c = true → conn c = Some h → ToJSON msg = Some data →
  sendMessage msg true c = (act (Wrote data true) c, None).
Proof.
  intros Hc Hcn Hj. unfold sendMessage. rewrite Hc, Hcn, Hj.
  rewrite bool_decide_eq_true_2 by by eexists. done.
Qed.

Lemma JoinRoom_ok now roomID balance data c h :
  connected c = true → conn c = Some h →
  ToJSON (joinRequest now roomID balance c) = Some data →
  JoinRoom now true roomID balance c
  = (log LogInfo "Joining room" (set_currentRoom roomID (act (Wrote data true) c)), None).
Proof.
  intros Hc Hcn Hj. unfold JoinRoom. rewrite Hc. cbn [negb]. cbv zeta.
  fold (joinRequest now roomID balance c).
  by rewrite (sendMessage_ok _ data c h).
Qed.

Lemma LeaveRoom_ok now data c h :
  currentRoom c ≠ "" → connected c = true → conn c = Some h →
  ToJSON (leaveRequest now c) = Some data →
  LeaveRoom now true c
  = (log LogInfo "Left room" (set_currentRoom "" (act (Wrote data true) c)), None).
Proof.
  intros Hroom Hc Hcn Hj. unfold LeaveRoom. cbv zeta.
  apply String.eqb_neq in Hroom. rewrite Hroom, Hc. cbn [negb].
  fold (leaveRequest now c). by rewrite (sendMessage_ok _ data c h).
Qed.

(** X8. After a reconnection succeeds, the client that was in a room asks to
    join that room again, and asks with a balance of 1000 whatever its
    balance was: the attempt sleeps, dials, and writes exactly that join
    request; the client is connected, its counter is back at zero and it is
    still in its room. *)
Theorem reconnect_rejoins_with_1000 now h c data :
  connected c = false → 0 ≤ reconnectCount c < 2 ^ 63 - 1 → currentRoom c ≠ "" →
  ToJSON (joinRequest now (currentRoom c) 1000%float c) = Some data →
  let c' := attemptReconnect now (DialOK h) true c in
  connected c' = true
  ∧ conn c' = Some h
  ∧ reconnectCount c' = 0
  ∧ currentRoom c' = currentRoom c
  ∧ actions c' = actions c ++ [Slept (reconnectDelay c); Dialed true; Wrote data true].
Proof.
  intros Hconn Hcount Hroom Hj. cbv zeta. rewrite attemptReconnect_unfold.
  destruct (aboutToDial_fields c Hcount) as (Hc1 & Hn1 & Hm1 & Hd1 & Hr1 & Ha1 & Hs1 & He1).
  unfold Connect. rewrite Hc1, Hconn.
  set (c2 := established h (aboutToDial c)).
  assert (H2 : connected c2 = true ∧ conn c2 = Some h ∧ reconnectCount c2 = 0
               ∧ currentRoom c2 = currentRoom c ∧ playerID c2 = playerID c
               ∧ playerName c2 = playerName c
               ∧ actions c2 = actions c ++ [Slept (reconnectDelay c); Dialed true]).
  { subst c2. unfold established. cbv zeta.
    cbn [connected conn reconnectCount currentRoom playerID playerName actions
         log spawn set_reconnectCount set_connected set_conn act].
    rewrite Hr1, Ha1, <- app_assoc. split_and!; done. }
  destruct H2 as (Hc2 & Hcn2 & Hn2 & Hr2 & Hid2 & Hnm2 & Ha2).
  rewrite Hr2. apply String.eqb_neq in Hroom. rewrite Hroom. cbn [negb].
  assert (Hj2 : ToJSON (joinRequest now (currentRoom c) 1000%float c2) = Some data).
  { unfold joinRequest. rewrite Hid2, Hnm2. exact Hj. }
  rewrite (JoinRoom_ok now (currentRoom c) 1000%float data c2 h Hc2 Hcn2 Hj2).
  cbn [connected conn reconnectCount currentRoom actions log set_currentRoom act].
  rewrite Hc2, Hcn2, Hn2, Ha2, <- app_assoc. done.
Qed.

(** X9. A deliberate [Disconnect] does not switch reconnection off: when the
    read pump then ends and runs [handleDisconnect], as it does on every
    exit, a connection-lost error is offered to the error channel and, if
    the budget allows, a reconnection is scheduled. *)
Theorem Disconnect_still_reconnects c :
  connected c = true → noneScheduled c →
  0 < maxReconnects c → reconnectCount c < maxReconnects c →
  let c' := handleDisconnect (Disconnect c) in
  connected c' = false
  ∧ conn c' = None
  ∧ errorChan c' = errorChan (offerError connectionLost c)
  ∧ spawned c' = spawned c ++ [GoAttemptReconnect]
  ∧ takeReconnect (spawned c') = Some (spawned c).
Proof.
  intros Hconn Hnone Hmax Hcount. cbv zeta.
  set (c0 := Disconnect c).
  assert (H0 : reconnectCount c0 = reconnectCount c ∧ maxReconnects c0 = maxReconnects c
               ∧ errorChan c0 = errorChan c ∧ spawned c0 = spawned c).
  { subst c0. unfold Disconnect. rewrite Hconn. cbn [negb].
    destruct c as [[h0|] ? ? ? ? ? ? ? ? ? ? ? ? ?]; done. }
  destruct H0 as (Hn0 & Hm0 & He0 & Hs0).
  destruct (handleDisconnect_fields c0) as (Hc' & _ & _ & _ & Hcn' & _ & He' & Hs').
  rewrite Hn0, Hm0, Hs0 in Hs'.
  assert (Hgo : (maxReconnects c >? 0) && (reconnectCount c <? maxReconnects c) = true).
  { apply andb_true_iff. split; lia. }
  rewrite Hgo in Hs'. rewrite Hc', Hcn', He', Hs', !errorChan_offerError, He0.
  split_and!; try done. by apply takeReconnect_app_reconnect.
Qed.

(** X10. Joining and leaving undo each other: a connected client that joins
    a room and then leaves it has written the join request and then the
    leave request for that room, is in no room, and a further [LeaveRoom]
    does nothing and reports no error. *)
Theorem JoinRoom_then_LeaveRoom now1 now2 roomID balance c h data1 data2 :
  connected c = true → conn c = Some h → roomID ≠ "" →
  ToJSON (joinRequest now1 roomID balance c) = Some data1 →
  ToJSON (NewMessage now2 MsgLeaveRoom roomID (playerID c) DataNil) = Some data2 →
  ∃ c1 c2,
    JoinRoom now1 true roomID balance c = (c1, None)
    ∧ currentRoom c1 = roomID
    ∧ LeaveRoom now2 true c1 = (c2, None)
    ∧ currentRoom c2 = ""
    ∧ connected c2 = true
    ∧ actions c2 = actions c ++ [Wrote data1 true; Wrote data2 true]
    ∧ ∀ now3 writeOK, LeaveRoom now3 writeOK c2 = (c2, None).
Proof.
  intros Hc Hcn Hroom Hj1 Hj2.
  set (c1 := log LogInfo "Joining room" (set_currentRoom roomID (act (Wrote data1 true) c))).
  assert (H1 : connected c1 = true ∧ conn c1 = Some h ∧ currentRoom c1 = roomID
               ∧ playerID c1 = playerID c ∧ actions c1 = actions c ++ [Wrote data1 true]).
  { subst c1. cbn [connected conn currentRoom playerID actions log set_currentRoom act].
    done. }
  destruct H1 as (Hc1 & Hcn1 & Hr1 & Hid1 & Ha1).
  set (c2 := log LogInfo "Left room" (set_currentRoom "" (act (Wrote data2 true) c1))).
  assert (H2 : connected c2 = true ∧ currentRoom c2 = ""
               ∧ actions c2 = actions c1 ++ [Wrote data2 true]).
  { subst c2. cbn [connected currentRoom actions log set_currentRoom act].
    rewrite Hc1. done. }
  destruct H2 as (Hc2 & Hr2 & Ha2).
  exists c1, c2. split; [by apply (JoinRoom_ok _ _ _ _ _ h)|]. split; [exact Hr1|].
  split.
  { apply (LeaveRoom_ok now2 data2 c1 h); [by rewrite Hr1|done..|].
    unfold leaveRequest. rewrite Hr1, Hid1. exact Hj2. }
  split; [exact Hr2|]. split; [exact Hc2|].
  split; [by rewrite Ha2, Ha1, <- app_assoc|].
  intros now3 writeOK. unfold LeaveRoom. cbv zeta. by rewrite Hr2.
Qed.

End ClientProperties.

(** The example client in the room of the examples. *)
Definition clientInLobby : NetworkClient.t :=
  Eval vm_compute in
    (NetworkClient.JoinRoom noon true "lobby" 250%float exampleClient).1.

Definition clientLost : NetworkClient.t :=
  Eval vm_compute in NetworkClient.handleDisconnect clientInLobby.

Lemma reconnect_rejoins_with_1000_witness :
  ∃ data,
    ToJSON (joinRequest (noon + 5 * Second) "lobby" 1000%float clientLost) = Some data
    ∧ NetworkClient.actions
        (NetworkClient.attemptReconnect (noon + 5 * Second) (DialOK 2) true
           (NetworkClient.set_spawned [] clientLost))
      = NetworkClient.actions clientLost
        ++ [Slept (5 * Second); Dialed true; Wrote data true].
Proof.
  assert (∃ data,
    ToJSON (joinRequest (noon + 5 * Second) "lobby" 1000%float
              (NetworkClient.set_spawned [] clientLost)) = Some data)
    as [data Hdata] by (eexists; vm_compute; reflexivity).
  exists data. split; [exact Hdata|].
  destruct (reconnect_rejoins_with_1000 (noon + 5 * Second) 2
              (NetworkClient.set_spawned [] clientLost) data)
    as (_ & _ & _ & _ & Ha); [reflexivity|cbn; lia|discriminate|exact Hdata|].
  exact Ha.
Defined.

Lemma Disconnect_still_reconnects_witness :
  NetworkClient.connected clientInLobby = true
  ∧ NetworkClient.spawned
      (NetworkClient.handleDisconnect (NetworkClient.Disconnect clientInLobby))
    = NetworkClient.spawned clientInLobby ++ [GoAttemptReconnect].
Proof.
  split; [reflexivity|].
  destruct (Disconnect_still_reconnects clientInLobby) as (_ & _ & _ & Hs & _);
    [reflexivity|reflexivity|reflexivity|reflexivity|exact Hs].
Defined.

Lemma JoinRoom_then_LeaveRoom_witness :
  ∃ c1 c2,
    NetworkClient.JoinRoom noon true "lobby" 250%float exampleClient = (c1, None)
    ∧ NetworkClient.LeaveRoom (noon + 9 * Second) true c1 = (c2, None)
    ∧ NetworkClient.currentRoom c2 = "".
Proof.
  assert (∃ data1 data2,
    ToJSON (joinRequest noon "lobby" 250%float exampleClient) = Some data1
    ∧ ToJSON (NewMessage (noon + 9 * Second) MsgLeaveRoom "lobby"
                (NetworkClient.playerID exampleClient) DataNil) = Some data2)
    as (data1 & data2 & H1 & H2) by (eexists _, _; split; vm_compute; reflexivity).
  destruct (JoinRoom_then_LeaveRoom noon (noon + 9 * Second) "lobby" 250%float
              exampleClient 1%nat data1 data2)
    as (c1 & c2 & Hj & _ & Hl & Hr & _); [reflexivity|reflexivity|discriminate|exact H1|exact H2|].
  exists c1, c2. split; [exact Hj|]. split; [exact Hl|exact Hr].
Defined.

(** * Further properties of the envelope *)

Lemma marshalFloat_Some f j : marshalFloat f = Some j → j = JNumber (NumFloat f).
Proof. unfold marshalFloat. destruct (_ || _); [done|]. by intros [= <-]. Qed.

Lemma marshalFloat_again f j : marshalFloat f = Some j → marshalFloat f = Some (JNumber (NumFloat f)).
Proof. intros H. by rewrite <- (marshalFloat_Some f j H). Qed.

Section TypedPayloads.
Variable Time_Format : Time → string.
Variable Time_Parse : string → option Time.

(** [GetData] on an envelope whose payload was read from what
    [marshalBetData] wrote. *)
Lemma GetData_BetData_written ty room player t d p :
  marshalBetData d = Some p →
  validUTF8 (BetData.PlayerID d) = true → validUTF8 (BetData.Choice d) = true →
  validUTF8 (BetData.BetID d) = true →
  GetData_BetData Time_Format
    (Message.mk ty room player t (DataAny (unmarshalAny Time_Format p))) = (d, None).
Proof.
  destruct d as [pid amt choice bid]. intros Hp Hpid Hchoice Hbid.
  cbn in Hpid, Hchoice, Hbid. apply validUTF8_eq in Hpid, Hchoice, Hbid.
  unfold marshalBetData, marshalStruct, marshalSide, marshalString in Hp.
  cbn [List.map snd fst sequence BetData.PlayerID BetData.Amount BetData.Choice
       BetData.BetID] in Hp.
  destruct (marshalFloat amt) as [ja|] eqn:Hamt; [|done].
  pose proof (marshalFloat_Some _ _ Hamt) as ->.
  cbn [zip_with] in Hp. injection Hp as <-.
  rewrite Hpid, Hchoice, Hbid.
  unfold GetData_BetData. cbn [Message.Data marshalPayload].
  cbn [unmarshalAny List.map fst snd].
  change (bindAll [("player_id", AString pid); ("amount", AFloat amt);
                   ("choice", AString choice); ("bet_id", AString bid)])
    with [("amount", AFloat amt); ("bet_id", AString bid);
          ("choice", AString choice); ("player_id", AString pid)].
  cbn [marshalAny List.map fst snd sequence]. rewrite Hamt.
  unfold marshalString. cbn [sequence zip_with List.map fst snd].
  rewrite Hpid, Hchoice, Hbid.
  change (coerceUTF8 "amount") with "amount".
  change (coerceUTF8 "bet_id") with "bet_id".
  change (coerceUTF8 "choice") with "choice".
  change (coerceUTF8 "player_id") with "player_id".
  reflexivity.
Qed.

Lemma GetData_RoomJoinData_written ty room player t d p :
  marshalRoomJoinData d = Some p →
  validUTF8 (RoomJoinData.PlayerName d) = true →
  GetData_RoomJoinData Time_Format
    (Message.mk ty room player t (DataAny (unmarshalAny Time_Format p))) = (d, None).
Proof.
  destruct d as [name bal]. intros Hp Hname. cbn in Hname. apply validUTF8_eq in Hname.
  unfold marshalRoomJoinData, marshalStruct, marshalString in Hp.
  cbn [List.map snd fst sequence RoomJoinData.PlayerName RoomJoinData.Balance] in Hp.
  destruct (marshalFloat bal) as [jb|] eqn:Hbal; [|done].
  pose proof (marshalFloat_Some _ _ Hbal) as ->.
  cbn [zip_with] in Hp. injection Hp as <-.
  rewrite Hname.
  unfold GetData_RoomJoinData. cbn [Message.Data marshalPayload].
  cbn [unmarshalAny List.map fst snd].
  change (bindAll [("player_name", AString name); ("balance", AFloat bal)])
    with [("balance", AFloat bal); ("player_name", AString name)].
  cbn [marshalAny List.map fst snd sequence]. rewrite Hbal.
  unfold marshalString. cbn [sequence zip_with List.map fst snd].
  rewrite Hname.
  change (coerceUTF8 "balance") with "balance".
  change (coerceUTF8 "player_name") with "player_name".
  reflexivity.
Qed.

(** X11. The typed payloads come back through [GetData]: when the envelope
    of a bet, or of a request to join, has been written by [ToJSON] and read
    by [FromJSON], [GetData] on the envelope read gives the [BetData], or
    the [RoomJoinData], that was sent, provided its strings are valid
    UTF-8. *)
Theorem GetData_recovers_payload (m m' : Message.t) (j : JSON) :
  ToJSON m = Some j → FromJSON Time_Format Time_Parse j = (m', None) →
  (∀ d, Message.Data m = DataBet d →
        validUTF8 (BetData.PlayerID d) = true → validUTF8 (BetData.Choice d) = true →
        validUTF8 (BetData.BetID d) = true →
        GetData_BetData Time_Format m' = (d, None))
  ∧ (∀ d, Message.Data m = DataJoin d →
          validUTF8 (RoomJoinData.PlayerName d) = true →
          GetData_RoomJoinData Time_Format m' = (d, None)).
Proof.
  intros Hj Hread.
  destruct (ToJSON_Some m j Hj) as (p & Hp & ->).
  rewrite FromJSON_envelope in Hread. injection Hread as <-. split.
  - intros d Hd Hpid Hchoice Hbid. rewrite Hd in Hp.
    by apply GetData_BetData_written.
  - intros d Hd Hname. rewrite Hd in Hp. by apply GetData_RoomJoinData_written.
Qed.

End TypedPayloads.

Lemma GetData_recovers_payload_witness :
  ∃ j m',
    ToJSON betEnvelope = Some j
    ∧ FromJSON (fun _ => "") (fun _ => None) j = (m', None)
    ∧ GetData_BetData (fun _ => "") m'
      = ({| BetData.PlayerID := "P1"; BetData.Amount := 10%float;
            BetData.Choice := game.Heads; BetData.BetID := "bet_1" |}, None).
Proof.
  assert (∃ j m', ToJSON betEnvelope = Some j
                  ∧ FromJSON (fun _ => "") (fun _ => None) j = (m', None))
    as (j & m' & Hj & Hread) by (eexists _, _; split; vm_compute; reflexivity).
  exists j, m'. split; [exact Hj|]. split; [exact Hread|].
  destruct (GetData_recovers_payload (fun _ => "") (fun _ => None) betEnvelope m' j Hj Hread)
    as [Hbet _].
  apply Hbet; reflexivity.
Defined.

(** ** When [ToJSON] fails *)

(** A number that JSON can spell. *)
Definition finite (f : float) : bool :=
  negb (PrimFloat.is_nan f || PrimFloat.is_infinity f).

(** An instant in the years 0 to 9999. *)
Definition inYears (t : Time) : bool :=
  (-62167219200 * Second <=? t) && (t <? 253402300800 * Second).

Fixpoint finiteAny (a : Any) : bool :=
  match a with
  | AFloat f => finite f
  | ASlice l => forallb finiteAny l
  | AMap m => forallb (fun kv => finiteAny (snd kv)) m
  | _ => true
  end.

Definition finiteResult (res : PlayerResult.t) : bool :=
  match PlayerResult.Bet res with
  | Some b => finite (BetData.Amount b)
  | None => true
  end
  && finite (PlayerResult.Payout res) && finite (PlayerResult.NewBalance res).

(** The payloads all of whose numbers are finite and whose time is in the
    years 0 to 9999. *)
Definition encodable (p : Payload) : bool :=
  match p with
  | DataAny a => finiteAny a
  | DataJoin d => finite (RoomJoinData.Balance d)
  | DataRoomUpdate d =>
      forallb (fun p => finite (PlayerInfo.Balance p)) (RoomUpdateData.Players d)
  | DataBet d => finite (BetData.Amount d)
  | DataTimer _ => true
  | DataGameResult d =>
      forallb finiteResult (GameResultData.Winners d)
      && forallb finiteResult (GameResultData.Losers d)
      && inYears (GameResultData.Timestamp d)
  | DataError _ => true
  end.

Lemma sequence_is_Some {A} (l : list (option A)) :
  is_Some (sequence l) ↔ Forall is_Some l.
Proof.
  induction l as [|[x|] l IH]; cbn.
  - split; [constructor|by eexists].
  - rewrite Forall_cons, <- IH. destruct (sequence l); split.
    + intros _. split; by eexists.
    + by eexists.
    + by intros [? ?].
    + by intros [_ [? ?]].
  - rewrite Forall_cons. split; [by intros [? ?]|by intros [[? ?] _]].
Qed.

Lemma marshalStruct_is_Some fields :
  is_Some (marshalStruct fields) ↔ Forall (fun kv => is_Some (snd kv)) fields.
Proof.
  unfold marshalStruct. rewrite <- (List.Forall_map snd is_Some), <- sequence_is_Some.
  destruct (sequence _) as [vs|]; [split; intros _; by eexists|done].
Qed.

Lemma marshalSlice_is_Some nilWhenEmpty l :
  is_Some (marshalSlice nilWhenEmpty l) ↔ Forall is_Some l.
Proof.
  destruct l as [|x l]; [split; [constructor|by eexists]|].
  unfold marshalSlice. rewrite <- sequence_is_Some.
  destruct (sequence _) as [vs|]; [split; intros _; by eexists|done].
Qed.

Lemma marshalFloat_is_Some f : is_Some (marshalFloat f) ↔ finite f = true.
Proof.
  unfold marshalFloat, finite. destruct (_ || _); cbn; split; intros H;
    first [done|by eexists|by destruct H].
Qed.

Lemma marshalTime_is_Some t : is_Some (marshalTime t) ↔ inYears t = true.
Proof.
  unfold marshalTime, inYears. destruct (_ && _); split; intros H;
    first [done|by eexists|by destruct H].
Qed.

Lemma Forall_is_Some_map {A B} (f : A → option B) (ok : A → bool) l :
  (∀ x, is_Some (f x) ↔ ok x = true) →
  Forall is_Some (List.map f l) ↔ forallb ok l = true.
Proof.
  intros H. induction l as [|x l IH]; cbn; [split; [done|constructor]|].
  rewrite Forall_cons, IH, H, andb_true_iff. done.
Qed.

Lemma marshalBetData_is_Some d : is_Some (marshalBetData d) ↔ finite (BetData.Amount d) = true.
Proof.
  unfold marshalBetData. rewrite marshalStruct_is_Some, !Forall_cons. cbn [snd].
  rewrite marshalFloat_is_Some. split; [tauto|]. intros H.
  repeat split; first [done|by eexists|by repeat econstructor].
Qed.

Lemma marshalPlayerInfo_is_Some p :
  is_Some (marshalPlayerInfo p) ↔ finite (PlayerInfo.Balance p) = true.
Proof.
  unfold marshalPlayerInfo. rewrite marshalStruct_is_Some, !Forall_cons. cbn [snd].
  rewrite marshalFloat_is_Some. split; [tauto|]. intros H.
  repeat split; first [done|by eexists|by repeat econstructor].
Qed.

Lemma marshalPlayerResult_is_Some res :
  is_Some (marshalPlayerResult res) ↔ finiteResult res = true.
Proof.
  unfold marshalPlayerResult, finiteResult.
  rewrite marshalStruct_is_Some, !Forall_app, !Forall_cons. cbn [snd].
  rewrite !marshalFloat_is_Some, !andb_true_iff.
  destruct (PlayerResult.Bet res) as [b|].
  - rewrite Forall_singleton. cbn [snd]. rewrite marshalBetData_is_Some.
    split; [tauto|]. intros [[? ?] ?].
    repeat split; first [done|by eexists|by repeat econstructor].
  - split; [tauto|]. intros [[_ ?] ?].
    repeat split; first [done|by eexists|by repeat econstructor].
Qed.

Lemma marshalAny_is_Some a : is_Some (marshalAny a) ↔ finiteAny a = true.
Proof.
  induction a as [| b | f | s | l IH | m IH] using Any_nested_ind; cbn [marshalAny finiteAny].
  - split; [done|by eexists].
  - split; [done|by eexists].
  - apply marshalFloat_is_Some.
  - split; [done|by eexists].
  - assert (H : is_Some (sequence (List.map marshalAny l)) ↔ forallb finiteAny l = true).
    { rewrite sequence_is_Some. induction IH as [|a l Ha _ IHl]; cbn.
      - split; [done|constructor].
      - rewrite Forall_cons, IHl, Ha, andb_true_iff. done. }
    rewrite <- H. destruct (sequence _) as [vs|]; [split; intros _; by eexists|done].
  - assert (H : is_Some (sequence (List.map (fun kv => marshalAny (snd kv)) m))
                ↔ forallb (fun kv => finiteAny (snd kv)) m = true).
    { rewrite sequence_is_Some. induction IH as [|a l Ha _ IHl]; cbn.
      - split; [done|constructor].
      - rewrite Forall_cons, IHl, Ha, andb_true_iff. done. }
    rewrite <- H. destruct (sequence _) as [vs|]; [split; intros _; by eexists|done].
Qed.

Lemma marshalPayload_is_Some p : is_Some (marshalPayload p) ↔ encodable p = true.
Proof.
  destruct p as [a|d|d|d|d|d|d]; cbn [marshalPayload encodable].
  - apply marshalAny_is_Some.
  - unfold marshalRoomJoinData. rewrite marshalStruct_is_Some, !Forall_cons. cbn [snd].
    rewrite marshalFloat_is_Some. split; [tauto|]. intros H.
    repeat split; first [done|by eexists|by repeat econstructor].
  - unfold marshalRoomUpdateData. rewrite marshalStruct_is_Some, !Forall_cons. cbn [snd].
    rewrite marshalSlice_is_Some,
      (Forall_is_Some_map marshalPlayerInfo (fun p => finite (PlayerInfo.Balance p)))
      by apply marshalPlayerInfo_is_Some.
    split; [tauto|]. intros H. repeat split; first [done|by eexists|by repeat econstructor].
  - apply marshalBetData_is_Some.
  - unfold marshalTimerData. rewrite marshalStruct_is_Some, !Forall_cons. cbn [snd].
    split; [done|]. intros _. repeat split; first [done|by eexists|by repeat econstructor].
  - unfold marshalGameResultData. rewrite marshalStruct_is_Some, !Forall_cons. cbn [snd].
    rewrite !marshalSlice_is_Some, marshalTime_is_Some,
      !(Forall_is_Some_map marshalPlayerResult finiteResult)
      by apply marshalPlayerResult_is_Some.
    rewrite !andb_true_iff. split; [tauto|]. intros [[? ?] ?].
    repeat split; first [done|by eexists|by repeat econstructor].
  - unfold marshalErrorData. rewrite marshalStruct_is_Some, Forall_app, !Forall_cons.
    cbn [snd]. split; [done|]. intros _.
    destruct (String.eqb _ _); repeat split; first [done|by eexists|by repeat econstructor].
Qed.

(** X12. [ToJSON] fails in two cases only: the timestamp of the envelope, or
    of a game result in it, lies outside the years 0 to 9999, or a number in
    the payload is NaN or infinite. *)
Theorem ToJSON_defined (m : Message.t) :
  is_Some (ToJSON m)
  ↔ inYears (Message.Timestamp m) = true ∧ encodable (Message.Data m) = true.
Proof.
  unfold ToJSON. rewrite marshalStruct_is_Some, !Forall_cons. cbn [snd].
  rewrite marshalTime_is_Some, marshalPayload_is_Some.
  split; [tauto|]. intros [? ?]. repeat split; first [done|by eexists|by repeat econstructor].
Qed.

(** * Properties of the server's handlers *)

Lemma players_RemovePlayer now playerID r :
  players (RemovePlayer now playerID r).1 !! playerID = None.
Proof.
  destruct (players r !! playerID) as [player|] eqn:Hpl.
  - rewrite (RemovePlayer_present _ _ player) by done. cbn [fst].
    destruct (leave_fields now playerID player r Hpl) as (-> & _).
    apply lookup_delete_eq.
  - by rewrite RemovePlayer_absent.
Qed.

(** What [sendError] leaves alone, when it does not panic. *)
Lemma sendError_keeps now code message client st st' c :
  heap (srv st) !! client = Some c →
  sendError now code message client st = Some st' →
  rooms st' = rooms st ∧ roomHeap st' = roomHeap st ∧ relays st' = relays st
  ∧ clients (srv st') = clients (srv st)
  ∧ ∃ q, heap (srv st') = <[client := with_send q c]> (heap (srv st)).
Proof.
  intros Hc. unfold sendError. rewrite Hc.
  assert (Hsame : heap (srv st) = <[client := with_send (Client.send c) c]> (heap (srv st))).
  { rewrite insert_id; [done|]. rewrite Hc. by destruct c. }
  destruct (ToJSON _) as [data|].
  2:{ intros [= <-]. split_and!; try done. by exists (Client.send c). }
  destruct (Client.sendClosed c); [done|].
  destruct (chan_offer _ _ _) as [q|].
  - intros [= <-]. split_and!; try done. by exists q.
  - intros [= <-]. split_and!; try done. by exists (Client.send c).
Qed.

Lemma sendError_open now code message client st c :
  heap (srv st) !! client = Some c → Client.sendClosed c = false →
  is_Some (sendError now code message client st).
Proof.
  intros Hc Hopen. unfold sendError. rewrite Hc, Hopen.
  destruct (ToJSON _); [|done]. by destruct (chan_offer _ _ _).
Qed.

Section ServerHandlers.

Variable Time_Format : Time → string.
Variable Time_Parse : string → option Time.

(** X13. A bet is placed under the identity of the connection: the player
    ids written in the envelope and in its payload play no part, so two
    requests with the same amount and side have the same effect; and when
    the room takes the bet, the room of the connection is the one updated,
    by [PlaceBet] for the connection's player, and nothing is sent back. *)
Theorem handlePlaceBet_own_identity clk msg msg' client st bet bet' :
  GetData_BetData Time_Format msg = (bet, None) →
  GetData_BetData Time_Format msg' = (bet', None) →
  BetData.Amount bet = BetData.Amount bet' → BetData.Choice bet = BetData.Choice bet' →
  handlePlaceBet Time_Format clk msg client st = handlePlaceBet Time_Format clk msg' client st
  ∧ ∀ c room r,
      heap (srv st) !! client = Some c → Client.room c = Some room →
      roomHeap st !! room = Some r →
      (PlaceBet (atRoom clk) (Client.playerID c) (BetData.Amount bet) (BetData.Choice bet) r).2
      = None →
      handlePlaceBet Time_Format clk msg client st
      = Some (set_roomHeap
                (<[room := (PlaceBet (atRoom clk) (Client.playerID c) (BetData.Amount bet)
                              (BetData.Choice bet) r).1]> (roomHeap st)) st).
Proof.
  intros Hget Hget' Hamount Hchoice. split.
  - unfold handlePlaceBet. by rewrite Hget, Hget', Hamount, Hchoice.
  - intros c room r Hc Hroom Hr Hok. unfold handlePlaceBet, callRoom.
    rewrite Hc, Hroom, Hget, Hr.
    destruct (PlaceBet _ _ _ _ r) as [r' [e|]]; [done|]. done.
Qed.

(** X14. A refused join still renames the connection: when the room asked
    for is full, the connection keeps the room it was in but takes the
    player id and the name of the request, so that what it asks next is done
    under the new id; rooms and registrations are as before. *)
Theorem refused_join_renames_connection clk fresh msg client st c joinData room r :
  GetData_RoomJoinData Time_Format msg = (joinData, None) →
  rooms st !! Message.RoomID msg = Some room → roomHeap st !! room = Some r →
  (len_players r >=? RoomConfig.MaxPlayers (config r)) = true →
  heap (srv st) !! client = Some c → Client.sendClosed c = false →
  ∃ st' c',
    handleJoinRoom Time_Format clk fresh msg client st = Some st'
    ∧ heap (srv st') !! client = Some c'
    ∧ Client.playerID c' = Message.PlayerID msg
    ∧ Client.name c' = RoomJoinData.PlayerName joinData
    ∧ Client.room c' = Client.room c
    ∧ clients (srv st') = clients (srv st)
    ∧ rooms st' = rooms st
    ∧ roomHeap st' = roomHeap st.
Proof.
  intros Hget Hroom Hr Hfull Hc Hopen.
  unfold handleJoinRoom, GetRoom, callRoom. rewrite Hget, Hroom, Hc.
  cbn [roomHeap set_srv]. rewrite Hr.
  rewrite (AddPlayer_full _ _ _ _ _ Hfull).
  set (c1 := Client.mk (Client.room c) (Message.PlayerID msg)
               (RoomJoinData.PlayerName joinData) (Client.send c) (Client.sendClosed c)).
  set (st1 := set_roomHeap (<[room := r]> (roomHeap st))
                (set_srv (set_heap (<[client := c1]> (heap (srv st))) (srv st)) st)).
  assert (Hc1 : heap (srv st1) !! client = Some c1) by apply lookup_insert_eq.
  destruct (sendError_open (atError clk) "join_failed" (Error_string ErrRoomFull) client st1 c1
              Hc1 Hopen) as [st' Hsend].
  destruct (sendError_keeps _ _ _ _ _ _ _ Hc1 Hsend) as (Hrooms & Hheap & _ & Hcl & q & Hq).
  exists st', (with_send q c1). split; [exact Hsend|].
  split; [rewrite Hq; apply lookup_insert_eq|].
  split; [done|]. split; [done|]. split; [done|].
  split; [by rewrite Hcl|]. split; [by rewrite Hrooms|].
  rewrite Hheap. subst st1. cbn [roomHeap set_roomHeap]. by apply insert_id.
Qed.

(** [handleJoinRoom] for a room that does not exist yet. *)
Lemma handleJoinRoom_new clk fresh msg client st c joinData :
  GetData_RoomJoinData Time_Format msg = (joinData, None) →
  rooms st !! Message.RoomID msg = None →
  Z.of_nat (size (rooms st)) < ServerConfig.MaxRooms (serverConfig st) →
  heap (srv st) !! client = Some c →
  let c' :=
    Client.mk (Some fresh) (Message.PlayerID msg) (RoomJoinData.PlayerName joinData)
      (Client.send c) (Client.sendClosed c) in
  let room :=
    admitPlayer (atRoom clk) (Message.PlayerID msg) (RoomJoinData.PlayerName joinData)
      (RoomJoinData.Balance joinData)
      (NewGameRoom (atCreate clk) (Message.RoomID msg) ("Room " +:+ Message.RoomID msg)
         (Some DefaultRoomConfig)) in
  handleJoinRoom Time_Format clk fresh msg client st
  = Some (mkServerState
            (serverLog LogInfo "Player joined room"
               (mkServer (<[client := Some fresh]> (clients (srv st)))
                  (<[client := c']> (<[client :=
                      Client.mk (Client.room c) (Message.PlayerID msg)
                        (RoomJoinData.PlayerName joinData) (Client.send c)
                        (Client.sendClosed c)]> (heap (srv st))))
                  (serverLogger (srv st) ++ [(LogInfo, "Room created")])))
            (<[Message.RoomID msg := fresh]> (rooms st))
            (<[fresh := room]>
               (<[fresh := NewGameRoom (atCreate clk) (Message.RoomID msg)
                             ("Room " +:+ Message.RoomID msg) (Some DefaultRoomConfig)]>
                  (roomHeap st)))
            (serverConfig st)
            (relays st ++ [fresh])).
Proof.
  intros Hget Hnone Hmax Hc. cbv zeta.
  unfold handleJoinRoom, GetRoom, CreateRoom, callRoom. rewrite Hget, Hnone.
  assert (Hlt : (Z.of_nat (size (rooms st)) >=? ServerConfig.MaxRooms (serverConfig st))
                = false) by lia.
  rewrite Hlt, bool_decide_eq_false_2 by (by intros [? ?]).
  cbn [srv heap serverLog set_srv set_heap roomHeap set_roomHeap clients serverLogger
       rooms relays serverConfig].
  rewrite Hc, lookup_insert_eq.
  rewrite AddPlayer_admitted by done.
  reflexivity.
Qed.

(** The room [NewGameRoom] makes, after its first player is admitted. *)
Lemma admitPlayer_first now now' id name cfg playerID playerName balance :
  players (admitPlayer now playerID playerName balance (NewGameRoom now' id name cfg))
  = {[ playerID := newRoomPlayer now playerID playerName balance ]}
  ∧ config (admitPlayer now playerID playerName balance (NewGameRoom now' id name cfg))
    = match cfg with Some c => c | None => DefaultRoomConfig end
  ∧ gameState (admitPlayer now playerID playerName balance (NewGameRoom now' id name cfg))
    = StateWaiting.
Proof.
  destruct (admitPlayer_fields now playerID playerName balance (NewGameRoom now' id name cfg))
    as (-> & _ & -> & _ & ->). done.
Qed.

(** X15. A request to join a room that does not exist makes it: the server,
    if it has fewer than [MaxRooms] rooms, creates the room under the name
    "Room " followed by its id with the default configuration, starts its
    relay, admits the player with the name and the balance of the request,
    and maps the connection, which takes the player's id and name, to the
    room. *)
Theorem handleJoinRoom_opens_room clk fresh msg client st c joinData :
  GetData_RoomJoinData Time_Format msg = (joinData, None) →
  rooms st !! Message.RoomID msg = None →
  Z.of_nat (size (rooms st)) < ServerConfig.MaxRooms (serverConfig st) →
  heap (srv st) !! client = Some c →
  ∃ st' r,
    handleJoinRoom Time_Format clk fresh msg client st = Some st'
    ∧ rooms st' = <[Message.RoomID msg := fresh]> (rooms st)
    ∧ roomHeap st' !! fresh = Some r
    ∧ room_id r = Message.RoomID msg
    ∧ room_name r = "Room " +:+ Message.RoomID msg
    ∧ config r = DefaultRoomConfig
    ∧ players r
      = {[ Message.PlayerID msg :=
             newRoomPlayer (atRoom clk) (Message.PlayerID msg)
               (RoomJoinData.PlayerName joinData) (RoomJoinData.Balance joinData) ]}
    ∧ relays st' = relays st ++ [fresh]
    ∧ clients (srv st') !! client = Some (Some fresh)
    ∧ heap (srv st') !! client
      = Some (Client.mk (Some fresh) (Message.PlayerID msg)
                (RoomJoinData.PlayerName joinData) (Client.send c) (Client.sendClosed c)).
Proof.
  intros Hget Hnone Hmax Hc.
  pose proof (handleJoinRoom_new clk fresh msg client st c joinData Hget Hnone Hmax Hc) as H.
  cbv zeta in H. eexists _, _. split; [exact H|].
  cbn [rooms roomHeap relays srv clients heap serverLog].
  destruct (admitPlayer_first (atRoom clk) (atCreate clk) (Message.RoomID msg)
              ("Room " +:+ Message.RoomID msg) (Some DefaultRoomConfig)
              (Message.PlayerID msg) (RoomJoinData.PlayerName joinData)
              (RoomJoinData.Balance joinData)) as (Hp & Hcfg & _).
  split; [done|]. split; [apply lookup_insert_eq|].
  split.
  { unfold admitPlayer. cbv zeta. by fields. }
  split.
  { unfold admitPlayer, checkAndStartGame, broadcastRoomUpdate, broadcastMessage.
    cbv zeta. destruct (_ && _); destruct (chan_offer _ _ _); reflexivity. }
  split; [exact Hcfg|]. split; [exact Hp|]. split; [done|].
  split; apply lookup_insert_eq.
Qed.

(** X16. Joining and leaving on the server: the connection that made a room
    by joining it and then asks to leave is mapped to no room, and the room
    it leaves stays among the server's rooms, empty. *)
Theorem join_then_leave_empties_room clk clk' fresh msg msg' client st c joinData :
  GetData_RoomJoinData Time_Format msg = (joinData, None) →
  rooms st !! Message.RoomID msg = None →
  Z.of_nat (size (rooms st)) < ServerConfig.MaxRooms (serverConfig st) →
  heap (srv st) !! client = Some c →
  ∃ st1 st2 r,
    handleJoinRoom Time_Format clk fresh msg client st = Some st1
    ∧ handleLeaveRoom clk' msg' client st1 = Some st2
    ∧ rooms st2 !! Message.RoomID msg = Some fresh
    ∧ roomHeap st2 !! fresh = Some r
    ∧ players r = ∅
    ∧ clients (srv st2) !! client = Some None
    ∧ Client.room <$> heap (srv st2) !! client = Some None.
Proof.
  intros Hget Hnone Hmax Hc.
  pose proof (handleJoinRoom_new clk fresh msg client st c joinData Hget Hnone Hmax Hc) as H.
  cbv zeta in H.
  set (room1 := admitPlayer (atRoom clk) (Message.PlayerID msg)
                  (RoomJoinData.PlayerName joinData) (RoomJoinData.Balance joinData)
                  (NewGameRoom (atCreate clk) (Message.RoomID msg)
                     ("Room " +:+ Message.RoomID msg) (Some DefaultRoomConfig))) in *.
  destruct (admitPlayer_first (atRoom clk) (atCreate clk) (Message.RoomID msg)
              ("Room " +:+ Message.RoomID msg) (Some DefaultRoomConfig)
              (Message.PlayerID msg) (RoomJoinData.PlayerName joinData)
              (RoomJoinData.Balance joinData)) as (Hp & _).
  fold room1 in Hp.
  assert (Hin : players room1 !! Message.PlayerID msg
                = Some (newRoomPlayer (atRoom clk) (Message.PlayerID msg)
                          (RoomJoinData.PlayerName joinData) (RoomJoinData.Balance joinData))).
  { rewrite Hp. apply lookup_singleton_eq. }
  eexists _, _, _. split; [exact H|].
  unfold handleLeaveRoom, callRoom.
  cbn [srv heap roomHeap serverLog set_srv set_roomHeap clients serverLogger rooms].
  rewrite lookup_insert_eq. cbn [Client.room Client.playerID].
  rewrite lookup_insert_eq.
  rewrite (RemovePlayer_present _ _ _ _ Hin).
  split; [reflexivity|].
  cbn [srv heap roomHeap serverLog set_srv set_roomHeap clients serverLogger rooms].
  split; [by rewrite lookup_insert_eq|]. split; [apply lookup_insert_eq|].
  split; [|split; [apply lookup_insert_eq|by rewrite lookup_insert_eq]].
  destruct (leave_fields (atRoom clk') _ _ _ Hin) as (-> & _).
  rewrite Hp. apply delete_singleton_eq.
Qed.

End ServerHandlers.

(** X17. A connection that the relay cut off, and that then asks to leave
    its room, brings the server down: [handleLeaveRoom] puts it back among
    the registered connections, and when it is unregistered its channel,
    already closed, is closed again. *)
Theorem cut_off_client_crashes_server clk now msg client st c room r :
  clients (srv st) !! client = None → heap (srv st) !! client = Some c →
  Client.sendClosed c = true → Client.room c = Some room → roomHeap st !! room = Some r →
  ∃ st',
    handleLeaveRoom clk msg client st = Some st'
    ∧ clients (srv st') !! client = Some None
    ∧ unregisterClient now client st' = None.
Proof.
  intros Hcl Hc Hclosed Hroom Hr.
  unfold handleLeaveRoom, callRoom. rewrite Hc, Hroom, Hr.
  destruct (RemovePlayer (atRoom clk) (Client.playerID c) r) as [r' e].
  eexists. split; [reflexivity|].
  cbn [srv clients set_srv]. split; [apply lookup_insert_eq|].
  unfold unregisterClient. cbn [srv clients heap set_srv].
  rewrite !lookup_insert_eq. cbn [Client.sendClosed]. by rewrite Hclosed.
Qed.

(** X18. [unregisterClient] for a registered connection that is in a room
    with an open channel: the connection leaves the registrations, its
    player leaves the room, its channel is closed; unregistering it once
    more changes nothing. *)
Theorem unregisterClient_spec now now' client st c room r :
  clients (srv st) !! client = Some (Some room) → heap (srv st) !! client = Some c →
  Client.sendClosed c = false → Client.playerID c ≠ "" → roomHeap st !! room = Some r →
  ∃ st' r',
    unregisterClient now client st = Some st'
    ∧ clients (srv st') = delete client (clients (srv st))
    ∧ heap (srv st') !! client = Some (closeSend c)
    ∧ roomHeap st' !! room = Some r'
    ∧ players r' !! Client.playerID c = None
    ∧ unregisterClient now' client st' = Some st'.
Proof.
  intros Hcl Hc Hopen Hid Hr.
  unfold unregisterClient at 1. unfold callRoom. rewrite Hcl, Hc.
  apply String.eqb_neq in Hid. rewrite Hid. cbn [negb roomHeap set_srv]. rewrite Hr.
  destruct (RemovePlayer now (Client.playerID c) r) as [r' e] eqn:Hrm.
  cbn [fmap option_fmap option_map fst]. rewrite Hopen.
  eexists _, r'. split; [reflexivity|].
  cbn [srv clients heap set_srv set_roomHeap roomHeap serverLog set_heap set_clients].
  split; [done|]. split; [apply lookup_insert_eq|]. split; [apply lookup_insert_eq|].
  split.
  { replace r' with (RemovePlayer now (Client.playerID c) r).1 by by rewrite Hrm.
    apply players_RemovePlayer. }
  unfold unregisterClient. cbn [srv clients set_srv set_heap set_clients serverLog].
  by rewrite lookup_delete_eq.
Qed.

(** ** Worked examples on the server *)

(** Two bets, as [handleMessage] reads them off the wire; the second names
    another player. *)
Definition betRequest (playerID : string) : Message.t :=
  NewMessage noon MsgBetPlaced "lobby" playerID
    (DataAny (AMap [("amount", AFloat 10%float); ("bet_id", AString "bet_1");
                    ("choice", AString "heads"); ("player_id", AString playerID)])).

(** A server with one connection and no room. *)
Definition serverOfOne : ServerState := handleWebSocket 1%nat (NewServer None).

(** A server whose lobby, at address 7, is in its betting phase, connection
    1 being P1's; a room for one, at address 8, is full. *)
Definition tinyConfig : RoomConfig.t :=
  {| RoomConfig.MinPlayers := 1;
     RoomConfig.MaxPlayers := 1;
     RoomConfig.MinBet := 1%float;
     RoomConfig.MaxBet := 100%float;
     RoomConfig.PayoutRatio := 2%float;
     RoomConfig.BettingDuration := BettingPhaseDuration;
     RoomConfig.ResultDuration := ResultPhaseDuration;
     RoomConfig.RequireConsensus := true |}.

Definition fullRoom : GameRoom :=
  Eval vm_compute in
    (AddPlayer noon "P7" "Guy" 100%float (NewGameRoom noon "tiny" "Room tiny" (Some tinyConfig))).1.

Definition lobbyServer : ServerState :=
  {| srv :=
       mkServer (<[1%nat := Some 7%nat]> ∅)
         (<[1%nat := Client.mk (Some 7%nat) "P1" "Ann" [] false]> ∅) [];
     rooms := <["lobby" := 7%nat]> (<["tiny" := 8%nat]> ∅);
     roomHeap := <[7%nat := bettingRoom]> (<[8%nat := fullRoom]> ∅);
     serverConfig := DefaultServerConfig;
     relays := [7%nat; 8%nat] |}.

Definition tinyJoinEnvelope : Message.t :=
  NewMessage noon MsgJoinRoom "tiny" "P2"
    (DataAny (AMap [("balance", AFloat 50%float); ("player_name", AString "Bob")])).

(** The server of the relay example after the event was relayed: connection
    1, whose buffer was full, is cut off. *)
Definition cutServer : ServerState :=
  {| srv :=
       match broadcastToRoom 7%nat exampleEvent exampleServer with
       | Some s => s
       | None => exampleServer
       end;
     rooms := <["lobby" := 7%nat]> ∅;
     roomHeap := <[7%nat := bettingRoom]> ∅;
     serverConfig := DefaultServerConfig;
     relays := [7%nat] |}.

Lemma handlePlaceBet_own_identity_witness :
  handlePlaceBet noTimeFormat exampleClock (betRequest "P1") 1%nat lobbyServer
  = handlePlaceBet noTimeFormat exampleClock (betRequest "P2") 1%nat lobbyServer
  ∧ ∃ st' r',
      handlePlaceBet noTimeFormat exampleClock (betRequest "P2") 1%nat lobbyServer = Some st'
      ∧ roomHeap st' !! 7%nat = Some r'
      ∧ RoomPlayer.Balance <$> players r' !! "P1" = Some 90%float
      ∧ RoomPlayer.Balance <$> players r' !! "P2" = Some 100%float.
Proof.
  destruct (handlePlaceBet_own_identity noTimeFormat exampleClock (betRequest "P1")
              (betRequest "P2") 1%nat lobbyServer
              {| BetData.PlayerID := "P1"; BetData.Amount := 10%float;
                 BetData.Choice := "heads"; BetData.BetID := "bet_1" |}
              {| BetData.PlayerID := "P2"; BetData.Amount := 10%float;
                 BetData.Choice := "heads"; BetData.BetID := "bet_1" |})
    as [Hsame _]; [vm_compute; reflexivity..|].
  split; [exact Hsame|].
  eexists _, _. split; [vm_compute; reflexivity|].
  split; vm_compute; [reflexivity|]. split; reflexivity.
Defined.

Lemma refused_join_renames_connection_witness :
  ∃ st' c',
    handleJoinRoom noTimeFormat exampleClock 9%nat tinyJoinEnvelope 1%nat lobbyServer = Some st'
    ∧ heap (srv st') !! 1%nat = Some c'
    ∧ Client.playerID c' = "P2"
    ∧ Client.room c' = Some 7%nat.
Proof.
  destruct (refused_join_renames_connection noTimeFormat exampleClock 9%nat tinyJoinEnvelope
              1%nat lobbyServer (Client.mk (Some 7%nat) "P1" "Ann" [] false)
              {| RoomJoinData.PlayerName := "Bob"; RoomJoinData.Balance := 50%float |}
              8%nat fullRoom)
    as (st' & c' & Hjoin & Hc' & Hid & _ & Hroom & _);
    [vm_compute; reflexivity..|].
  exists st', c'. split; [exact Hjoin|]. split; [exact Hc'|]. split; [exact Hid|exact Hroom].
Defined.

Lemma handleJoinRoom_opens_room_witness :
  ∃ st' r,
    handleJoinRoom noTimeFormat exampleClock 7%nat joinEnvelope 1%nat serverOfOne = Some st'
    ∧ rooms st' !! "lobby" = Some 7%nat
    ∧ roomHeap st' !! 7%nat = Some r
    ∧ room_name r = "Room lobby"
    ∧ clients (srv st') !! 1%nat = Some (Some 7%nat).
Proof.
  destruct (handleJoinRoom_opens_room noTimeFormat exampleClock 7%nat joinEnvelope 1%nat
              serverOfOne newClient
              {| RoomJoinData.PlayerName := "Ann"; RoomJoinData.Balance := 100%float |})
    as (st' & r & Hjoin & Hrooms & Hr & _ & Hname & _ & _ & _ & Hcl & _);
    [vm_compute; reflexivity..|].
  exists st', r. split; [exact Hjoin|]. split; [rewrite Hrooms; apply lookup_insert_eq|].
  split; [exact Hr|]. split; [exact Hname|exact Hcl].
Defined.

Lemma join_then_leave_empties_room_witness :
  ∃ st1 st2 r,
    handleJoinRoom noTimeFormat exampleClock 7%nat joinEnvelope 1%nat serverOfOne = Some st1
    ∧ handleLeaveRoom exampleClock (betRequest "P1") 1%nat st1 = Some st2
    ∧ roomHeap st2 !! 7%nat = Some r
    ∧ players r = ∅.
Proof.
  destruct (join_then_leave_empties_room noTimeFormat exampleClock exampleClock 7%nat
              joinEnvelope (betRequest "P1") 1%nat serverOfOne newClient
              {| RoomJoinData.PlayerName := "Ann"; RoomJoinData.Balance := 100%float |})
    as (st1 & st2 & r & Hjoin & Hleave & _ & Hr & Hp & _);
    [vm_compute; reflexivity..|].
  exists st1, st2, r. split; [exact Hjoin|]. split; [exact Hleave|].
  split; [exact Hr|exact Hp].
Defined.

Lemma cut_off_client_crashes_server_witness :
  clients (srv cutServer) !! 1%nat = None
  ∧ ∃ st',
      handleLeaveRoom exampleClock (betRequest "P1") 1%nat cutServer = Some st'
      ∧ unregisterClient (noon + 9 * Second) 1%nat st' = None.
Proof.
  split; [vm_compute; reflexivity|].
  destruct (cut_off_client_crashes_server exampleClock (noon + 9 * Second) (betRequest "P1")
              1%nat cutServer
              (Client.mk (Some 7%nat) "P1" "Ann" (replicate sendCap JNull) true)
              7%nat bettingRoom)
    as (st' & Hleave & _ & Hcrash); [vm_compute; reflexivity..|].
  exists st'. split; [exact Hleave|exact Hcrash].
Defined.

Lemma unregisterClient_spec_witness :
  ∃ st' r',
    unregisterClient (noon + 9 * Second) 1%nat lobbyServer = Some st'
    ∧ roomHeap st' !! 7%nat = Some r'
    ∧ players r' !! "P1" = None
    ∧ clients (srv st') !! 1%nat = None.
Proof.
  destruct (unregisterClient_spec (noon + 9 * Second) noon 1%nat lobbyServer
              (Client.mk (Some 7%nat) "P1" "Ann" [] false) 7%nat bettingRoom)
    as (st' & r' & Hun & Hcl & _ & Hr & Hp & _);
    [vm_compute; reflexivity|vm_compute; reflexivity|reflexivity|discriminate
    |vm_compute; reflexivity|].
  exists st', r'. split; [exact Hun|]. split; [exact Hr|]. split; [exact Hp|].
  rewrite Hcl. apply lookup_delete_eq.
Defined.

(** ** Bets that are not numbers *)

Lemma is_nan_Prim2SF f : PrimFloat.is_nan f = true → Prim2SF f = S754_nan.
Proof.
  unfold PrimFloat.is_nan. rewrite FloatAxioms.eqb_spec. unfold SFeqb.
  destruct (Prim2SF f) as [s|s| |s m e]; cbn.
  - done.
  - by destruct s.
  - done.
  - rewrite Z.compare_refl, Pos.compare_cont_refl. by destruct s.
Qed.

Lemma ltb_nan_l f g : PrimFloat.is_nan f = true → PrimFloat.ltb f g = false.
Proof. intros H%is_nan_Prim2SF. rewrite ltb_spec, H. reflexivity. Qed.

Lemma ltb_nan_r f g : PrimFloat.is_nan f = true → PrimFloat.ltb g f = false.
Proof.
  intros H%is_nan_Prim2SF. rewrite ltb_spec, H. unfold SFltb.
  by destruct (Prim2SF g).
Qed.

Lemma sub_nan f g : PrimFloat.is_nan f = true → PrimFloat.is_nan (PrimFloat.sub g f) = true.
Proof.
  intros H%is_nan_Prim2SF. unfold PrimFloat.is_nan at 1.
  rewrite FloatAxioms.eqb_spec, sub_spec, H. unfold SF64sub.
  by destruct (Prim2SF g).
Qed.

(** X19. [PlaceBet] does not refuse an amount that is not a number: none of
    its comparisons holds for NaN, so in the betting phase the bet of a
    player without a bet is taken, and the player's balance is NaN from then
    on. *)
Theorem PlaceBet_accepts_NaN now playerID amount choice r player rd :
  gameState r = StateBetting → players r !! playerID = Some player →
  currentRound r = Some rd → GameRound.Bets rd !! playerID = None →
  PrimFloat.is_nan amount = true →
  ∃ r' player' rd',
    PlaceBet now playerID amount choice r = (r', None)
    ∧ players r' !! playerID = Some player'
    ∧ PrimFloat.is_nan (RoomPlayer.Balance player') = true
    ∧ currentRound r' = Some rd'
    ∧ is_Some (GameRound.Bets rd' !! playerID).
Proof.
  intros Hs Hp Hrd Hbet Hnan.
  assert (Hacc : betAccepted playerID amount r player rd).
  { repeat split; try done.
    - by apply ltb_nan_l.
    - by apply ltb_nan_r.
    - by apply ltb_nan_r. }
  eexists _, _, _. split; [by apply (PlaceBet_accepted _ _ _ _ _ player rd)|].
  destruct (recordBet_fields now playerID amount choice player rd r) as (-> & -> & _).
  split; [apply lookup_insert_eq|]. split; [by apply sub_nan|]. split; [done|].
  cbn. rewrite lookup_insert_eq. by eexists.
Qed.

Lemma PlaceBet_accepts_NaN_witness :
  ∃ r' player',
    PlaceBet (noon + 5 * Second) "P1" PrimFloat.nan game.Heads bettingRoom = (r', None)
    ∧ players r' !! "P1" = Some player'
    ∧ PrimFloat.is_nan (RoomPlayer.Balance player') = true.
Proof.
  assert (∃ player rd, players bettingRoom !! "P1" = Some player
                       ∧ currentRound bettingRoom = Some rd
                       ∧ GameRound.Bets rd !! "P1" = None)
    as (player & rd & Hp & Hrd & Hbet)
    by (eexists _, _; split; [vm_compute; reflexivity|]; split; [reflexivity|by vm_compute]).
  destruct (PlaceBet_accepts_NaN (noon + 5 * Second) "P1" PrimFloat.nan game.Heads
              bettingRoom player rd eq_refl Hp Hrd Hbet eq_refl)
    as (r' & player' & _ & Hplace & Hp' & Hnan & _).
  exists r', player'. split; [exact Hplace|]. split; [exact Hp'|exact Hnan].
Defined.

(** ** From the room to the connections *)

(** X20. One turn of the relay of a room with an event in its queue. An
    event that does not serialise leaves the queue, an error is logged and no
    connection is touched. For an event that serialises: if the channel of
    every connection mapped to the room is open, the event leaves the queue,
    the rest of the room is untouched, and the event, encoded, reaches the
    buffer of each connection of that room that has space for it; a
    connection whose buffer is full is cut off, and the connections of other
    rooms are left alone; if the channel of a connection mapped to the room
    is closed, the relay panics. *)
Theorem relayEvent_delivers room st r message q :
  roomHeap st !! room = Some r → eventChan r = message :: q →
  (ToJSON message = None →
   relayEvent room st
   = Some (set_srv (serverLog LogError "Failed to serialize message" (srv st))
             (set_roomHeap (<[room := set_eventChan q r]> (roomHeap st)) st)))
  ∧ (∀ data,
       ToJSON message = Some data →
       (membersOpen room (srv st) →
        ∃ st',
          relayEvent room st = Some st'
          ∧ roomHeap st' = <[room := set_eventChan q r]> (roomHeap st)
          ∧ rooms st' = rooms st
          ∧ serverLogger (srv st') = serverLogger (srv st)
          ∧ ∀ client, relayed room data (srv st) (srv st') client)
       ∧ (∀ client c,
            clients (srv st) !! client = Some (Some room) →
            heap (srv st) !! client = Some c →
            Client.sendClosed c = true →
            relayEvent room st = None)).
Proof.
  intros Hr Hq. split.
  { intros Hjson. unfold relayEvent, broadcastToRoom. by rewrite Hr, Hq, Hjson. }
  intros data Hjson. split.
  - intros Hopen. unfold relayEvent, broadcastToRoom. rewrite Hr, Hq, Hjson.
    destruct (relay_loop room data (srv st) (clients (srv st)) Hopen)
      as (s' & -> & Hlog & Hrel).
    eexists. split; [reflexivity|]. split; [done|]. split; [done|]. split; [exact Hlog|].
    intros client. specialize (Hrel client). cbn [srv set_srv].
    unfold relayedOver in Hrel. unfold relayed.
    destruct (clients (srv st) !! client) as [[room'|]|] eqn:Hcl; try done.
    destruct (decide (room' = room)) as [->|]; [|done].
    destruct Hrel as (c & Hc & Hrel). exists c. split; [done|].
    by destruct (_ <? _)%nat.
  - intros client c Hcl Hc Hclosed. unfold relayEvent, broadcastToRoom.
    rewrite Hr, Hq, Hjson.
    rewrite (relay_loop_closed room data (srv st) (clients (srv st)) client Hcl); [done|].
    intros c' Hc'. congruence.
Qed.

Lemma membersOpen_lobbyServer : membersOpen 7%nat (srv lobbyServer).
Proof.
  intros client Hc. cbn [clients srv lobbyServer] in Hc.
  apply lookup_insert_Some in Hc as [[<- _]|[_ Hc]]; [by eexists|].
  by rewrite lookup_empty in Hc.
Qed.

(** The witness of [relayEvent_delivers]: the oldest event of the lobby
    reaches connection 1; and in the server where connection 1, cut off, is
    back in its room, the relay panics. *)
Lemma relayEvent_delivers_witness :
  (∃ st' data c',
     relayEvent 7%nat lobbyServer = Some st'
     ∧ heap (srv st') !! 1%nat = Some c'
     ∧ Client.send c' = [data])
  ∧ relayEvent 7%nat rejoinedServer = None.
Proof.
  split.
  - assert (∃ message q data, eventChan bettingRoom = message :: q
                              ∧ ToJSON message = Some data)
      as (message & q & data & Hq & Hdata)
      by (eexists _, _, _; split; [reflexivity|vm_compute; reflexivity]).
    destruct (relayEvent_delivers 7%nat lobbyServer bettingRoom message q)
      as (_ & Hsome); [vm_compute; reflexivity|exact Hq|].
    destruct (Hsome data Hdata) as (Hopen & _).
    destruct (Hopen membersOpen_lobbyServer) as (st' & Hrelay & _ & _ & _ & Hrel).
    specialize (Hrel 1%nat). unfold relayed in Hrel.
    change (clients (srv lobbyServer) !! 1%nat) with (Some (Some 7%nat)) in Hrel.
    destruct (decide (7%nat = 7%nat)) as [_|Hne]; [|done].
    destruct Hrel as (c & Hc & Hsend).
    change (heap (srv lobbyServer) !! 1%nat)
      with (Some (Client.mk (Some 7%nat) "P1" "Ann" [] false)) in Hc.
    injection Hc as <-. cbn in Hsend. destruct Hsend as [_ Hheap].
    eexists st', data, _. split; [exact Hrelay|]. split; [exact Hheap|]. reflexivity.
  - assert (∃ r message q data c,
              roomHeap rejoinedServer !! 7%nat = Some r
              ∧ eventChan r = message :: q
              ∧ ToJSON message = Some data
              ∧ clients (srv rejoinedServer) !! 1%nat = Some (Some 7%nat)
              ∧ heap (srv rejoinedServer) !! 1%nat = Some c
              ∧ Client.sendClosed c = true)
      as (r & message & q & data & c & Hr & Hq & Hdata & Hcl & Hc & Hclosed)
      by (eexists _, _, _, _, _; split; [vm_compute; reflexivity|];
          split; [reflexivity|]; split; [vm_compute; reflexivity|];
          split; [vm_compute; reflexivity|]; split; [vm_compute; reflexivity|];
          reflexivity).
    destruct (relayEvent_delivers 7%nat rejoinedServer r message q Hr Hq) as (_ & Hsome).
    destruct (Hsome data Hdata) as (_ & Hpanic).
    exact (Hpanic 1%nat c Hcl Hc Hclosed).
Defined.

(** ** From the remote client to the room *)

(** The message the client's [PlaceBet] sends. *)
Definition placeBetRequest (nowID now : Time) (amount : float) (choice : game.Side)
    (c : NetworkClient.t) : Message.t :=
  NewMessage now MsgBetPlaced (NetworkClient.currentRoom c) (NetworkClient.playerID c)
    (DataBet {| BetData.PlayerID := NetworkClient.playerID c;
                BetData.Amount := amount;
                BetData.Choice := choice;
                BetData.BetID := "bet_" +:+ pretty nowID |}).

Lemma client_PlaceBet_ok nowID now amount choice data c h :
  NetworkClient.currentRoom c ≠ "" → NetworkClient.connected c = true →
  NetworkClient.conn c = Some h →
  ToJSON (placeBetRequest nowID now amount choice c) = Some data →
  NetworkClient.PlaceBet nowID now true amount choice c
  = (NetworkClient.log LogInfo "Placed bet" (NetworkClient.act (Wrote data true) c), None).
Proof.
  intros Hroom Hc Hcn Hj. unfold NetworkClient.PlaceBet. cbv zeta.
  apply String.eqb_neq in Hroom. rewrite Hroom, Hc. cbn [negb].
  fold (placeBetRequest nowID now amount choice c).
  by rewrite (sendMessage_ok _ data c h).
Qed.

Section EndToEnd.

Variable Time_Format : Time → string.
Variable Time_Parse : string → option Time.

(** X21. A request to join, from the client to the room: what the client's
    [JoinRoom] writes, handled by the server's [handleMessage] for a room
    that does not exist yet, makes the room and admits the client's player
    in it under the client's name with the balance asked for. *)
Theorem join_request_is_served now balance roomID c h data clk fresh client st sc :
  NetworkClient.connected c = true → NetworkClient.conn c = Some h →
  ToJSON (joinRequest now roomID balance c) = Some data →
  validUTF8 roomID = true → validUTF8 (NetworkClient.playerID c) = true →
  validUTF8 (NetworkClient.playerName c) = true →
  rooms st !! roomID = None →
  Z.of_nat (size (rooms st)) < ServerConfig.MaxRooms (serverConfig st) →
  heap (srv st) !! client = Some sc →
  ∃ c' st' r,
    NetworkClient.JoinRoom now true roomID balance c = (c', None)
    ∧ NetworkClient.actions c' = NetworkClient.actions c ++ [Wrote data true]
    ∧ handleMessage Time_Format Time_Parse clk fresh (Some data) client st = Some st'
    ∧ rooms st' !! roomID = Some fresh
    ∧ roomHeap st' !! fresh = Some r
    ∧ players r
      = {[ NetworkClient.playerID c :=
             newRoomPlayer (atRoom clk) (NetworkClient.playerID c)
               (NetworkClient.playerName c) balance ]}
    ∧ clients (srv st') !! client = Some (Some fresh).
Proof.
  intros Hc Hcn Hj Hroom Hpid Hname Hnone Hmax Hsc.
  eexists _, _, _. split; [by apply (JoinRoom_ok now roomID balance data c h)|].
  split; [reflexivity|].
  destruct (ToJSON_Some _ _ Hj) as (p & Hp & ->).
  cbn [joinRequest NewMessage Message.Type_ Message.RoomID Message.PlayerID
       Message.Timestamp Message.Data marshalPayload] in Hp |- *.
  unfold handleMessage. rewrite FromJSON_envelope.
  change (coerceUTF8 MsgJoinRoom) with MsgJoinRoom.
  rewrite (validUTF8_eq _ Hroom), (validUTF8_eq _ Hpid).
  cbn [Message.Type_]. change (String.eqb MsgJoinRoom MsgJoinRoom) with true. cbv iota.
  pose proof (GetData_RoomJoinData_written Time_Format MsgJoinRoom roomID
                (NetworkClient.playerID c) now _ p Hp Hname) as Hget.
  pose proof (handleJoinRoom_new Time_Format clk fresh _ client st sc _ Hget Hnone Hmax Hsc)
    as Hjoin.
  cbv zeta in Hjoin. cbn [Message.RoomID Message.PlayerID RoomJoinData.PlayerName
                          RoomJoinData.Balance] in Hjoin.
  split; [exact Hjoin|].
  cbn [rooms roomHeap srv clients serverLog].
  split; [apply lookup_insert_eq|]. split; [apply lookup_insert_eq|].
  split; [|apply lookup_insert_eq].
  by destruct (admitPlayer_first (atRoom clk) (atCreate clk) roomID ("Room " +:+ roomID)
                 (Some DefaultRoomConfig) (NetworkClient.playerID c)
                 (NetworkClient.playerName c) balance) as (-> & _).
Qed.

(** X22. A bet, from the client to the room: what the client's [PlaceBet]
    writes, handled by the server's [handleMessage] for a connection that is
    in a room, is the room's [PlaceBet] with the client's amount and side
    for the player of the connection; the room's refusal goes back to the
    connection as a bet_failed error. *)
Theorem bet_request_is_served nowID now amount choice c h data clk fresh client st sc room r :
  NetworkClient.connected c = true → NetworkClient.conn c = Some h →
  NetworkClient.currentRoom c ≠ "" →
  ToJSON (placeBetRequest nowID now amount choice c) = Some data →
  validUTF8 (NetworkClient.currentRoom c) = true →
  validUTF8 (NetworkClient.playerID c) = true →
  validUTF8 choice = true → validUTF8 ("bet_" +:+ pretty nowID) = true →
  heap (srv st) !! client = Some sc → Client.room sc = Some room →
  roomHeap st !! room = Some r →
  ∃ c',
    NetworkClient.PlaceBet nowID now true amount choice c = (c', None)
    ∧ NetworkClient.actions c' = NetworkClient.actions c ++ [Wrote data true]
    ∧ handleMessage Time_Format Time_Parse clk fresh (Some data) client st
      = match PlaceBet (atRoom clk) (Client.playerID sc) amount choice r with
        | (r', None) => Some (set_roomHeap (<[room := r']> (roomHeap st)) st)
        | (r', Some e) =>
            sendError (atError clk) "bet_failed" (Error_string e) client
              (set_roomHeap (<[room := r']> (roomHeap st)) st)
        end.
Proof.
  intros Hc Hcn Hin Hj Hroom Hpid Hchoice Hbid Hsc Hscroom Hr.
  eexists. split; [by apply (client_PlaceBet_ok nowID now amount choice data c h)|].
  split; [reflexivity|].
  destruct (ToJSON_Some _ _ Hj) as (p & Hp & ->).
  cbn [placeBetRequest NewMessage Message.Type_ Message.RoomID Message.PlayerID
       Message.Timestamp Message.Data marshalPayload] in Hp |- *.
  unfold handleMessage. rewrite FromJSON_envelope.
  change (coerceUTF8 MsgBetPlaced) with MsgBetPlaced.
  cbn [Message.Type_].
  change (String.eqb MsgBetPlaced MsgJoinRoom) with false.
  change (String.eqb MsgBetPlaced MsgLeaveRoom) with false.
  change (String.eqb MsgBetPlaced MsgBetPlaced) with true. cbv iota.
  pose proof (GetData_BetData_written Time_Format MsgBetPlaced
                (coerceUTF8 (NetworkClient.currentRoom c))
                (coerceUTF8 (NetworkClient.playerID c)) now _ p Hp Hpid Hchoice Hbid) as Hget.
  unfold handlePlaceBet, callRoom. rewrite Hsc, Hscroom, Hget, Hr.
  cbn [BetData.Amount BetData.Choice].
  by destruct (PlaceBet _ _ _ _ r) as [r' [e|]].
Qed.

End EndToEnd.

Lemma join_request_is_served_witness :
  ∃ data st' r,
    ToJSON (joinRequest noon "lobby" 250%float exampleClient) = Some data
    ∧ handleMessage noTimeFormat noTimeParse exampleClock 7%nat (Some data) 1%nat serverOfOne
      = Some st'
    ∧ roomHeap st' !! 7%nat = Some r
    ∧ RoomPlayer.Balance <$> players r !! "P1" = Some 250%float.
Proof.
  assert (∃ data, ToJSON (joinRequest noon "lobby" 250%float exampleClient) = Some data)
    as [data Hdata] by (eexists; vm_compute; reflexivity).
  destruct (join_request_is_served noTimeFormat noTimeParse noon 250%float "lobby"
              exampleClient 1%nat data exampleClock 7%nat 1%nat serverOfOne newClient)
    as (c' & st' & r & _ & _ & Hserved & _ & Hr & Hp & _);
    [reflexivity|reflexivity|exact Hdata|vm_compute; reflexivity..|].
  exists data, st', r. split; [exact Hdata|]. split; [exact Hserved|]. split; [exact Hr|].
  rewrite Hp. vm_compute. reflexivity.
Defined.

Lemma bet_request_is_served_witness :
  ∃ data st' r',
    ToJSON (placeBetRequest (noon + 4 * Second) (noon + 4 * Second) 10%float game.Heads
              clientInLobby) = Some data
    ∧ handleMessage noTimeFormat noTimeParse exampleClock 9%nat (Some data) 1%nat lobbyServer
      = Some st'
    ∧ roomHeap st' !! 7%nat = Some r'
    ∧ RoomPlayer.Balance <$> players r' !! "P1" = Some 90%float.
Proof.
  assert (∃ data, ToJSON (placeBetRequest (noon + 4 * Second) (noon + 4 * Second) 10%float
                            game.Heads clientInLobby) = Some data)
    as [data Hdata] by (eexists; vm_compute; reflexivity).
  destruct (bet_request_is_served noTimeFormat noTimeParse (noon + 4 * Second)
              (noon + 4 * Second) 10%float game.Heads clientInLobby 1%nat data exampleClock
              9%nat 1%nat lobbyServer (Client.mk (Some 7%nat) "P1" "Ann" [] false) 7%nat
              bettingRoom)
    as (c' & _ & _ & Hserved);
    [reflexivity|reflexivity|discriminate|exact Hdata|vm_compute; reflexivity..|].
  assert (∃ r', PlaceBet (atRoom exampleClock) "P1" 10%float game.Heads bettingRoom
                = (r', None)
                ∧ RoomPlayer.Balance <$> players r' !! "P1" = Some 90%float)
    as (r' & Hplace & Hbal) by (eexists; split; vm_compute; reflexivity).
  cbn [Client.playerID] in Hserved. rewrite Hplace in Hserved.
  eexists data, _, r'. split; [exact Hdata|]. split; [exact Hserved|].
  split; [apply lookup_insert_eq|exact Hbal].
Defined.
